(** * Debian manpage fetcher: the package cache and the extraction pipeline

    A shallow embedding of [main.py] (and of its sibling [fetch.py], which
    shares the cache code and the member loop) together with the properties
    of its path classifier, of the incremental cache update and of the
    per-archive extraction.

    Python values are modelled as follows.
    - [str] is [string]; only ASCII text is considered, so a character is an
      [ascii] and the predicates [str.isspace] and [str.isdigit] are the
      ASCII ones.
    - a [dict] whose iteration order is observable (the cache, the members of
      a package) is an association list in insertion order with unique keys;
      a [dict] used as a record with optional keys is a [Record] whose
      optional keys are [option] fields.
    - an exception is a value of [exn]; code that may raise returns
      [Result]. *)

From Stdlib Require Import String Ascii List ListSet ZArith Bool Lia.
Import ListNotations.

Open Scope string_scope.
Open Scope list_scope.

(** ** Python built-ins used by the program *)

Module Py.

(** [c in s] for a one-character [c]. *)
Fixpoint contains_char (c : ascii) (s : string) : bool :=
  match s with
  | EmptyString => false
  | String a r => Ascii.eqb a c || contains_char c r
  end.

(** [needle in s]. *)
Fixpoint contains (needle s : string) : bool :=
  prefix needle s
  || match s with
     | EmptyString => false
     | String _ r => contains needle r
     end.

(** [s.startswith(p)]. *)
Definition startswith (s p : string) : bool := prefix p s.

(** [s.endswith(suf)]. *)
Definition endswith (s suf : string) : bool :=
  (String.length suf <=? String.length s)%nat
  && String.eqb
       (substring (String.length s - String.length suf)
                  (String.length suf) s)
       suf.

(** [s[:-n]] for [n > 0]. *)
Definition drop_last (n : nat) (s : string) : string :=
  substring 0 (String.length s - n) s.

(** [s[i:]]. *)
Definition slice_from (i : nat) (s : string) : string :=
  substring i (String.length s - i) s.

(** [s[i:j]] for non-negative [i], [j]. *)
Definition slice (i j : nat) (s : string) : string :=
  substring i (j - i) s.

(** [s.count(pat)] for a non-empty [pat]: the number of non-overlapping
    occurrences, found from left to right.  [skip] is the number of
    characters still covered by the occurrence found last. *)
Fixpoint count_from (pat : string) (skip : nat) (s : string) : nat :=
  match s with
  | EmptyString => 0
  | String _ r =>
      match skip with
      | S k => count_from pat k r
      | O =>
          if prefix pat s
          then S (count_from pat (String.length pat - 1) r)
          else count_from pat 0 r
      end
  end.

Definition count (s pat : string) : nat := count_from pat 0 s.

(** [s.rfind(c)] for a one-character [c]: the last index of [c], or [-1]. *)
Fixpoint rfind_from (c : ascii) (s : string) (i last : Z) : Z :=
  match s with
  | EmptyString => last
  | String a r => rfind_from c r (i + 1) (if Ascii.eqb a c then i else last)
  end.

Definition rfind (c : ascii) (s : string) : Z := rfind_from c s 0 (-1).

Fixpoint all_chars (p : ascii -> bool) (s : string) : bool :=
  match s with
  | EmptyString => true
  | String a r => p a && all_chars p r
  end.

Definition is_digit (a : ascii) : bool :=
  let n := nat_of_ascii a in (48 <=? n)%nat && (n <=? 57)%nat.

(** [s.isdigit()]: non-empty and made of digits only. *)
Definition isdigit (s : string) : bool :=
  match s with
  | EmptyString => false
  | _ => all_chars is_digit s
  end.

(** [c.isspace()] on ASCII: tab, line feed, vertical tab, form feed,
    carriage return, the four separators 0x1c-0x1f, and space. *)
Definition is_space (a : ascii) : bool :=
  let n := nat_of_ascii a in
  ((9 <=? n)%nat && (n <=? 13)%nat)
  || ((28 <=? n)%nat && (n <=? 32)%nat).

(** [os.path.basename(p)]: what follows the last ['/'] of [p], or [p]
    itself when it has none. *)
Fixpoint basename (p : string) : string :=
  match p with
  | EmptyString => EmptyString
  | String c r =>
      if contains_char "/" r then basename r
      else if Ascii.eqb c "/" then r
      else p
  end.

(** [os.path.splitext(p)[1]]: the extension starts at the last dot of the
    last path component, unless only dots precede it there. *)
Definition splitext_ext (p : string) : string :=
  let sepIndex := rfind "/" p in
  let dotIndex := rfind "." p in
  if (sepIndex <? dotIndex)%Z then
    let between :=
      slice (Z.to_nat (sepIndex + 1)) (Z.to_nat dotIndex) p in
    if all_chars (fun a => Ascii.eqb a ".") between
    then EmptyString
    else slice_from (Z.to_nat dotIndex) p
  else EmptyString.

(** [os.path.join(a, b)]. *)
Definition join (a b : string) : string :=
  if startswith b "/" then b
  else if String.eqb a "" || endswith a "/" then a ++ b
  else a ++ "/" ++ b.

(** [s.split(c)] for a one-character separator [c]. *)
Fixpoint split (c : ascii) (s : string) : list string :=
  match s with
  | EmptyString => [EmptyString]
  | String a r =>
      if Ascii.eqb a c then EmptyString :: split c r
      else match split c r with
           | [] => [String a EmptyString]
           | w :: ws => String a w :: ws
           end
  end.

Fixpoint drop_while (p : ascii -> bool) (l : list ascii) : list ascii :=
  match l with
  | [] => []
  | a :: r => if p a then drop_while p r else l
  end.

Fixpoint take_while (p : ascii -> bool) (l : list ascii) : list ascii :=
  match l with
  | [] => []
  | a :: r => if p a then a :: take_while p r else []
  end.

(** [s.rsplit(None, 1)]: scanning from the right, trailing white space is
    skipped, the last word is cut off, the white space before it is skipped
    and what remains (leading white space included) is the first item.  The
    lists below hold the characters of [s] in reverse order. *)
Definition rsplit1 (s : string) : list string :=
  let r := drop_while is_space (rev (list_ascii_of_string s)) in
  match r with
  | [] => []
  | _ =>
      let word := take_while (fun a => negb (is_space a)) r in
      let rest := drop_while is_space
                    (drop_while (fun a => negb (is_space a)) r) in
      match rest with
      | [] => [string_of_list_ascii (rev word)]
      | _ => [string_of_list_ascii (rev rest);
              string_of_list_ascii (rev word)]
      end
  end.

(** [s.rsplit(c, 1)] for a one-character separator [c]: [s] is cut at the
    last [c], or left whole when it has none. *)
Fixpoint rsplit_char1 (c : ascii) (s : string) : list string :=
  match s with
  | EmptyString => [EmptyString]
  | String a r =>
      if contains_char c r
      then match rsplit_char1 c r with
           | h :: t => String a h :: t
           | [] => [s]
           end
      else if Ascii.eqb a c then [EmptyString; r]
      else [s]
  end.

(** [s.rstrip('/')]. *)
Fixpoint rstrip_slash (s : string) : string :=
  match s with
  | EmptyString => EmptyString
  | String a r =>
      match rstrip_slash r with
      | EmptyString =>
          if Ascii.eqb a "/" then EmptyString else String a EmptyString
      | r' => String a r'
      end
  end.

(** [(p[:i], p[i:])] for [i = p.rfind('/') + 1]: [p] cut after its last
    ['/'], the first part empty when it has none. *)
Fixpoint cut_last_slash (p : string) : string * string :=
  match p with
  | EmptyString => (EmptyString, EmptyString)
  | String c r =>
      if contains_char "/" r
      then let '(head, tail) := cut_last_slash r in (String c head, tail)
      else if Ascii.eqb c "/" then (String c EmptyString, r)
      else (EmptyString, p)
  end.

(** [os.path.split(p)]: the trailing slashes of the head are dropped unless
    the head is made of slashes only. *)
Definition path_split (p : string) : string * string :=
  let '(head, tail) := cut_last_slash p in
  let head :=
    if negb (String.eqb head "")
       && negb (all_chars (fun a => Ascii.eqb a "/") head)
    then rstrip_slash head
    else head in
  (head, tail).

End Py.

Definition bname := Py.basename.
Definition pjoin := Py.join.

(** ** Helper functions ([manpage_name], [is_manpage]) *)

Definition manpage_name (file : string) : string :=
  let file := if Py.contains_char "/" file then bname file else file in
  if Py.endswith file ".gz" then Py.drop_last 3 file else file.

Definition is_manpage (file : string) : bool :=
  let man_occ := Py.count file "/man" in
  if (man_occ =? 0)%nat then false
  else
    let name := bname file in
    if negb (Py.contains_char "." name) then false
    else
      let name := manpage_name name in
      if negb (Py.contains_char "." name) then false
      else if (1 <? man_occ)%nat && negb (Py.contains "/man/man" file)
      then false
      else
        let ext := Py.splitext_ext name in
        if negb (Py.isdigit (Py.slice 1 2 ext)) then false
        else true.


(** ** Exceptions and results *)

Inductive exn : Type :=
| KeyError
| ValueError
| IndexError
| IOError
| OSError
| FileExistsError
| FileNotFoundError
| NotADirectoryError
| NameError
| RequestException.

Inductive Result (A : Type) : Type :=
| Ok (a : A)
| Raise (e : exn).

Arguments Ok {A} a.
Arguments Raise {A} e.

Definition bind {A B : Type} (r : Result A) (k : A -> Result B) : Result B :=
  match r with
  | Ok a => k a
  | Raise e => Raise e
  end.

Declare Scope result_scope.
Delimit Scope result_scope with result.
Notation "x <- r ;; k" := (bind r (fun x => k))
  (at level 61, r at next level, right associativity) : result_scope.
Notation "' p <- r ;; k" := (bind r (fun x => let p := x in k))
  (at level 61, p pattern, r at next level, right associativity)
  : result_scope.
Open Scope result_scope.

(** [d[k]] on a record-like dict: [KeyError] when the key is missing. *)
Definition getitem {A : Type} (o : option A) : Result A :=
  match o with
  | Some a => Ok a
  | None => Raise KeyError
  end.

(** ** Dictionaries in insertion order *)

Section Dict.

Context {K V : Type}.
Variable K_dec : forall a b : K, {a = b} + {a <> b}.

(** [d.get(k)]. *)
Fixpoint get (k : K) (d : list (K * V)) : option V :=
  match d with
  | [] => None
  | (k', v) :: r => if K_dec k k' then Some v else get k r
  end.

(** [k in d]. *)
Definition has (k : K) (d : list (K * V)) : bool :=
  match get k d with
  | Some _ => true
  | None => false
  end.

(** [d[k] = v]: an existing key keeps its place, a new one goes last. *)
Fixpoint set (k : K) (v : V) (d : list (K * V)) : list (K * V) :=
  match d with
  | [] => [(k, v)]
  | (k', v') :: r =>
      if K_dec k k' then (k, v) :: r else (k', v') :: set k v r
  end.

(** [list(d)]. *)
Definition keys (d : list (K * V)) : list K := map fst d.

End Dict.

(** ** Data model *)

(** [PackageName = namedtuple("PackageName", ['section', 'package'])]. *)
Record PackageName : Type := mkPackageName {
  section : string;
  package : string
}.

Definition PackageName_dec (a b : PackageName) : {a = b} + {a <> b}.
Proof. decide equality; apply string_dec. Defined.

(** One value of [self['members']]: the keys ['name'] and ['state'] are set
    by [add_member], ['link'] by the fetcher. *)
Record Member : Type := mkMember {
  name : string;
  state : Z;
  link : option string
}.

Definition Members := list (string * Member).

(** [class DebianPackage(dict)]: ['flushed'] is set by [__init__], every
    other key may be missing. *)
Record DebianPackage : Type := mkDebianPackage {
  flushed : bool;
  members : option Members;
  ver : option string;
  url : option string;
  desc : option string;
  todelete : option bool
}.

(** [DebianPackage()]. *)
Definition DebianPackage_init : DebianPackage :=
  {| flushed := false; members := None; ver := None; url := None;
     desc := None; todelete := None |}.

(** The pickled object: a [defaultdict(DebianPackage)]. *)
Definition Cache := list (PackageName * DebianPackage).

(** [packages[k]] on the [defaultdict]: a missing key is first bound to
    [DebianPackage()]. *)
Definition getitem_default (k : PackageName) (packages : Cache)
  : DebianPackage :=
  match get PackageName_dec k packages with
  | Some v => v
  | None => DebianPackage_init
  end.

(** One paragraph of the [Packages] file, as [deb822] yields it. *)
Record Stanza : Type := mkStanza {
  b_Section : option string;
  b_Package : option string;
  b_Version : option string;
  b_Filename : option string;
  b_Description : option string
}.

(** [r['todelete'] = True]. *)
Definition set_todelete (r : DebianPackage) : DebianPackage :=
  {| flushed := flushed r; members := members r; ver := ver r;
     url := url r; desc := desc r; todelete := Some true |}.

(** The keys of [r['members']]. *)
Definition member_keys (r : DebianPackage) : list string :=
  match members r with
  | Some ms => keys ms
  | None => []
  end.

(** The member [member] is listed under the key [k] of the cache. *)
Definition registered (k : PackageName) (member : string) (packages : Cache)
  : Prop :=
  exists r ms,
    get PackageName_dec k packages = Some r
    /\ members r = Some ms
    /\ has string_dec member ms = true.

(** ** The package cache ([DebianPackage], [DebianRepo]) *)

Section Repo.

(** [debfile.DebPart._DebPart__normalize_member], a function of the
    python-debian library. *)
Variable normalize_member : string -> string.

Definition add_member (self : DebianPackage) (member : string)
  : DebianPackage :=
  let ms := match members self with
            | Some ms => ms
            | None => []
            end in
  let member := normalize_member member in
  if has string_dec member ms
  then {| flushed := flushed self; members := Some ms; ver := ver self;
          url := url self; desc := desc self; todelete := todelete self |}
  else {| flushed := false;
          members := Some (set string_dec member
                             {| name := manpage_name member;
                                state := 0; link := None |} ms);
          ver := ver self; url := url self; desc := desc self;
          todelete := todelete self |}.

(** [section, package = p.split('/')]. *)
Definition parse_location (p : string) : Result PackageName :=
  match Py.split "/" p with
  | [sec; pkg] => Ok {| section := sec; package := pkg |}
  | _ => Raise ValueError
  end.

(** [file, location = line.rsplit(None, 1)]. *)
Definition parse_row (line : string) : Result (string * string) :=
  match Py.rsplit1 line with
  | [file; location] => Ok (file, location)
  | _ => Raise ValueError
  end.

(** [packages[current_package].add_member(file)]. *)
Definition register (current_package : PackageName) (file : string)
           (packages : Cache) : Cache :=
  set PackageName_dec current_package
      (add_member (getitem_default current_package packages) file)
      packages.

(** The scan of the [Contents] file is written twice, in [rebuild_cache]
    and in [update_cache]; the two copies differ in the statement run for
    each location only, which is the parameter [body] of the three
    definitions below. *)

(** [for p in location.split(',')]. *)
Fixpoint locations_loop {S : Type} (body : PackageName -> string -> S -> S)
         (file : string) (locs : list string) (st : S) : Result S :=
  match locs with
  | [] => Ok st
  | p :: rest =>
      current_package <- parse_location p ;;
      locations_loop body file rest (body current_package file st)
  end.

(** One pass of [for line in fp] below the header. *)
Definition contents_row {S : Type} (body : PackageName -> string -> S -> S)
           (line : string) (st : S) : Result S :=
  ' (file, location) <- parse_row line ;;
  if negb (is_manpage file) then Ok st
  else locations_loop body file (Py.split "," location) st.

(** [for line in fp]: every line up to and including the first one that
    starts with [FILE] is skipped. *)
Fixpoint contents_loop {S : Type} (body : PackageName -> string -> S -> S)
         (in_header : bool) (lines : list string) (st : S) : Result S :=
  match lines with
  | [] => Ok st
  | line :: rest =>
      if in_header
      then contents_loop body (negb (Py.startswith line "FILE")) rest st
      else st' <- contents_row body line st ;;
           contents_loop body false rest st'
  end.

(** The statement of [rebuild_cache]:
    [packages[current_package].add_member(file)]. *)
Definition rebuild_body (current_package : PackageName) (file : string)
           (packages : Cache) : Cache :=
  register current_package file packages.

(** The statements of [update_cache]:
    [packages_with_pages.add(current_package)] and then
    [packages[current_package].add_member(file)]. *)
Definition update_body (current_package : PackageName) (file : string)
           (st : Cache * list PackageName) : Cache * list PackageName :=
  (register current_package file (fst st),
   set_add PackageName_dec current_package (snd st)).

(** [p = PackageName(b['Section'], b['Package'])]. *)
Definition stanza_key (b : Stanza) : Result PackageName :=
  sec <- getitem (b_Section b) ;;
  pkg <- getitem (b_Package b) ;;
  Ok {| section := sec; package := pkg |}.

(** The body of the loop over the paragraphs in [rebuild_cache]. *)
Definition rebuild_stanza (b : Stanza) (packages : Cache) : Result Cache :=
  p <- stanza_key b ;;
  match get PackageName_dec p packages with
  | None => Ok packages
  | Some r =>
      v <- getitem (b_Version b) ;;
      f <- getitem (b_Filename b) ;;
      d <- getitem (b_Description b) ;;
      Ok (set PackageName_dec p
            {| flushed := flushed r; members := members r; ver := Some v;
               url := Some f; desc := Some d; todelete := todelete r |}
            packages)
  end.

(** [for b in deb822.Packages.iter_paragraphs(sequence=fp)]. *)
Fixpoint stanza_loop (body : Stanza -> Cache -> Result Cache)
         (bs : list Stanza) (packages : Cache) : Result Cache :=
  match bs with
  | [] => Ok packages
  | b :: rest =>
      packages' <- body b packages ;; stanza_loop body rest packages'
  end.

(** [ensure_packages_contents_exist]; a missing file is [None]. *)
Definition ensure_packages_contents_exist {A B : Type}
           (contents_file : option A) (packages_file : option B)
  : Result (A * B) :=
  match contents_file, packages_file with
  | Some c, Some p => Ok (c, p)
  | _, _ => Raise IOError
  end.

(** [rebuild_cache]: the result is the object written to the cache file. *)
Definition rebuild_cache (contents_file : option (list string))
           (packages_file : option (list Stanza)) : Result Cache :=
  ' (contents, paragraphs) <-
      ensure_packages_contents_exist contents_file packages_file ;;
  packages <- contents_loop rebuild_body true contents [] ;;
  stanza_loop rebuild_stanza paragraphs packages.

(** [packages[k]['todelete'] = True]. *)
Definition mark_todelete (k : PackageName) (packages : Cache) : Cache :=
  match get PackageName_dec k packages with
  | Some r => set PackageName_dec k (set_todelete r) packages
  | None => packages
  end.

(** [for k in set(packages) - packages_with_pages]. *)
Definition mark_disappeared (packages_with_pages : list PackageName)
           (packages : Cache) : Cache :=
  fold_left (fun acc k => mark_todelete k acc)
    (set_diff PackageName_dec (keys packages) packages_with_pages)
    packages.

(** The body of the loop over the paragraphs in [update_cache]. *)
Definition update_stanza (b : Stanza) (packages : Cache) : Result Cache :=
  p <- stanza_key b ;;
  match get PackageName_dec p packages with
  | None => Ok packages
  | Some r =>
      old <- getitem (ver r) ;;
      v <- getitem (b_Version b) ;;
      if string_dec old v then Ok packages
      else
        f <- getitem (b_Filename b) ;;
        d <- getitem (b_Description b) ;;
        Ok (set PackageName_dec p
              {| flushed := false; members := members r; ver := Some v;
                 url := Some f; desc := Some d; todelete := todelete r |}
              packages)
  end.

(** The set [packages_with_pages] that a scan of the [Contents] file
    builds, whatever the cache it starts from. *)
Definition qualifying_archives (contents : list string)
  : Result (list PackageName) :=
  st <- contents_loop update_body true contents ([], []) ;; Ok (snd st).

(** [update_cache]: [cache_file] is the unpickled cache, [None] when the
    file does not exist; the result is the object written back. *)
Definition update_cache (cache_file : option Cache)
           (contents_file : option (list string))
           (packages_file : option (list Stanza)) : Result Cache :=
  match cache_file with
  | None => rebuild_cache contents_file packages_file
  | Some packages =>
      ' (contents, paragraphs) <-
          ensure_packages_contents_exist contents_file packages_file ;;
      st <- contents_loop update_body true contents (packages, []) ;;
      let packages := mark_disappeared (snd st) (fst st) in
      stanza_loop update_stanza paragraphs packages
  end.

End Repo.

(** ** The registrations of a scan *)

(** The pairs of an archive key and a path for which a scan of the
    [Contents] file runs its statement, in the order of the scan; the
    exception is the one the scan raises. *)
Fixpoint locations_events (file : string) (locs : list string)
  : Result (list (PackageName * string)) :=
  match locs with
  | [] => Ok []
  | p :: rest =>
      current_package <- parse_location p ;;
      evs <- locations_events file rest ;;
      Ok ((current_package, file) :: evs)
  end.

Definition row_events (line : string) : Result (list (PackageName * string)) :=
  ' (file, location) <- parse_row line ;;
  if negb (is_manpage file) then Ok []
  else locations_events file (Py.split "," location).

Fixpoint contents_events (in_header : bool) (lines : list string)
  : Result (list (PackageName * string)) :=
  match lines with
  | [] => Ok []
  | line :: rest =>
      if in_header
      then contents_events (negb (Py.startswith line "FILE")) rest
      else evs <- row_events line ;;
           evs' <- contents_events false rest ;;
           Ok (evs ++ evs')
  end.

Definition apply_events {S : Type} (body : PackageName -> string -> S -> S)
           (evs : list (PackageName * string)) (st : S) : S :=
  fold_left (fun st ev => body (fst ev) (snd ev) st) evs st.

(** The set of the keys of the registrations, built as the scan builds
    [packages_with_pages]. *)
Definition events_keys (evs : list (PackageName * string))
  : list PackageName :=
  fold_left (fun s ev => set_add PackageName_dec (fst ev) s) evs [].

(** python-debian's [__normalize_member]: a leading ["./"] or ["/"] is
    dropped. *)
Definition debian_normalize_member (fname : string) : string :=
  if Py.startswith fname "./" then Py.slice_from 2 fname
  else if Py.startswith fname "/" then Py.slice_from 1 fname
  else fname.


(** ** The world of the fetcher *)

(** A [tarfile.TarInfo]: what the member loop reads of it. *)
Record TarInfo : Type := mkTarInfo {
  issym : bool;
  linkname : string
}.

(** The [data] part of an opened [debfile.DebFile].  [getmember] is
    [data_file.tgz().getmember], [None] standing for its [KeyError];
    [get_file] is [data_file.get_file]. *)
Record DataFile : Type := mkDataFile {
  getmember : string -> option TarInfo;
  get_file : string -> Result string
}.

(** The collaborators of the fetcher.  [DebFile_data] is
    [debfile.DebFile(path).data] as a function of the bytes of the file,
    [None] when it raises; [gunzip] is [gzip.GzipFile(fileobj=f).read()]. *)
Record World : Type := mkWorld {
  package_dir : string;
  requests_get : string -> Result string;
  mkstemp : string;
  DebFile_data : string -> option DataFile;
  gunzip : string -> Result string
}.

(** The file system: the directories and the files with their bytes.  A
    path is taken as it is spelled: two spellings of one place are two
    paths.  The root is a directory without being listed in [dirs], and the
    empty path, as the parent of a relative name, stands for the current
    directory.  Writing to a file is taken to succeed. *)
Record FileSystem : Type := mkFileSystem {
  dirs : list string;
  files : list (string * string)
}.

(** A path made of slashes only. *)
Definition is_root (path : string) : bool :=
  negb (String.eqb path "")
  && Py.all_chars (fun a => Ascii.eqb a "/") path.

(** [os.path.isdir(path)]. *)
Definition isdir (fs : FileSystem) (path : string) : bool :=
  is_root path || existsb (String.eqb path) (dirs fs).

(** [os.path.isfile(path)]. *)
Definition isfile (fs : FileSystem) (path : string) : bool :=
  has string_dec path (files fs).

(** [os.path.exists(path)]. *)
Definition lexists (fs : FileSystem) (path : string) : bool :=
  isdir fs path || isfile fs path.

(** The first lines of [os.makedirs]: [head, tail = path.split(name)],
    and, when [tail] is empty, [head, tail = path.split(head)]. *)
Definition split_name (name : string) : string * string :=
  let '(head, tail) := Py.path_split name in
  if String.eqb tail "" then Py.path_split head else (head, tail).

(** The directory in which [path] names an entry. *)
Definition parent_dir (path : string) : string := fst (split_name path).

Definition add_dir (fs : FileSystem) (path : string) : FileSystem :=
  {| dirs := path :: dirs fs; files := files fs |}.

(** [os.mkdir(path)]: [FileExistsError] when the path exists,
    [NotADirectoryError] when its parent is a file, [FileNotFoundError]
    when its parent is missing or the path is empty. *)
Definition mkdir (fs : FileSystem) (path : string) : Result FileSystem :=
  if lexists fs path then Raise FileExistsError
  else if String.eqb path "" then Raise FileNotFoundError
  else
    let parent := parent_dir path in
    if String.eqb parent "" || isdir fs parent then Ok (add_dir fs path)
    else if isfile fs parent then Raise NotADirectoryError
    else Raise FileNotFoundError.

(** [mkdir(name)] as the last step of [os.makedirs]. *)
Definition mkdir_step (fs : FileSystem) (name : string)
  : FileSystem * option exn :=
  match mkdir fs name with
  | Ok fs' => (fs', None)
  | Raise e => (fs, Some e)
  end.

(** [os.makedirs(name)], with [exist_ok] false: the missing directories
    above [name] are made first, from the top, and then [name] itself.  The
    result is the file system as the call leaves it, with the exception it
    raises if any.  The recursion is on the head of [name], which is
    shorter than [name]; [fuel] bounds it, and the length of [name] is
    enough ([makedirs_rec_fuel] below).  A name that ends in [/.] is not
    made once its head is: the directory is then there under that spelling
    too. *)
Fixpoint makedirs_rec (fuel : nat) (fs : FileSystem) (name : string)
  : FileSystem * option exn :=
  let '(head, tail) := split_name name in
  if negb (String.eqb head "") && negb (String.eqb tail "")
     && negb (lexists fs head)
  then
    match fuel with
    | O => (fs, Some OSError)
    | S fuel' =>
        let '(fs1, err) := makedirs_rec fuel' fs head in
        match err with
        | Some FileExistsError | None =>
            if String.eqb tail "." then (add_dir fs1 name, None)
            else mkdir_step fs1 name
        | Some e => (fs1, Some e)
        end
    end
  else mkdir_step fs name.

Definition makedirs (fs : FileSystem) (name : string)
  : FileSystem * option exn :=
  makedirs_rec (String.length name) fs name.

(** [d] is [name] or a leading part of [name] that ends where a ['/'] of
    [name] starts. *)
Definition path_above (d name : string) : Prop :=
  exists rest,
    name = (d ++ rest)%string
    /\ (rest = "" \/ exists r, rest = String "/" r).

(** [fp = open(path, 'wb'); fp.write(data); fp.close()]. *)
Definition write_file (fs : FileSystem) (path data : string) : FileSystem :=
  {| dirs := dirs fs; files := set string_dec path data (files fs) |}.

Definition unlink (fs : FileSystem) (path : string) : FileSystem :=
  {| dirs := dirs fs;
     files := filter (fun kv => negb (String.eqb (fst kv) path)) (files fs) |}.

(** How a call ends: [return], [return True], or an exception. *)
Inductive Outcome : Type :=
| Returned (v : option bool)
| Raised (e : exn).

(** How one round of the member loop ends: [continue] or the end of the
    body, [return True], or an exception. *)
Inductive Step : Type :=
| Next
| ReturnTrue
| Throw (e : exn).

(** How the member loop ends; [Completed] is the case in which the [else]
    of the [for] runs. *)
Inductive LoopExit : Type :=
| Completed
| Abandoned
| Failed (e : exn).

(** ** The fetcher ([DebianManpageFetcher]) *)

Definition with_state (v : Member) (s : Z) : Member :=
  {| name := name v; state := s; link := link v |}.

Definition with_link (v : Member) (l : string) : Member :=
  {| name := name v; state := state v; link := Some l |}.

Definition with_members (cp : DebianPackage) (ms : Members) (f : bool)
  : DebianPackage :=
  {| flushed := f; members := Some ms; ver := ver cp; url := url cp;
     desc := desc cp; todelete := todelete cp |}.

Section Fetcher.

Variable w : World.

Definition output_dir : string := pjoin (package_dir w) "output".
Definition base_url : string := "http://httpredir.debian.org/debian/".

(** [if not os.path.isdir(container): os.makedirs(container)]. *)
Definition make_container (pkg : string) (fs : FileSystem)
  : FileSystem * option exn :=
  let container := pjoin output_dir pkg in
  if isdir fs container then (fs, None) else makedirs fs container.

(** The directory of the package is there or can be made. *)
Definition container_ready (pkg : string) (fs : FileSystem) : Prop :=
  snd (make_container pkg fs) = None.

(** The body of [for member, v in cp['members'].items()]; [v] is the very
    object [cp['members'][member]]. *)
Definition process_member (data_file : DataFile) (container : string)
           (member : string) (v : Member) (fs : FileSystem)
  : Member * FileSystem * Step :=
  if negb (state v =? 0)%Z then (v, fs, Next)
  else
    match getmember data_file ("./" ++ member) with
    | None => (v, fs, Throw KeyError)
    | Some item =>
        match get_file data_file member with
        | Raise KeyError =>
            if issym item then (with_state v 2, fs, Next)
            else (v, fs, ReturnTrue)
        | Raise e => (v, fs, Throw e)
        | Ok file_contents =>
            let compressed := Py.endswith member ".gz" in
            let v := if issym item
                     then with_link v (manpage_name (linkname item))
                     else v in
            let final_path := pjoin container (name v) in
            let fs := write_file fs final_path "" in
            match (if compressed then gunzip w file_contents
                   else Ok file_contents) with
            | Raise e => (v, fs, Throw e)
            | Ok data =>
                (with_state v 1, write_file fs final_path data, Next)
            end
        end
    end.

Fixpoint member_loop (data_file : DataFile) (container : string)
         (ms : Members) (fs : FileSystem)
  : Members * FileSystem * LoopExit :=
  match ms with
  | [] => ([], fs, Completed)
  | (member, v) :: rest =>
      let '(v', fs', s) := process_member data_file container member v fs in
      match s with
      | Next =>
          let '(rest', fs'', e) := member_loop data_file container rest fs' in
          ((member, v') :: rest', fs'', e)
      | ReturnTrue => ((member, v') :: rest, fs', Abandoned)
      | Throw e => ((member, v') :: rest, fs', Failed e)
      end
  end.

(** [p = [sp for sp in packages if sp.package == package][0]]. *)
Definition find_package (pkg : string) (packages : Cache)
  : Result PackageName :=
  match filter (fun sp => String.eqb (package sp) pkg) (keys packages) with
  | [] => Raise IndexError
  | p :: _ => Ok p
  end.

(** [get_manpages_from_package] of [main.py].  The cache is the shared
    object [DebianManpageFetcher.packages]: what was written to it before
    an early exit stays written. *)
Definition get_manpages_from_package (pkg : string) (packages : Cache)
           (fs : FileSystem) : Cache * FileSystem * Outcome :=
  let container := pjoin output_dir pkg in
  let '(fs, err) := make_container pkg fs in
  match err, find_package pkg packages with
  | Some e, _ => (packages, fs, Raised e)
  | None, Raise e => (packages, fs, Raised e)
  | None, Ok p =>
      let cp := getitem_default p packages in
      if flushed cp then (packages, fs, Returned (Some true))
      else
        match url cp with
        | None => (packages, fs, Raised KeyError)
        | Some u =>
            match requests_get w (base_url ++ u) with
            | Raise e => (packages, fs, Raised e)
            | Ok content =>
                let tmpfile := mkstemp w in
                let fs := write_file fs tmpfile content in
                match match get string_dec tmpfile (files fs) with
                      | Some bytes => DebFile_data w bytes
                      | None => None
                      end with
                | None => (packages, unlink fs tmpfile, Returned None)
                | Some data_file =>
                    match members cp with
                    | None => (packages, fs, Raised KeyError)
                    | Some ms =>
                        let '(ms', fs', e) :=
                          member_loop data_file container ms fs in
                        match e with
                        | Completed =>
                            (set PackageName_dec p
                               (with_members cp ms' true) packages,
                             unlink fs' tmpfile, Returned None)
                        | Abandoned =>
                            (set PackageName_dec p
                               (with_members cp ms' (flushed cp)) packages,
                             fs', Returned (Some true))
                        | Failed x =>
                            (set PackageName_dec p
                               (with_members cp ms' (flushed cp)) packages,
                             fs', Raised x)
                        end
                    end
                end
            end
        end
  end.

(** The file system when the member loop starts: the output directory of
    the package made if need be, the downloaded bytes written to the
    temporary file. *)
Definition fs_at_loop (pkg content : string) (fs : FileSystem)
  : FileSystem :=
  write_file (fst (make_container pkg fs)) (mkstemp w) content.

(** Once the directory of the package is there, the call gets as far as
    the member loop: [p] is the first key with the package name [pkg], its
    record [cp] is not flushed, the archive is downloaded as [content] and
    opens as [data_file], and [ms] are the members of [cp]. *)
Definition reaches_loop (pkg : string) (packages : Cache)
           (p : PackageName) (cp : DebianPackage) (content : string)
           (data_file : DataFile) (ms : Members) : Prop :=
  find_package pkg packages = Ok p
  /\ get PackageName_dec p packages = Some cp
  /\ flushed cp = false
  /\ (exists u, url cp = Some u
                /\ requests_get w (base_url ++ u) = Ok content)
  /\ DebFile_data w content = Some data_file
  /\ members cp = Some ms.

(** A member that the loop passes without leaving: it is not pending, or
    its content is read (and decompressed when its name ends in [.gz]),
    or it is a symbolic link whose content cannot be read. *)
Definition processable (data_file : DataFile) (entry : string * Member)
  : bool :=
  let '(member, v) := entry in
  negb (state v =? 0)%Z
  || match getmember data_file ("./" ++ member) with
     | None => false
     | Some item =>
         match get_file data_file member with
         | Raise KeyError => issym item
         | Raise _ => false
         | Ok file_contents =>
             if Py.endswith member ".gz"
             then match gunzip w file_contents with
                  | Ok _ => true
                  | Raise _ => false
                  end
             else true
         end
     end.

(** What one round may do to the [link] of a member. *)
Definition link_written (data_file : DataFile) (m : string)
           (v v' : Member) : Prop :=
  state v = 0%Z
  /\ exists item c,
      getmember data_file ("./" ++ m) = Some item
      /\ issym item = true
      /\ get_file data_file m = Ok c
      /\ link v' = Some (manpage_name (linkname item)).

(** Along the loop, a [link] is written only to a pending symbolic link
    whose content was read; such a member is never left in state 2, and it
    is in state 1 unless the loop ended in an exception ([failed]). *)
Definition link_discipline (data_file : DataFile) (failed : bool)
           (old new : string * Member) : Prop :=
  fst new = fst old
  /\ (link (snd new) = link (snd old)
      \/ (link_written data_file (fst old) (snd old) (snd new)
          /\ state (snd new) <> 2%Z
          /\ (failed = false -> state (snd new) = 1%Z))).

Definition exit_failed (e : LoopExit) : bool :=
  match e with
  | Failed _ => true
  | _ => false
  end.

Definition outcome_raised (o : Outcome) : bool :=
  match o with
  | Raised _ => true
  | Returned _ => false
  end.

(** [fetchone]: the cache file is rewritten only when the call returns. *)
Definition fetchone (pkg : string) (cache_file : Cache) (fs : FileSystem)
  : Cache * FileSystem * Outcome :=
  let '(packages, fs', o) := get_manpages_from_package pkg cache_file fs in
  match o with
  | Returned _ => (packages, fs', Returned None)
  | Raised e => (cache_file, fs', Raised e)
  end.

End Fetcher.

(** ** The fetcher of [fetch.py] *)

(** [fetch.py] reads the archive from a local mirror: nothing is downloaded
    and no temporary file is made.  The member loop is the one of
    [main.py]. *)
Module FetchPy.

Definition base_mirror_path : string :=
  "/mirror/mirror/mirrors.kernel.org/debian".

(** [get_manpages_from_package] of [fetch.py].  The handler of a failure
    to open the archive calls [os.unlink(tmpfile)], a name that is not
    bound there. *)
Definition get_manpages_from_package (w : World) (pkg : string)
           (packages : Cache) (fs : FileSystem)
  : Cache * FileSystem * Outcome :=
  let container := pjoin (output_dir w) pkg in
  let '(fs, err) := make_container w pkg fs in
  match err, find_package pkg packages with
  | Some e, _ => (packages, fs, Raised e)
  | None, Raise e => (packages, fs, Raised e)
  | None, Ok p =>
      let cp := getitem_default p packages in
      if flushed cp then (packages, fs, Returned (Some true))
      else
        match url cp with
        | None => (packages, fs, Raised KeyError)
        | Some u =>
            let file := pjoin base_mirror_path u in
            match match get string_dec file (files fs) with
                  | Some bytes => DebFile_data w bytes
                  | None => None
                  end with
            | None => (packages, fs, Raised NameError)
            | Some data_file =>
                match members cp with
                | None => (packages, fs, Raised KeyError)
                | Some ms =>
                    let '(ms', fs', e) :=
                      member_loop w data_file container ms fs in
                    match e with
                    | Completed =>
                        (set PackageName_dec p
                           (with_members cp ms' true) packages,
                         fs', Returned None)
                    | Abandoned =>
                        (set PackageName_dec p
                           (with_members cp ms' (flushed cp)) packages,
                         fs', Returned (Some true))
                    | Failed x =>
                        (set PackageName_dec p
                           (with_members cp ms' (flushed cp)) packages,
                         fs', Raised x)
                    end
                end
            end
        end
  end.

End FetchPy.

(** ** Loading the database ([Parser.loaddb]) *)

(** A row of the table [manpages] and a row of the table [packages], as the
    two [INSERT] statements fill them. *)
Record ManpageRow : Type := mkManpageRow {
  row_path : string;
  row_name : string;
  row_section : string;
  row_package : string
}.

Record PackageRow : Type := mkPackageRow {
  prow_package : string;
  prow_filename : string;
  prow_version : string;
  prow_description : string
}.

(** The committed content of the two tables. *)
Record Database : Type := mkDatabase {
  manpages : list ManpageRow;
  packages_table : list PackageRow
}.

(** [for p in location.split(',')] in [loaddb]: the state is the rows
    executed on the cursor and the set [packages_with_pages] of names. *)
Fixpoint loaddb_locations (path name section : string) (locs : list string)
         (st : list ManpageRow * list string)
  : Result (list ManpageRow * list string) :=
  match locs with
  | [] => Ok st
  | p :: rest =>
      current_package <- parse_location p ;;
      loaddb_locations path name section rest
        (fst st ++ [{| row_path := path; row_name := name;
                       row_section := section;
                       row_package := package current_package |}],
         set_add string_dec (package current_package) (snd st))
  end.

(** One pass of [for line in fp] below the header, in [loaddb]. *)
Definition loaddb_row (line : string) (st : list ManpageRow * list string)
  : Result (list ManpageRow * list string) :=
  ' (path, location) <- parse_row line ;;
  if negb (is_manpage path) then Ok st
  else
    match Py.rsplit_char1 "." (manpage_name path) with
    | [name; section] =>
        loaddb_locations path name section (Py.split "," location) st
    | _ => Raise ValueError
    end.

Fixpoint loaddb_lines (in_header : bool) (lines : list string)
         (st : list ManpageRow * list string)
  : Result (list ManpageRow * list string) :=
  match lines with
  | [] => Ok st
  | line :: rest =>
      if in_header
      then loaddb_lines (negb (Py.startswith line "FILE")) rest st
      else st' <- loaddb_row line st ;; loaddb_lines false rest st'
  end.

(** The loop over the paragraphs in [loaddb]. *)
Fixpoint loaddb_paragraphs (packages_with_pages : list string)
         (bs : list Stanza) (rows : list PackageRow)
  : Result (list PackageRow) :=
  match bs with
  | [] => Ok rows
  | b :: rest =>
      pkg <- getitem (b_Package b) ;;
      if set_mem string_dec pkg packages_with_pages
      then
        f <- getitem (b_Filename b) ;;
        v <- getitem (b_Version b) ;;
        d <- getitem (b_Description b) ;;
        loaddb_paragraphs packages_with_pages rest
          (rows ++ [{| prow_package := pkg; prow_filename := f;
                       prow_version := v; prow_description := d |}])
      else loaddb_paragraphs packages_with_pages rest rows
  end.

(** [Parser.loaddb].  The rows executed on a cursor reach the tables at
    [self.conn.commit()]: once after the scan of the [Contents] file, once
    after the loop over the paragraphs.  The result is the committed
    database and how the call ends. *)
Definition loaddb (db : Database) (contents_file : option (list string))
           (packages_file : option (list Stanza))
  : Database * Result unit :=
  match ensure_packages_contents_exist contents_file packages_file with
  | Raise e => (db, Raise e)
  | Ok (contents, paragraphs) =>
      match loaddb_lines true contents ([], []) with
      | Raise e => (db, Raise e)
      | Ok (rows, packages_with_pages) =>
          let db1 := {| manpages := manpages db ++ rows;
                        packages_table := packages_table db |} in
          match loaddb_paragraphs packages_with_pages paragraphs [] with
          | Raise e => (db1, Raise e)
          | Ok prows =>
              ({| manpages := manpages db1;
                  packages_table := packages_table db1 ++ prows |},
               Ok tt)
          end
      end
  end.

(** The row [loaddb] executes for a registration of the scan. *)
Definition row_of_event (ev : PackageName * string) : ManpageRow :=
  match Py.rsplit_char1 "." (manpage_name (snd ev)) with
  | [name; section] =>
      {| row_path := snd ev; row_name := name; row_section := section;
         row_package := package (fst ev) |}
  | _ =>
      {| row_path := snd ev; row_name := manpage_name (snd ev);
         row_section := ""; row_package := package (fst ev) |}
  end.

(** ** Invariants of the cache *)

(** No member is pending. *)
Definition no_pending (ms : Members) : Prop :=
  Forall (fun entry => state (snd entry) <> 0%Z) ms.

(** A record marked [flushed] has no pending member. *)
Definition flushed_sound (packages : Cache) : Prop :=
  forall k r ms,
    get PackageName_dec k packages = Some r ->
    flushed r = true ->
    members r = Some ms ->
    no_pending ms.

(** What a call of the fetcher may do to a member: its key and its name
    stay, a member that is not pending stays as it is, and a pending one
    stays pending or goes to state 1 or 2. *)
Definition member_progress (old new : string * Member) : Prop :=
  fst new = fst old
  /\ name (snd new) = name (snd old)
  /\ (state (snd old) <> 0%Z -> snd new = snd old)
  /\ (state (snd new) = state (snd old)
      \/ (state (snd old) = 0%Z
          /\ (state (snd new) = 1%Z \/ state (snd new) = 2%Z))).

Definition members_progress (old new : option Members) : Prop :=
  match old, new with
  | Some ms, Some ms' => Forall2 member_progress ms ms'
  | None, None => True
  | _, _ => False
  end.

(** The record [add_member] makes for a new member. *)
Definition new_member (member : string) : Member :=
  {| name := manpage_name member; state := 0; link := None |}.

(** The members of a record a scan has just made: each is pending, named
    after its key, and its key is the normalized form of a path that
    [is_manpage] accepts. *)
Definition scanned_members (nm : string -> string) (ms : Members) : Prop :=
  forall m v,
    In (m, v) ms ->
    v = new_member m /\ exists file, is_manpage file = true /\ m = nm file.

(** The records of a cache that a scan alone has made. *)
Definition scanned (nm : string -> string) (packages : Cache) : Prop :=
  forall k r,
    get PackageName_dec k packages = Some r ->
    flushed r = false
    /\ todelete r = None
    /\ exists ms, members r = Some ms /\ ms <> [] /\ scanned_members nm ms.

(** The member [member] is pending under the key [k], whose record is not
    flushed. *)
Definition pending_in (k : PackageName) (member : string) (packages : Cache)
  : Prop :=
  exists r ms,
    get PackageName_dec k packages = Some r
    /\ flushed r = false
    /\ members r = Some ms
    /\ get string_dec member ms = Some (new_member member).

(** ** A small repository, used to run the definitions *)

Definition demo_paragraph (version filename : string) : Stanza :=
  {| b_Section := Some "main"; b_Package := Some "foo";
     b_Version := Some version; b_Filename := Some filename;
     b_Description := Some "Foo tool" |}.

Definition demo_key : PackageName := {| section := "main"; package := "foo" |}.

Definition pending (member : string) : string * Member :=
  (member, {| name := manpage_name member; state := 0; link := None |}).

Definition demo_record (ms : Members) : DebianPackage :=
  {| flushed := false; members := Some ms; ver := Some "1.0";
     url := Some "pool/f/foo.deb"; desc := Some "Foo tool";
     todelete := None |}.

(** An archive with a regular page [foo.1.gz], a symbolic link [bar.1.gz]
    to it, a symbolic link [dangling.1.gz] whose target [gone.1.gz] is not
    in the archive, and a hard link [lost.1.gz] whose target is not in the
    archive either.  Reading a link whose target is missing raises
    [KeyError]. *)
Definition demo_data : DataFile :=
  {| getmember := fun path =>
       if String.eqb path "./usr/share/man/man1/foo.1.gz"
       then Some {| issym := false; linkname := "" |}
       else if String.eqb path "./usr/share/man/man1/bar.1.gz"
       then Some {| issym := true; linkname := "foo.1.gz" |}
       else if String.eqb path "./usr/share/man/man1/dangling.1.gz"
       then Some {| issym := true; linkname := "gone.1.gz" |}
       else if String.eqb path "./usr/share/man/man1/lost.1.gz"
       then Some {| issym := false;
                    linkname := "usr/share/man/man1/gone.1.gz" |}
       else None;
     get_file := fun member =>
       if String.eqb member "usr/share/man/man1/foo.1.gz" then Ok "gz:FOO"
       else if String.eqb member "usr/share/man/man1/bar.1.gz" then Ok "gz:FOO"
       else Raise KeyError |}.

Definition demo_world : World :=
  {| package_dir := "/srv/fetcher";
     requests_get := fun _ => Ok "deb";
     mkstemp := "/tmp/tmpab12cd";
     DebFile_data := fun bytes =>
       if String.eqb bytes "deb" then Some demo_data else None;
     gunzip := fun bytes =>
       if prefix "gz:" bytes then Ok (Py.slice_from 3 bytes)
       else Raise OSError |}.

Definition demo_fs : FileSystem := {| dirs := []; files := [] |}.

(** A cache whose package [foo] lists the link [bar.1.gz] and the dangling
    link. *)
Definition links_cache : Cache :=
  [(demo_key,
    demo_record [pending "usr/share/man/man1/bar.1.gz";
                 pending "usr/share/man/man1/dangling.1.gz"])].

(** A cache whose package [foo] lists the regular page, the hard link whose
    target is missing, and the link [bar.1.gz]. *)
Definition lost_cache : Cache :=
  [(demo_key,
    demo_record [pending "usr/share/man/man1/foo.1.gz";
                 pending "usr/share/man/man1/lost.1.gz";
                 pending "usr/share/man/man1/bar.1.gz"])].


(** A file system in which the path of the output directory of the package
    [nosuch] is taken by a regular file. *)
Definition blocked_fs : FileSystem :=
  {| dirs := ["/srv"; "/srv/fetcher"; "/srv/fetcher/output"];
     files := [("/srv/fetcher/output/nosuch", "")] |}.

(** A [Contents] file with its header, and paragraphs of [Packages]. *)
Definition demo_contents : list string :=
  ["This file maps each file available in the Debian system";
   "FILE                        LOCATION";
   "usr/bin/foo                 main/foo";
   "usr/share/man/man1/foo.1.gz main/foo"].

Definition old_key : PackageName := {| section := "main"; package := "old" |}.

Definition old_paragraph : Stanza :=
  {| b_Section := Some "main"; b_Package := Some "old";
     b_Version := Some "0.9"; b_Filename := Some "pool/o/old.deb";
     b_Description := Some "Old tool" |}.

(** An archive extracted in full. *)
Definition old_record : DebianPackage :=
  {| flushed := true;
     members := Some [("usr/share/man/man1/old.1.gz",
                       {| name := "old.1"; state := 1; link := None |})];
     ver := Some "0.9"; url := Some "pool/o/old.deb";
     desc := Some "Old tool"; todelete := None |}.

Definition extracted_record (version filename : string) : DebianPackage :=
  {| flushed := true;
     members := Some [("usr/share/man/man1/foo.1.gz",
                       {| name := "foo.1"; state := 1; link := None |})];
     ver := Some version; url := Some filename;
     desc := Some "Foo tool"; todelete := None |}.

(** A cache with [foo] at version 1.0 and with [old], which the [Contents]
    file above does not list any more. *)
Definition two_cache : Cache :=
  [(demo_key, extracted_record "1.0" "pool/f/foo_1.0.deb");
   (old_key, old_record)].

(** An archive that the cache does not hold yet: its paragraph, and a
    [Contents] file that lists its page after those of [foo]. *)
Definition new_key : PackageName := {| section := "main"; package := "new" |}.

Definition new_paragraph : Stanza :=
  {| b_Section := Some "main"; b_Package := Some "new";
     b_Version := Some "0.1"; b_Filename := Some "pool/n/new.deb";
     b_Description := Some "New tool" |}.

Definition appearing_contents : list string :=
  demo_contents ++ ["usr/share/man/man1/new.1.gz main/new"].

(** A cache with [foo] alone, extracted at version 1.0. *)
Definition foo_cache : Cache :=
  [(demo_key, extracted_record "1.0" "pool/f/foo_1.0.deb")].

(** The record of a member under a key of the cache a call leaves. *)
Definition member_after (run : Cache * FileSystem * Outcome)
           (k : PackageName) (member : string) : option Member :=
  match get PackageName_dec k (fst (fst run)) with
  | Some cp =>
      match members cp with
      | Some ms => get string_dec member ms
      | None => None
      end
  | None => None
  end.

Definition links_run : Cache * FileSystem * Outcome :=
  get_manpages_from_package demo_world "foo" links_cache demo_fs.

Definition lost_run : Cache * FileSystem * Outcome :=
  get_manpages_from_package demo_world "foo" lost_cache demo_fs.


(** A cache in which two sections hold a package [foo]. *)
Definition contrib_key : PackageName :=
  {| section := "contrib"; package := "foo" |}.

Definition shadow_cache : Cache :=
  links_cache
  ++ [(contrib_key, demo_record [pending "usr/share/man/man1/foo.1.gz"])].

Definition shadow_run : Cache * FileSystem * Outcome :=
  get_manpages_from_package demo_world "foo" shadow_cache demo_fs.

(** A mirror that holds the archive of [foo], and the call of [fetch.py]
    on it. *)
Definition mirror_fs : FileSystem :=
  {| dirs := [];
     files := [(pjoin FetchPy.base_mirror_path "pool/f/foo.deb", "deb")] |}.

Definition mirror_run : Cache * FileSystem * Outcome :=
  FetchPy.get_manpages_from_package demo_world "foo" links_cache mirror_fs.

(** * Properties *)

(** ** The path classifier *)

Lemma contains_char_basename (p : string) :
  Py.contains_char "/" (Py.basename p) = false.
Proof.
  induction p as [|c r IH]; simpl; [reflexivity|].
  destruct (Py.contains_char "/" r) eqn:Hr; [exact IH|].
  destruct (Ascii.eqb c "/") eqn:Hc; [exact Hr|].
  simpl. rewrite Hc, Hr. reflexivity.
Qed.

Lemma contains_char_substring (c : ascii) (s : string) :
  Py.contains_char c s = false ->
  forall n m, Py.contains_char c (substring n m s) = false.
Proof.
  induction s as [|a r IH]; intros H n m.
  - destruct n, m; reflexivity.
  - simpl in H. apply orb_false_iff in H. destruct H as [Ha Hr].
    destruct n as [|n]; simpl.
    + destruct m as [|m]; simpl; [reflexivity|].
      rewrite Ha. simpl. apply IH. exact Hr.
    + apply IH. exact Hr.
Qed.

Lemma length_substring_0 (s : string) (n : nat) :
  String.length (substring 0 n s) = Nat.min n (String.length s).
Proof.
  revert n. induction s as [|a r IH]; intros [|n]; simpl; try reflexivity.
  rewrite IH. reflexivity.
Qed.

(** What [manpage_name] does to a name without a slash. *)
Lemma manpage_name_no_slash (y : string) :
  Py.contains_char "/" y = false ->
  manpage_name y = if Py.endswith y ".gz" then Py.drop_last 3 y else y.
Proof. intros H. unfold manpage_name. rewrite H. reflexivity. Qed.

Lemma manpage_name_slash_free (x : string) :
  Py.contains_char "/" (manpage_name x) = false.
Proof.
  unfold manpage_name.
  set (y := if Py.contains_char "/" x then bname x else x).
  assert (Hy : Py.contains_char "/" y = false).
  { subst y. destruct (Py.contains_char "/" x) eqn:Hx.
    - apply contains_char_basename.
    - exact Hx. }
  destruct (Py.endswith y ".gz"); [|exact Hy].
  apply contains_char_substring. exact Hy.
Qed.

Lemma drop_last_shorter (y : string) :
  Py.endswith y ".gz" = true -> Py.drop_last 3 y <> y.
Proof.
  intros H E. unfold Py.endswith in H. apply andb_true_iff in H.
  destruct H as [Hlen _]. apply Nat.leb_le in Hlen. simpl in Hlen.
  apply (f_equal String.length) in E. unfold Py.drop_last in E.
  rewrite length_substring_0 in E. lia.
Qed.

(** C5: [is_manpage] accepts [/usr/share/man/man1/ls.1.gz] and rejects the
    localized page [/usr/share/man/fr/man1/ls.1.gz], the binary
    [/usr/bin/ls] and the page without extension [/usr/share/man/man1/ls]. *)
Theorem is_manpage_examples :
  is_manpage "/usr/share/man/man1/ls.1.gz" = true
  /\ is_manpage "/usr/share/man/fr/man1/ls.1.gz" = false
  /\ is_manpage "/usr/bin/ls" = false
  /\ is_manpage "/usr/share/man/man1/ls" = false.
Proof. repeat split; vm_compute; reflexivity. Qed.

(** C4, as stated, fails: [manpage_name] strips one [.gz] only, so a name
    that ends in [.gz.gz] loses a suffix at each application. *)
Lemma manpage_name_not_idempotent :
  manpage_name (manpage_name "foo.1.gz.gz") <> manpage_name "foo.1.gz.gz".
Proof. vm_compute. discriminate. Qed.

(** C4, amended: applying [manpage_name] twice gives the same result as
    applying it once exactly when the first result does not itself end in
    [.gz]. *)
Theorem manpage_name_idempotent_iff (x : string) :
  manpage_name (manpage_name x) = manpage_name x
  <-> Py.endswith (manpage_name x) ".gz" = false.
Proof.
  rewrite (manpage_name_no_slash (manpage_name x))
    by apply manpage_name_slash_free.
  destruct (Py.endswith (manpage_name x) ".gz") eqn:He; split; intros H.
  - exfalso. exact (drop_last_shorter _ He H).
  - discriminate H.
  - reflexivity.
  - reflexivity.
Qed.

(** ** Dictionaries *)

Section DictFacts.

Context {K V : Type}.
Variable K_dec : forall a b : K, {a = b} + {a <> b}.

Lemma get_set_eq (k : K) (v : V) (d : list (K * V)) :
  get K_dec k (set K_dec k v d) = Some v.
Proof.
  induction d as [|[k' v'] r IH]; simpl.
  - destruct (K_dec k k); congruence.
  - destruct (K_dec k k') as [E|N]; simpl.
    + destruct (K_dec k k); congruence.
    + destruct (K_dec k k'); congruence.
Qed.

Lemma get_set_neq (k k' : K) (v : V) (d : list (K * V)) :
  k' <> k -> get K_dec k' (set K_dec k v d) = get K_dec k' d.
Proof.
  intros N. induction d as [|[k0 v0] r IH]; simpl.
  - destruct (K_dec k' k); congruence.
  - destruct (K_dec k k0) as [E|N0]; simpl.
    + subst k0. destruct (K_dec k' k); congruence.
    + destruct (K_dec k' k0); congruence.
Qed.

Lemma set_get_same (k : K) (v : V) (d : list (K * V)) :
  get K_dec k d = Some v -> set K_dec k v d = d.
Proof.
  induction d as [|[k' v'] r IH]; simpl; intros H.
  - discriminate H.
  - destruct (K_dec k k') as [E|N].
    + congruence.
    + rewrite IH by exact H. reflexivity.
Qed.

Lemma get_In_keys (k : K) (d : list (K * V)) :
  (exists v, get K_dec k d = Some v) <-> In k (keys d).
Proof.
  induction d as [|[k' v'] r IH]; simpl.
  - split; [intros [v H]; discriminate H | intros []].
  - destruct (K_dec k k') as [E|N].
    + split; [intros _; left; congruence | intros _; eauto].
    + rewrite IH. split; [auto | intros [E|H]; congruence].
Qed.

Lemma has_In_keys (k : K) (d : list (K * V)) :
  has K_dec k d = true <-> In k (keys d).
Proof.
  rewrite <- get_In_keys. unfold has.
  destruct (get K_dec k d); split; eauto; try discriminate.
  intros [v H]. discriminate H.
Qed.

Lemma has_set (k k' : K) (v : V) (d : list (K * V)) :
  has K_dec k' (set K_dec k v d)
  = if K_dec k' k then true else has K_dec k' d.
Proof.
  unfold has. destruct (K_dec k' k) as [E|N].
  - subst k'. rewrite get_set_eq. reflexivity.
  - rewrite get_set_neq by exact N. reflexivity.
Qed.

Lemma In_keys_set (k k' : K) (v : V) (d : list (K * V)) :
  In k' (keys (set K_dec k v d)) <-> k' = k \/ In k' (keys d).
Proof.
  rewrite <- !has_In_keys, has_set.
  destruct (K_dec k' k); intuition congruence.
Qed.

(** The first binding of a key is the one [get] returns. *)
Lemma get_app_first (k : K) (v : V) (pre post : list (K * V)) :
  ~ In k (keys pre) -> get K_dec k (pre ++ (k, v) :: post) = Some v.
Proof.
  induction pre as [|[k' v'] r IH]; simpl; intros H.
  - destruct (K_dec k k); congruence.
  - destruct (K_dec k k') as [E|N]; [exfalso; auto|].
    apply IH. auto.
Qed.

Lemma set_app_first (k : K) (v v' : V) (pre post : list (K * V)) :
  ~ In k (keys pre) ->
  set K_dec k v' (pre ++ (k, v) :: post) = pre ++ (k, v') :: post.
Proof.
  induction pre as [|[k0 v0] r IH]; simpl; intros H.
  - destruct (K_dec k k); congruence.
  - destruct (K_dec k k0) as [E|N]; [exfalso; auto|].
    rewrite IH by auto. reflexivity.
Qed.

(** A cut of the keys is a cut of the dictionary. *)
Lemma keys_split (d : list (K * V)) (kpre : list K) (k : K)
      (kpost : list K) :
  keys d = kpre ++ k :: kpost ->
  exists pre v post,
    d = pre ++ (k, v) :: post /\ keys pre = kpre /\ keys post = kpost.
Proof.
  revert kpre. induction d as [|[k0 v0] r IH]; intros kpre H.
  - destruct kpre; discriminate H.
  - destruct kpre as [|k1 kpre]; simpl in H; inversion H; subst.
    + exists [], v0, r. repeat split.
    + destruct (IH kpre H2) as (pre & v & post & E & Epre & Epost).
      exists ((k1, v0) :: pre), v, post. simpl. subst.
      repeat split.
Qed.

End DictFacts.

(** ** The scan of the [Contents] file *)

Section ScanFacts.

Context {S : Type}.
Variable body : PackageName -> string -> S -> S.

Lemma locations_loop_events (file : string) (locs : list string) (st : S) :
  locations_loop body file locs st
  = (evs <- locations_events file locs ;; Ok (apply_events body evs st)).
Proof.
  revert st. induction locs as [|p rest IH]; intros st; simpl.
  - reflexivity.
  - destruct (parse_location p) as [k|e]; simpl; [|reflexivity].
    rewrite IH. destruct (locations_events file rest); reflexivity.
Qed.

Lemma contents_row_events (line : string) (st : S) :
  contents_row body line st
  = (evs <- row_events line ;; Ok (apply_events body evs st)).
Proof.
  unfold contents_row, row_events.
  destruct (parse_row line) as [[file location]|e]; simpl; [|reflexivity].
  destruct (negb (is_manpage file)); [reflexivity|].
  apply locations_loop_events.
Qed.

(** A scan is the fold of its statement over its registrations. *)
Lemma contents_loop_events (in_header : bool) (lines : list string) (st : S) :
  contents_loop body in_header lines st
  = (evs <- contents_events in_header lines ;;
     Ok (apply_events body evs st)).
Proof.
  revert in_header st.
  induction lines as [|line rest IH]; intros in_header st; simpl.
  - reflexivity.
  - destruct in_header; [apply IH|].
    rewrite contents_row_events.
    destruct (row_events line) as [evs|e]; simpl; [|reflexivity].
    rewrite IH.
    destruct (contents_events false rest) as [evs'|e]; simpl; [|reflexivity].
    unfold apply_events. rewrite fold_left_app. reflexivity.
Qed.

End ScanFacts.





(** ** Registering members *)

Lemma seen_In (evs : list (PackageName * string)) (seen : list PackageName)
      (k : PackageName) :
  In k (fold_left (fun s ev => set_add PackageName_dec (fst ev) s) evs seen)
  <-> In k seen \/ In k (map fst evs).
Proof.
  revert seen. induction evs as [|[k' f] evs IH]; intros seen; simpl.
  - tauto.
  - rewrite IH, set_add_iff. intuition congruence.
Qed.

Section RegisterFacts.

Variable nm : string -> string.

Lemma add_member_listed (r : DebianPackage) (ms : Members) (file : string) :
  members r = Some ms ->
  has string_dec (nm file) ms = true ->
  add_member nm r file = r.
Proof.
  intros Hms Hhas. unfold add_member. rewrite Hms, Hhas.
  destruct r. simpl in *. subst. reflexivity.
Qed.

Lemma add_member_meta (r : DebianPackage) (file : string) :
  ver (add_member nm r file) = ver r
  /\ url (add_member nm r file) = url r
  /\ desc (add_member nm r file) = desc r
  /\ todelete (add_member nm r file) = todelete r.
Proof.
  unfold add_member.
  destruct (has string_dec (nm file) _); simpl; auto.
Qed.

Lemma add_member_lists (r : DebianPackage) (file : string) :
  exists ms,
    members (add_member nm r file) = Some ms
    /\ has string_dec (nm file) ms = true.
Proof.
  unfold add_member.
  destruct (has string_dec (nm file) _) eqn:Hhas; simpl;
    eexists; (split; [reflexivity|]).
  - exact Hhas.
  - rewrite has_set. destruct (string_dec (nm file) (nm file)); congruence.
Qed.

Lemma add_member_keeps (r : DebianPackage) (ms : Members)
      (file m : string) :
  members r = Some ms ->
  has string_dec m ms = true ->
  exists ms',
    members (add_member nm r file) = Some ms'
    /\ has string_dec m ms' = true.
Proof.
  intros Hms Hhas. unfold add_member. rewrite Hms.
  destruct (has string_dec (nm file) ms); simpl;
    eexists; (split; [reflexivity|]).
  - exact Hhas.
  - rewrite has_set, Hhas. destruct (string_dec m (nm file)); reflexivity.
Qed.

Lemma register_other (k k' : PackageName) (file : string) (c : Cache) :
  k' <> k ->
  get PackageName_dec k' (register nm k file c) = get PackageName_dec k' c.
Proof. intros N. unfold register. apply get_set_neq. exact N. Qed.

Lemma register_noop (k : PackageName) (file : string) (c : Cache) :
  registered k (nm file) c -> register nm k file c = c.
Proof.
  intros (r & ms & Hget & Hms & Hhas). unfold register, getitem_default.
  rewrite Hget, (add_member_listed r ms file Hms Hhas).
  apply set_get_same. exact Hget.
Qed.

Lemma register_registers (k : PackageName) (file : string) (c : Cache) :
  registered k (nm file) (register nm k file c).
Proof.
  destruct (add_member_lists (getitem_default k c) file) as (ms & Hms & Hhas).
  exists (add_member nm (getitem_default k c) file), ms.
  split; [apply get_set_eq | auto].
Qed.

Lemma register_mono (k k' : PackageName) (m file : string) (c : Cache) :
  registered k m c -> registered k m (register nm k' file c).
Proof.
  intros (r & ms & Hget & Hms & Hhas).
  destruct (PackageName_dec k k') as [E|N].
  - subst k'.
    destruct (add_member_keeps r ms file m Hms Hhas) as (ms' & Hms' & Hhas').
    exists (add_member nm r file), ms'. unfold register, getitem_default.
    rewrite Hget. split; [apply get_set_eq | auto].
  - exists r, ms. rewrite register_other by exact N. auto.
Qed.

(** Registering keeps every record and what the metadata wrote to it. *)
Lemma register_meta (k k' : PackageName) (file : string) (c : Cache)
      (r : DebianPackage) :
  get PackageName_dec k' c = Some r ->
  exists r',
    get PackageName_dec k' (register nm k file c) = Some r'
    /\ ver r' = ver r /\ url r' = url r
    /\ desc r' = desc r /\ todelete r' = todelete r.
Proof.
  intros Hget. destruct (PackageName_dec k' k) as [E|N].
  - subst k'. exists (add_member nm r file).
    unfold register, getitem_default. rewrite Hget.
    split; [apply get_set_eq | apply add_member_meta].
  - exists r. rewrite register_other by exact N. auto.
Qed.

Lemma apply_rebuild_mono (evs : list (PackageName * string))
      (k : PackageName) (m : string) (c : Cache) :
  registered k m c -> registered k m (apply_events (rebuild_body nm) evs c).
Proof.
  revert c. induction evs as [|[k' f] evs IH]; intros c H; simpl; [exact H|].
  apply IH. apply register_mono. exact H.
Qed.

(** Every registration of a scan is listed in the cache the scan leaves. *)
Lemma apply_rebuild_registered (evs : list (PackageName * string))
      (k : PackageName) (file : string) (c : Cache) :
  In (k, file) evs ->
  registered k (nm file) (apply_events (rebuild_body nm) evs c).
Proof.
  revert c. induction evs as [|[k' f] evs IH]; intros c; simpl; [intros []|].
  intros [E|Hin].
  - inversion E. subst. apply apply_rebuild_mono. apply register_registers.
  - apply IH. exact Hin.
Qed.

(** A scan whose registrations are all listed already changes nothing. *)
Lemma apply_rebuild_noop (evs : list (PackageName * string)) (c : Cache) :
  (forall k file, In (k, file) evs -> registered k (nm file) c) ->
  apply_events (rebuild_body nm) evs c = c.
Proof.
  induction evs as [|[k f] evs IH]; intros H; simpl; [reflexivity|].
  unfold rebuild_body at 2.
  rewrite register_noop by (apply H; left; reflexivity).
  apply IH. intros k' f' Hin. apply H. right. exact Hin.
Qed.

(** A scan leaves alone the records of the keys it does not meet. *)
Lemma apply_rebuild_frame (evs : list (PackageName * string))
      (k : PackageName) (c : Cache) :
  ~ In k (map fst evs) ->
  get PackageName_dec k (apply_events (rebuild_body nm) evs c)
  = get PackageName_dec k c.
Proof.
  revert c. induction evs as [|[k' f] evs IH]; intros c H; simpl;
    [reflexivity|].
  simpl in H. rewrite IH by tauto.
  apply register_other. intros E. apply H. left. congruence.
Qed.

Lemma apply_rebuild_meta (evs : list (PackageName * string))
      (k : PackageName) (c : Cache) (r : DebianPackage) :
  get PackageName_dec k c = Some r ->
  exists r',
    get PackageName_dec k (apply_events (rebuild_body nm) evs c) = Some r'
    /\ ver r' = ver r /\ url r' = url r
    /\ desc r' = desc r /\ todelete r' = todelete r.
Proof.
  revert c r. induction evs as [|[k' f] evs IH]; intros c r H; simpl.
  - exists r. auto.
  - destruct (register_meta k' k f c r H) as (r1 & H1 & Hv & Hu & Hd & Ht).
    destruct (IH _ _ H1) as (r2 & H2 & Hv2 & Hu2 & Hd2 & Ht2).
    exists r2. split; [exact H2|]. repeat split; congruence.
Qed.

(** The scan of [update_cache] is the scan of [rebuild_cache] paired with
    the set of the keys met. *)
Lemma apply_update_split (evs : list (PackageName * string))
      (c : Cache) (seen : list PackageName) :
  apply_events (update_body nm) evs (c, seen)
  = (apply_events (rebuild_body nm) evs c,
     fold_left (fun s ev => set_add PackageName_dec (fst ev) s) evs seen).
Proof.
  revert c seen. induction evs as [|[k f] evs IH]; intros c seen; simpl.
  - reflexivity.
  - unfold update_body at 2. simpl. apply IH.
Qed.

End RegisterFacts.

(** ** Marking the archives that disappeared *)

Lemma set_todelete_idem (r : DebianPackage) :
  set_todelete (set_todelete r) = set_todelete r.
Proof. reflexivity. Qed.

Lemma mark_todelete_get (k k' : PackageName) (c : Cache) :
  get PackageName_dec k' (mark_todelete k c)
  = if PackageName_dec k' k
    then option_map set_todelete (get PackageName_dec k' c)
    else get PackageName_dec k' c.
Proof.
  unfold mark_todelete.
  destruct (get PackageName_dec k c) as [r|] eqn:Hk;
    destruct (PackageName_dec k' k) as [E|N]; try subst k'.
  - rewrite get_set_eq, Hk. reflexivity.
  - apply get_set_neq. exact N.
  - rewrite Hk. reflexivity.
  - reflexivity.
Qed.

Lemma fold_mark_out (l : list PackageName) (k : PackageName) (c : Cache) :
  ~ In k l ->
  get PackageName_dec k (fold_left (fun acc k0 => mark_todelete k0 acc) l c)
  = get PackageName_dec k c.
Proof.
  revert c. induction l as [|a l IH]; intros c H; simpl; [reflexivity|].
  simpl in H. rewrite IH by tauto. rewrite mark_todelete_get.
  destruct (PackageName_dec k a); [exfalso; intuition congruence|reflexivity].
Qed.

Lemma fold_mark_in (l : list PackageName) (k : PackageName) (c : Cache) :
  In k l ->
  get PackageName_dec k (fold_left (fun acc k0 => mark_todelete k0 acc) l c)
  = option_map set_todelete (get PackageName_dec k c).
Proof.
  revert c. induction l as [|a l IH]; intros c; simpl; [intros []|].
  intros H. destruct (in_dec PackageName_dec k l) as [Hin|Hout].
  - rewrite IH by exact Hin. rewrite mark_todelete_get.
    destruct (PackageName_dec k a); [|reflexivity].
    destruct (get PackageName_dec k c); reflexivity.
  - rewrite fold_mark_out by exact Hout. rewrite mark_todelete_get.
    destruct (PackageName_dec k a); [reflexivity|].
    exfalso. destruct H; congruence.
Qed.

(** A cached key that the scan did not meet is marked, and nothing else of
    its record changes. *)
Lemma mark_disappeared_absent (seen : list PackageName) (k : PackageName)
      (c : Cache) (r : DebianPackage) :
  get PackageName_dec k c = Some r ->
  ~ In k seen ->
  get PackageName_dec k (mark_disappeared seen c) = Some (set_todelete r).
Proof.
  intros Hget Hout. unfold mark_disappeared. rewrite fold_mark_in.
  - rewrite Hget. reflexivity.
  - apply set_diff_intro; [|exact Hout].
    apply (get_In_keys PackageName_dec). exists r. exact Hget.
Qed.

Lemma mark_disappeared_any (seen : list PackageName) (k : PackageName)
      (c : Cache) (r : DebianPackage) :
  get PackageName_dec k c = Some r ->
  exists r',
    get PackageName_dec k (mark_disappeared seen c) = Some r'
    /\ (r' = r \/ r' = set_todelete r).
Proof.
  intros Hget. unfold mark_disappeared.
  destruct (in_dec PackageName_dec k
              (set_diff PackageName_dec (keys c) seen)) as [Hin|Hout].
  - rewrite fold_mark_in by exact Hin. rewrite Hget. simpl. eauto.
  - rewrite fold_mark_out by exact Hout. eauto.
Qed.

(** ** The paragraphs of the [Packages] file *)

Lemma stanza_loop_app (body : Stanza -> Cache -> Result Cache)
      (pre post : list Stanza) (c : Cache) :
  stanza_loop body (pre ++ post) c
  = (c1 <- stanza_loop body pre c ;; stanza_loop body post c1).
Proof.
  revert c. induction pre as [|b pre IH]; intros c; simpl; [reflexivity|].
  destruct (body b c); simpl; [apply IH | reflexivity].
Qed.

Ltac stanza_cases H :=
  repeat match type of H with
         | bind ?x _ = _ => destruct x eqn:?; simpl in H
         | match ?x with _ => _ end = _ => destruct x eqn:?; simpl in H
         | (if ?x then _ else _) = _ => destruct x eqn:?; simpl in H
         end;
  try discriminate H.

Lemma update_stanza_other (b : Stanza) (c c' : Cache) (k : PackageName) :
  update_stanza b c = Ok c' ->
  stanza_key b <> Ok k ->
  get PackageName_dec k c' = get PackageName_dec k c.
Proof.
  intros H Hk. unfold update_stanza in H.
  destruct (stanza_key b) as [p|e]; simpl in H; [|discriminate H].
  stanza_cases H; inversion H; subst; try reflexivity.
  apply get_set_neq. congruence.
Qed.

Lemma update_stanza_same_version (b : Stanza) (c c' : Cache)
      (k : PackageName) (r : DebianPackage) :
  update_stanza b c = Ok c' ->
  stanza_key b = Ok k ->
  get PackageName_dec k c = Some r ->
  b_Version b = ver r ->
  c' = c.
Proof.
  intros H Hk Hget Hv. unfold update_stanza in H.
  rewrite Hk in H. simpl in H. rewrite Hget, Hv in H.
  destruct (ver r) as [v|]; simpl in H; [|discriminate H].
  destruct (string_dec v v); [|congruence]. congruence.
Qed.

Lemma update_stanza_new_version (b : Stanza) (c c' : Cache)
      (k : PackageName) (r : DebianPackage) (V1 V2 : string) :
  update_stanza b c = Ok c' ->
  stanza_key b = Ok k ->
  get PackageName_dec k c = Some r ->
  ver r = Some V1 ->
  b_Version b = Some V2 ->
  V2 <> V1 ->
  exists f d,
    b_Filename b = Some f /\ b_Description b = Some d
    /\ get PackageName_dec k c'
       = Some {| flushed := false; members := members r; ver := Some V2;
                 url := Some f; desc := Some d; todelete := todelete r |}.
Proof.
  intros H Hk Hget H1 H2 Hne. unfold update_stanza in H.
  rewrite Hk in H. simpl in H. rewrite Hget, H1, H2 in H. simpl in H.
  destruct (string_dec V1 V2); [congruence|].
  destruct (b_Filename b) as [f|]; simpl in H; [|discriminate H].
  destruct (b_Description b) as [d|]; simpl in H; [|discriminate H].
  inversion H. exists f, d. repeat split. apply get_set_eq.
Qed.

Lemma update_stanza_keeps (b : Stanza) (c c' : Cache) (k : PackageName) :
  update_stanza b c = Ok c' -> In k (keys c) -> In k (keys c').
Proof.
  intros H Hin. unfold update_stanza in H.
  stanza_cases H; inversion H; subst; try exact Hin.
  apply In_keys_set. right. exact Hin.
Qed.

(** The paragraphs that agree with the cached version of a key, or are not
    about it, leave its record alone. *)
Lemma update_loop_frame (bs : list Stanza) (c c' : Cache) (k : PackageName)
      (r : DebianPackage) :
  stanza_loop update_stanza bs c = Ok c' ->
  get PackageName_dec k c = Some r ->
  (forall b, In b bs -> stanza_key b = Ok k -> b_Version b = ver r) ->
  get PackageName_dec k c' = Some r.
Proof.
  revert c. induction bs as [|b bs IH]; intros c H Hget Hv; simpl in H.
  - inversion H. subst. exact Hget.
  - destruct (update_stanza b c) as [c1|e] eqn:Hb; simpl in H;
      [|discriminate H].
    apply (IH c1 H); [|intros b' Hin; apply Hv; right; exact Hin].
    destruct (stanza_key b) as [p|e] eqn:Hp.
    + destruct (PackageName_dec p k) as [E|N].
      * subst p.
        rewrite (update_stanza_same_version b c c1 k r Hb Hp Hget);
          [exact Hget|].
        apply Hv; [left; reflexivity | exact Hp].
      * rewrite (update_stanza_other b c c1 k Hb); [exact Hget|].
        rewrite Hp. congruence.
    + rewrite (update_stanza_other b c c1 k Hb); [exact Hget|].
      rewrite Hp. discriminate.
Qed.

Lemma update_loop_keeps (bs : list Stanza) (c c' : Cache) (k : PackageName) :
  stanza_loop update_stanza bs c = Ok c' -> In k (keys c) -> In k (keys c').
Proof.
  revert c. induction bs as [|b bs IH]; intros c H Hin; simpl in H.
  - inversion H. subst. exact Hin.
  - destruct (update_stanza b c) as [c1|e] eqn:Hb; simpl in H;
      [|discriminate H].
    apply (IH c1 H). eapply update_stanza_keeps; eauto.
Qed.

(** When every paragraph about a cached key reports the cached version, the
    loop of [update_cache] over the paragraphs changes nothing. *)
Lemma update_loop_noop (bs : list Stanza) (c : Cache) :
  (forall b, In b bs ->
             exists p, stanza_key b = Ok p
                       /\ forall r, get PackageName_dec p c = Some r ->
                                    exists v, ver r = Some v
                                              /\ b_Version b = Some v) ->
  stanza_loop update_stanza bs c = Ok c.
Proof.
  induction bs as [|b bs IH]; intros H; simpl; [reflexivity|].
  assert (Hb : update_stanza b c = Ok c).
  { destruct (H b (or_introl eq_refl)) as (p & Hp & Hr).
    unfold update_stanza. rewrite Hp. simpl.
    destruct (get PackageName_dec p c) as [r|]; [|reflexivity].
    destruct (Hr r eq_refl) as (v & Hv & Hbv). rewrite Hv, Hbv. simpl.
    destruct (string_dec v v); congruence. }
  rewrite Hb. simpl. apply IH. intros b' Hin. apply H. right. exact Hin.
Qed.

Lemma rebuild_stanza_facts (b : Stanza) (c c' : Cache) :
  rebuild_stanza b c = Ok c' ->
  (forall k, In k (keys c') <-> In k (keys c))
  /\ (forall k r, get PackageName_dec k c = Some r ->
                  exists r', get PackageName_dec k c' = Some r'
                             /\ members r' = members r)
  /\ (exists p, stanza_key b = Ok p
                /\ (In p (keys c) -> exists v, b_Version b = Some v)).
Proof.
  intros H. unfold rebuild_stanza in H.
  destruct (stanza_key b) as [p|e] eqn:Hp; simpl in H; [|discriminate H].
  destruct (get PackageName_dec p c) as [rp|] eqn:Hget.
  - destruct (b_Version b) as [v|]; simpl in H; [|discriminate H].
    destruct (b_Filename b) as [f|]; simpl in H; [|discriminate H].
    destruct (b_Description b) as [d|]; simpl in H; [|discriminate H].
    inversion H. subst c'. clear H. repeat split.
    + intros Hk. apply In_keys_set in Hk. destruct Hk as [E|Hk]; [|exact Hk].
      subst k. apply (get_In_keys PackageName_dec). eauto.
    + intros Hk. apply In_keys_set. right. exact Hk.
    + intros k r Hk. destruct (PackageName_dec k p) as [E|N].
      * subst k. rewrite get_set_eq. eexists. split; [reflexivity|].
        simpl. congruence.
      * rewrite get_set_neq by exact N. eauto.
    + exists p. split; [reflexivity|]. eauto.
  - inversion H. subst c'. repeat split; try tauto.
    + intros k r Hk. eauto.
    + exists p. split; [reflexivity|]. intros Hin.
      apply (get_In_keys PackageName_dec) in Hin. destruct Hin as [r Hr].
      congruence.
Qed.

Lemma rebuild_loop_facts (bs : list Stanza) (c c' : Cache) :
  stanza_loop rebuild_stanza bs c = Ok c' ->
  (forall k, In k (keys c') <-> In k (keys c))
  /\ (forall k r, get PackageName_dec k c = Some r ->
                  exists r', get PackageName_dec k c' = Some r'
                             /\ members r' = members r)
  /\ (forall b, In b bs ->
                exists p, stanza_key b = Ok p
                          /\ (In p (keys c) ->
                              exists v, b_Version b = Some v)).
Proof.
  revert c. induction bs as [|b bs IH]; intros c H; simpl in H.
  - inversion H. subst. repeat split; try tauto.
    + intros k r Hk. eauto.
    + intros b [].
  - destruct (rebuild_stanza b c) as [c1|e] eqn:Hb; simpl in H;
      [|discriminate H].
    destruct (rebuild_stanza_facts b c c1 Hb) as (Hk1 & Hm1 & Hv1).
    destruct (IH c1 H) as (Hk & Hm & Hv).
    split; [|split].
    + intros k. rewrite Hk. apply Hk1.
    + intros k r Hr. destruct (Hm1 k r Hr) as (r1 & Hr1 & E1).
      destruct (Hm k r1 Hr1) as (r2 & Hr2 & E2).
      exists r2. split; [exact Hr2 | congruence].
    + intros b' [E|Hin].
      * subst b'. exact Hv1.
      * destruct (Hv b' Hin) as (p & Hp & Hpv). exists p.
        split; [exact Hp|]. intros Hc. apply Hpv. apply Hk1. exact Hc.
Qed.

Lemma rebuild_stanza_version_frame (b : Stanza) (c c' : Cache)
      (k : PackageName) (r : DebianPackage) :
  rebuild_stanza b c = Ok c' ->
  get PackageName_dec k c = Some r ->
  (stanza_key b = Ok k -> b_Version b = ver r) ->
  exists r', get PackageName_dec k c' = Some r' /\ ver r' = ver r.
Proof.
  intros H Hget Hv. unfold rebuild_stanza in H.
  destruct (stanza_key b) as [p|e] eqn:Hp; simpl in H; [|discriminate H].
  destruct (get PackageName_dec p c) as [rp|] eqn:Hgp.
  - destruct (b_Version b) as [v|]; simpl in H; [|discriminate H].
    destruct (b_Filename b) as [f|]; simpl in H; [|discriminate H].
    destruct (b_Description b) as [d|]; simpl in H; [|discriminate H].
    inversion H. subst c'. destruct (PackageName_dec k p) as [E|N].
    + subst p. rewrite get_set_eq. eexists. split; [reflexivity|].
      simpl. apply Hv. reflexivity.
    + rewrite get_set_neq by exact N. eauto.
  - inversion H. subst c'. eauto.
Qed.

Lemma rebuild_loop_version_frame (bs : list Stanza) (c c' : Cache)
      (k : PackageName) (r : DebianPackage) :
  stanza_loop rebuild_stanza bs c = Ok c' ->
  get PackageName_dec k c = Some r ->
  (forall b, In b bs -> stanza_key b = Ok k -> b_Version b = ver r) ->
  exists r', get PackageName_dec k c' = Some r' /\ ver r' = ver r.
Proof.
  revert c r. induction bs as [|b bs IH]; intros c r H Hget Hv; simpl in H.
  - inversion H. subst. eauto.
  - destruct (rebuild_stanza b c) as [c1|e] eqn:Hb; simpl in H;
      [|discriminate H].
    destruct (rebuild_stanza_version_frame b c c1 k r Hb Hget)
      as (r1 & H1 & E1); [apply Hv; left; reflexivity|].
    destruct (IH c1 r1 H H1) as (r' & Hr' & E').
    { intros b' Hin Hk. rewrite E1. apply Hv; [right; exact Hin | exact Hk]. }
    exists r'. split; [exact Hr' | congruence].
Qed.

(** When the paragraphs about a key agree on its version, that version is
    the one a rebuild leaves in the record of the key. *)
Lemma rebuild_loop_version (bs : list Stanza) (c c' : Cache) (b : Stanza)
      (k : PackageName) :
  stanza_loop rebuild_stanza bs c = Ok c' ->
  In b bs ->
  stanza_key b = Ok k ->
  In k (keys c) ->
  (forall b', In b' bs -> stanza_key b' = Ok k ->
              b_Version b' = b_Version b) ->
  exists r', get PackageName_dec k c' = Some r' /\ ver r' = b_Version b.
Proof.
  revert c. induction bs as [|b0 bs IH]; intros c H Hin Hk Hc Hsame;
    simpl in H; [destruct Hin|].
  destruct (rebuild_stanza b0 c) as [c1|e] eqn:Hb; simpl in H;
    [|discriminate H].
  assert (Hfirst : stanza_key b0 = Ok k ->
                   exists r', get PackageName_dec k c' = Some r'
                              /\ ver r' = b_Version b).
  { intros Hk0. apply (get_In_keys PackageName_dec) in Hc.
    destruct Hc as [r0 Hr0]. unfold rebuild_stanza in Hb.
    rewrite Hk0 in Hb. simpl in Hb. rewrite Hr0 in Hb.
    destruct (b_Version b0) as [v|] eqn:Hv0; simpl in Hb;
      [|discriminate Hb].
    destruct (b_Filename b0) as [f|]; simpl in Hb; [|discriminate Hb].
    destruct (b_Description b0) as [d|]; simpl in Hb; [|discriminate Hb].
    inversion Hb. subst c1.
    assert (E0 : Some v = b_Version b).
    { rewrite <- Hv0. apply Hsame; [left; reflexivity | exact Hk0]. }
    destruct (rebuild_loop_version_frame bs _ c' k _ H (get_set_eq _ _ _ _))
      as (r' & Hr' & E').
    { intros b' Hin' Hk'. simpl. rewrite E0.
      apply Hsame; [right; exact Hin' | exact Hk']. }
    exists r'. split; [exact Hr'|]. simpl in E'. congruence. }
  destruct Hin as [E|Hin].
  - subst b0. apply Hfirst. exact Hk.
  - apply (IH c1 H Hin Hk).
    + apply (proj1 (rebuild_stanza_facts b0 c c1 Hb)). exact Hc.
    + intros b' Hin' Hk'. apply Hsame; [right; exact Hin' | exact Hk'].
Qed.

(** ** [rebuild_cache] and [update_cache] by their registrations *)

Section CacheFacts.

Variable nm : string -> string.

Lemma rebuild_cache_eq (contents : list string) (paragraphs : list Stanza) :
  rebuild_cache nm (Some contents) (Some paragraphs)
  = (evs <- contents_events true contents ;;
     stanza_loop rebuild_stanza paragraphs
                 (apply_events (rebuild_body nm) evs [])).
Proof.
  unfold rebuild_cache. simpl. rewrite contents_loop_events.
  destruct (contents_events true contents); reflexivity.
Qed.

Lemma update_cache_eq (cache : Cache) (contents : list string)
      (paragraphs : list Stanza) :
  update_cache nm (Some cache) (Some contents) (Some paragraphs)
  = (evs <- contents_events true contents ;;
     stanza_loop update_stanza paragraphs
                 (mark_disappeared (events_keys evs)
                    (apply_events (rebuild_body nm) evs cache))).
Proof.
  unfold update_cache. simpl. rewrite contents_loop_events.
  destruct (contents_events true contents) as [evs|e]; simpl; [|reflexivity].
  rewrite apply_update_split. reflexivity.
Qed.

Lemma qualifying_archives_eq (contents : list string) :
  qualifying_archives nm contents
  = (evs <- contents_events true contents ;; Ok (events_keys evs)).
Proof.
  unfold qualifying_archives. rewrite contents_loop_events.
  destruct (contents_events true contents) as [evs|e]; simpl; [|reflexivity].
  rewrite apply_update_split. reflexivity.
Qed.

Lemma mark_disappeared_get (seen : list PackageName) (k : PackageName)
      (c : Cache) :
  get PackageName_dec k (mark_disappeared seen c) = get PackageName_dec k c
  \/ get PackageName_dec k (mark_disappeared seen c)
     = option_map set_todelete (get PackageName_dec k c).
Proof.
  unfold mark_disappeared.
  destruct (in_dec PackageName_dec k
              (set_diff PackageName_dec (keys c) seen)) as [Hin|Hout].
  - right. apply fold_mark_in. exact Hin.
  - left. apply fold_mark_out. exact Hout.
Qed.

(** What the scan and the marking leave of a cached record: the members
    may grow and [flushed] and [todelete] may change, the metadata stay. *)
Lemma scanned_record (evs : list (PackageName * string))
      (seen : list PackageName) (cache : Cache) (k : PackageName)
      (r : DebianPackage) :
  get PackageName_dec k cache = Some r ->
  exists r2,
    get PackageName_dec k
        (mark_disappeared seen (apply_events (rebuild_body nm) evs cache))
    = Some r2
    /\ ver r2 = ver r /\ url r2 = url r /\ desc r2 = desc r.
Proof.
  intros Hget.
  destruct (apply_rebuild_meta nm evs k cache r Hget)
    as (r1 & H1 & Hv & Hu & Hd & _).
  destruct (mark_disappeared_any seen k _ r1 H1) as (r2 & H2 & [E|E]);
    exists r2; subst r2; simpl; auto.
Qed.

End CacheFacts.

(** ** The incremental update *)

(** C3 fails when an archive appears.  The cache holds [foo] at version
    1.0 and the metadata report 2.0 for it; the index and the metadata also
    list the archive [new], which the cache does not hold.  The scan gives
    [new] a record without version, the loop over the paragraphs raises
    [KeyError] when it reads that version, and no cache is written: the
    record of [foo] is not refreshed.  A rebuild from the same inputs
    completes, with both archives. *)
Theorem version_change_lost_when_archive_appears :
  get PackageName_dec demo_key foo_cache
  = Some (extracted_record "1.0" "pool/f/foo_1.0.deb")
  /\ b_Version (demo_paragraph "2.0" "pool/f/foo_2.0.deb") = Some "2.0"
  /\ update_cache debian_normalize_member (Some foo_cache)
       (Some appearing_contents)
       (Some [demo_paragraph "2.0" "pool/f/foo_2.0.deb"; new_paragraph])
     = Raise KeyError
  /\ exists fresh,
      rebuild_cache debian_normalize_member (Some appearing_contents)
        (Some [demo_paragraph "2.0" "pool/f/foo_2.0.deb"; new_paragraph])
      = Ok fresh
      /\ keys fresh = [demo_key; new_key].
Proof.
  split; [reflexivity|]. split; [reflexivity|].
  split; [vm_compute; reflexivity|].
  eexists. split; vm_compute; reflexivity.
Qed.

(** C6 fails when an archive appears.  The cache holds [old], which the
    index does not list any more, and the metadata report the cached
    versions; the index and the metadata also list the archive [new],
    which the cache does not hold.  The update raises [KeyError] at the
    paragraph of [new] and no cache is written: the record of [old] is not
    marked. *)
Theorem disappeared_archive_unmarked_when_archive_appears :
  get PackageName_dec old_key two_cache = Some old_record
  /\ todelete old_record = None
  /\ qualifying_archives debian_normalize_member appearing_contents
     = Ok [demo_key; new_key]
  /\ update_cache debian_normalize_member (Some two_cache)
       (Some appearing_contents)
       (Some [old_paragraph; demo_paragraph "1.0" "pool/f/foo_1.0.deb";
              new_paragraph])
     = Raise KeyError.
Proof.
  split; [reflexivity|]. split; [reflexivity|].
  split; vm_compute; reflexivity.
Qed.

(** X21: when the cache holds a key at version [V1] and the one paragraph
    of the metadata for that key reports [V2], different from [V1], an
    update that completes leaves the record with the version, the location
    and the description of the paragraph, and with [flushed] false. *)
Theorem version_change_refreshes_record
        (nm : string -> string) (cache cache' : Cache)
        (contents : list string) (pre post : list Stanza) (b : Stanza)
        (k : PackageName) (r : DebianPackage) (V1 V2 : string) :
  update_cache nm (Some cache) (Some contents) (Some (pre ++ b :: post))
  = Ok cache' ->
  get PackageName_dec k cache = Some r ->
  ver r = Some V1 ->
  stanza_key b = Ok k ->
  b_Version b = Some V2 ->
  V2 <> V1 ->
  (forall b', In b' (pre ++ post) -> stanza_key b' <> Ok k) ->
  exists r' f d,
    get PackageName_dec k cache' = Some r'
    /\ b_Filename b = Some f /\ b_Description b = Some d
    /\ ver r' = Some V2 /\ url r' = Some f /\ desc r' = Some d
    /\ flushed r' = false.
Proof.
  intros Hup Hget Hver Hk HV2 Hne Hothers.
  rewrite update_cache_eq in Hup.
  destruct (contents_events true contents) as [evs|e]; simpl in Hup;
    [|discriminate Hup].
  destruct (scanned_record nm evs (events_keys evs) cache k r Hget)
    as (r2 & H2 & Hv2 & _).
  rewrite stanza_loop_app in Hup.
  destruct (stanza_loop update_stanza pre _) as [c3|e] eqn:Hpre;
    simpl in Hup; [|discriminate Hup].
  destruct (update_stanza b c3) as [c4|e] eqn:Hb; simpl in Hup;
    [|discriminate Hup].
  assert (H3 : get PackageName_dec k c3 = Some r2).
  { apply (update_loop_frame pre _ c3 k r2 Hpre H2).
    intros b' Hin Hb'. exfalso.
    apply (Hothers b'); [apply in_or_app; left; exact Hin | exact Hb']. }
  destruct (update_stanza_new_version b c3 c4 k r2 V1 V2 Hb Hk H3)
    as (f & d & Hf & Hd & H4); [congruence | exact HV2 | exact Hne |].
  eexists. exists f, d. split.
  - apply (update_loop_frame post c4 cache' k _ Hup H4).
    intros b' Hin Hb'. exfalso.
    apply (Hothers b'); [apply in_or_app; right; exact Hin | exact Hb'].
  - simpl. repeat split; assumption.
Qed.

(** X22: a key of the old cache that the scan of the index does not meet
    has [todelete] true after an update that completes, and every other
    field of its record is as it was when every paragraph about it reports
    the cached version; no key of the old cache is missing from the new
    one. *)
Theorem disappeared_archive_only_marked
        (nm : string -> string) (cache cache' : Cache)
        (contents : list string) (paragraphs : list Stanza)
        (seen : list PackageName) (k : PackageName) (r : DebianPackage) :
  update_cache nm (Some cache) (Some contents) (Some paragraphs)
  = Ok cache' ->
  get PackageName_dec k cache = Some r ->
  qualifying_archives nm contents = Ok seen ->
  ~ In k seen ->
  (forall b, In b paragraphs -> stanza_key b = Ok k ->
             b_Version b = ver r) ->
  get PackageName_dec k cache'
  = Some {| flushed := flushed r; members := members r; ver := ver r;
            url := url r; desc := desc r; todelete := Some true |}
  /\ (forall k', In k' (keys cache) -> In k' (keys cache')).
Proof.
  intros Hup Hget Hseen Hout Hsame.
  change {| flushed := flushed r; members := members r; ver := ver r;
            url := url r; desc := desc r; todelete := Some true |}
    with (set_todelete r).
  rewrite update_cache_eq in Hup. rewrite qualifying_archives_eq in Hseen.
  destruct (contents_events true contents) as [evs|e]; simpl in Hup, Hseen;
    [|discriminate Hup].
  inversion Hseen. subst seen. clear Hseen. split.
  - apply (update_loop_frame paragraphs _ cache' k _ Hup); [|exact Hsame].
    apply mark_disappeared_absent; [|exact Hout].
    rewrite apply_rebuild_frame; [exact Hget|].
    intros Hin. apply Hout. unfold events_keys.
    apply (proj2 (seen_In evs [] k)). right. exact Hin.
  - intros k' Hin. apply (update_loop_keeps paragraphs _ cache' k' Hup).
    apply (get_In_keys PackageName_dec) in Hin. destruct Hin as [r0 H0].
    destruct (scanned_record nm evs (events_keys evs) cache k' r0 H0)
      as (r2 & H2 & _).
    apply (get_In_keys PackageName_dec). exists r2. exact H2.
Qed.

(** When the keys of the cache and the keys of the members of each record
    are those a rebuild from the current inputs yields, and every paragraph
    about a cached key reports the version cached for it, the update
    completes and leaves [flushed] and the members of every record as they
    were. *)
Lemma update_noop_when_paragraphs_agree
        (nm : string -> string) (cache fresh : Cache)
        (contents : list string) (paragraphs : list Stanza) :
  rebuild_cache nm (Some contents) (Some paragraphs) = Ok fresh ->
  (forall k, In k (keys cache) <-> In k (keys fresh)) ->
  (forall k r rf,
      get PackageName_dec k cache = Some r ->
      get PackageName_dec k fresh = Some rf ->
      forall m, In m (member_keys r) <-> In m (member_keys rf)) ->
  (forall b k r,
      In b paragraphs -> stanza_key b = Ok k ->
      get PackageName_dec k cache = Some r -> b_Version b = ver r) ->
  exists cache',
    update_cache nm (Some cache) (Some contents) (Some paragraphs)
    = Ok cache'
    /\ forall k r,
        get PackageName_dec k cache = Some r ->
        exists r',
          get PackageName_dec k cache' = Some r'
          /\ flushed r' = flushed r /\ members r' = members r.
Proof.
  intros Hre Hkeys Hmembers Hversions.
  rewrite rebuild_cache_eq in Hre. rewrite update_cache_eq.
  destruct (contents_events true contents) as [evs|e]; simpl in Hre |- *;
    [|discriminate Hre].
  destruct (rebuild_loop_facts paragraphs _ fresh Hre) as (Hk & Hm & Hv).
  assert (Hnoop : apply_events (rebuild_body nm) evs cache = cache).
  { apply apply_rebuild_noop. intros k file Hin.
    destruct (apply_rebuild_registered nm evs k file [] Hin)
      as (r0 & ms0 & H0 & Hms0 & Hhas0).
    destruct (Hm k r0 H0) as (rf & Hrf & Emf).
    assert (Hc : In k (keys cache)).
    { apply Hkeys. apply (get_In_keys PackageName_dec). eauto. }
    apply (get_In_keys PackageName_dec) in Hc. destruct Hc as [r Hr].
    assert (Hmk : In (nm file) (member_keys r)).
    { apply (Hmembers k r rf Hr Hrf). unfold member_keys.
      rewrite Emf, Hms0. apply (has_In_keys string_dec). exact Hhas0. }
    unfold member_keys in Hmk.
    destruct (members r) as [ms|] eqn:Hms; [|destruct Hmk].
    exists r, ms. repeat split; auto.
    apply (has_In_keys string_dec). exact Hmk. }
  rewrite Hnoop.
  exists (mark_disappeared (events_keys evs) cache). split.
  - apply update_loop_noop. intros b Hin.
    destruct (Hv b Hin) as (p & Hp & Hpv). exists p. split; [exact Hp|].
    intros r2 H2.
    assert (Hr : exists r, get PackageName_dec p cache = Some r
                           /\ ver r2 = ver r).
    { destruct (mark_disappeared_get (events_keys evs) p cache) as [E|E];
        rewrite H2 in E.
      - eauto.
      - destruct (get PackageName_dec p cache) as [r|]; [|discriminate E].
        exists r. inversion E. auto. }
    destruct Hr as (r & Hr & Ever).
    destruct Hpv as [v Hbv].
    { apply Hk. apply Hkeys. apply (get_In_keys PackageName_dec). eauto. }
    exists v. split; [|exact Hbv].
    rewrite Ever, <- (Hversions b p r Hin Hp Hr). exact Hbv.
  - intros k r Hr.
    destruct (mark_disappeared_any (events_keys evs) k cache r Hr)
      as (r' & Hr' & [E|E]); exists r'; subst r'; auto.
Qed.

(** C7: when the keys of the cache, the keys of the members of each record
    and the versions are those a rebuild from the current inputs yields,
    the metadata reporting one version for a key, as they do with one
    paragraph for an archive, the update completes and leaves [flushed] and
    the members, their states included, of every record as they were. *)
Theorem update_noop_when_versions_agree
        (nm : string -> string) (cache fresh : Cache)
        (contents : list string) (paragraphs : list Stanza) :
  rebuild_cache nm (Some contents) (Some paragraphs) = Ok fresh ->
  (forall k, In k (keys cache) <-> In k (keys fresh)) ->
  (forall k r rf,
      get PackageName_dec k cache = Some r ->
      get PackageName_dec k fresh = Some rf ->
      forall m, In m (member_keys r) <-> In m (member_keys rf)) ->
  (forall k r rf,
      get PackageName_dec k cache = Some r ->
      get PackageName_dec k fresh = Some rf ->
      ver r = ver rf) ->
  (forall b1 b2 k,
      In b1 paragraphs -> In b2 paragraphs ->
      stanza_key b1 = Ok k -> stanza_key b2 = Ok k ->
      b_Version b1 = b_Version b2) ->
  exists cache',
    update_cache nm (Some cache) (Some contents) (Some paragraphs)
    = Ok cache'
    /\ forall k r,
        get PackageName_dec k cache = Some r ->
        exists r',
          get PackageName_dec k cache' = Some r'
          /\ flushed r' = flushed r /\ members r' = members r.
Proof.
  intros Hre Hkeys Hmembers Hver Hone.
  apply (update_noop_when_paragraphs_agree nm cache fresh contents paragraphs
           Hre Hkeys Hmembers).
  intros b k r Hin Hk Hr.
  rewrite rebuild_cache_eq in Hre.
  destruct (contents_events true contents) as [evs|e]; simpl in Hre;
    [|discriminate Hre].
  destruct (rebuild_loop_version paragraphs _ fresh b k Hre Hin Hk)
    as (rf & Hrf & Erf).
  - apply (proj1 (rebuild_loop_facts paragraphs _ fresh Hre)).
    apply Hkeys. apply (get_In_keys PackageName_dec). eauto.
  - intros b' Hin' Hk'. apply (Hone b' b k); assumption.
  - rewrite (Hver k r rf Hr Hrf). symmetry. exact Erf.
Qed.


(** ** Paths and directories *)

Lemma string_app_length (a b : string) :
  String.length (a ++ b) = String.length a + String.length b.
Proof.
  induction a as [|c a IH]; simpl; [reflexivity|].
  rewrite IH. reflexivity.
Qed.

Lemma string_app_assoc (a b c : string) :
  ((a ++ b) ++ c)%string = (a ++ b ++ c)%string.
Proof.
  induction a as [|x a IH]; simpl; [reflexivity|].
  rewrite IH. reflexivity.
Qed.

Lemma cut_last_slash_app (p : string) :
  p = (fst (Py.cut_last_slash p) ++ snd (Py.cut_last_slash p))%string.
Proof.
  induction p as [|c r IH]; simpl; [reflexivity|].
  destruct (Py.contains_char "/" r).
  - destruct (Py.cut_last_slash r) as [h t]. simpl in *. congruence.
  - destruct (Ascii.eqb c "/"); reflexivity.
Qed.

Lemma cut_last_slash_head (p : string) :
  Py.contains_char "/" p = true -> fst (Py.cut_last_slash p) <> "".
Proof.
  destruct p as [|c r]; simpl; [discriminate|].
  destruct (Py.contains_char "/" r).
  - destruct (Py.cut_last_slash r). simpl. discriminate.
  - rewrite orb_false_r. intros H. rewrite H. simpl. discriminate.
Qed.

(** The first part of the cut is empty or ends in a slash. *)
Lemma cut_last_slash_ends (p : string) :
  fst (Py.cut_last_slash p) = ""
  \/ exists h, fst (Py.cut_last_slash p) = (h ++ "/")%string.
Proof.
  induction p as [|c r IH]; simpl; [left; reflexivity|].
  destruct (Py.contains_char "/" r) eqn:Hc.
  - pose proof (cut_last_slash_head r Hc) as Hne.
    destruct (Py.cut_last_slash r) as [h t]. simpl in *.
    destruct IH as [E|[h' E]]; [contradiction|].
    right. exists (String c h'). simpl. congruence.
  - destruct (Ascii.eqb c "/") eqn:Ec.
    + right. exists "". simpl. apply Ascii.eqb_eq in Ec. subst c.
      reflexivity.
    + left. reflexivity.
Qed.

Lemma rstrip_slash_app (s : string) :
  exists z, s = (Py.rstrip_slash s ++ z)%string
            /\ Py.all_chars (fun a => Ascii.eqb a "/") z = true.
Proof.
  induction s as [|a r IH]; simpl.
  - exists "". split; reflexivity.
  - destruct IH as (z & E & Hz).
    destruct (Py.rstrip_slash r) as [|b r'] eqn:Er.
    + destruct (Ascii.eqb a "/") eqn:Ea.
      * exists (String a z). simpl in *. rewrite Ea, Hz.
        split; [congruence | reflexivity].
      * exists z. simpl in *. split; [congruence | exact Hz].
    + exists z. simpl in *. split; [congruence | exact Hz].
Qed.

Lemma rstrip_slash_snoc (h : string) :
  Py.rstrip_slash (h ++ "/") = Py.rstrip_slash h.
Proof.
  induction h as [|a r IH]; simpl; [reflexivity|].
  rewrite IH. reflexivity.
Qed.

(** [os.path.split] cuts a path in its head, slashes, and its tail. *)
Lemma path_split_app (p h t : string) :
  Py.path_split p = (h, t) ->
  exists z, p = (h ++ z ++ t)%string.
Proof.
  unfold Py.path_split. pose proof (cut_last_slash_app p) as Hp.
  destruct (Py.cut_last_slash p) as [h0 t0]. simpl in Hp.
  intros H. inversion H. subst t0. clear H.
  destruct (negb (h0 =? "")
            && negb (Py.all_chars (fun a => Ascii.eqb a "/") h0)).
  - destruct (rstrip_slash_app h0) as (z & E & _). exists z.
    rewrite <- string_app_assoc, <- E. exact Hp.
  - exists "". exact Hp.
Qed.

(** A head that is neither empty nor the root is followed by a slash. *)
Lemma path_split_cut (p h t : string) :
  Py.path_split p = (h, t) ->
  h <> "" -> is_root h = false ->
  exists z, p = (h ++ String "/" (z ++ t))%string.
Proof.
  unfold Py.path_split. pose proof (cut_last_slash_app p) as Hp.
  pose proof (cut_last_slash_ends p) as Hends.
  destruct (Py.cut_last_slash p) as [h0 t0]. simpl in Hp, Hends.
  intros H. inversion H as [[Hh Ht]]. subst t0. clear H.
  destruct (negb (h0 =? "")
            && negb (Py.all_chars (fun a => Ascii.eqb a "/") h0)) eqn:Hc.
  - intros _ _.
    destruct Hends as [E|[h' E]].
    { subst h0. discriminate Hc. }
    destruct (rstrip_slash_app h0) as (z & Ez & Hz).
    destruct (rstrip_slash_app h') as (z' & Ez' & _).
    assert (Hlen : String.length h0
                   = String.length (Py.rstrip_slash h0) + String.length z)
      by (rewrite Ez at 1; apply string_app_length).
    assert (Hlen' : String.length h'
                    = String.length (Py.rstrip_slash h')
                      + String.length z')
      by (rewrite Ez' at 1; apply string_app_length).
    assert (Hh0 : String.length h0 = String.length h' + 1)
      by (rewrite E; apply string_app_length).
    assert (Hsame : Py.rstrip_slash h0 = Py.rstrip_slash h')
      by (rewrite E; apply rstrip_slash_snoc).
    rewrite Hsame in Hlen.
    destruct z as [|a z1]; [simpl in Hlen; lia|].
    simpl in Hz. apply andb_true_iff in Hz. destruct Hz as [Ha _].
    apply Ascii.eqb_eq in Ha. subst a.
    exists z1. rewrite Hp, Ez at 1. rewrite string_app_assoc. reflexivity.
  - intros Hne Hroot. exfalso. unfold is_root in Hroot.
    apply andb_false_iff in Hc. apply andb_false_iff in Hroot.
    destruct (h0 =? "") eqn:E0.
    + apply String.eqb_eq in E0. contradiction.
    + simpl in Hc, Hroot.
      destruct Hc as [Hc|Hc]; [discriminate Hc|].
      destruct Hroot as [Hr|Hr]; [discriminate Hr|].
      rewrite Hr in Hc. discriminate Hc.
Qed.

Lemma path_split_length (p h t : string) :
  Py.path_split p = (h, t) ->
  String.length h + String.length t <= String.length p.
Proof.
  intros H. destruct (path_split_app p h t H) as [z E].
  rewrite E. rewrite !string_app_length. lia.
Qed.

(** The head that [os.makedirs] recurses on is shorter than the name. *)
Lemma split_name_shorter (name head tail : string) :
  split_name name = (head, tail) ->
  tail <> "" ->
  String.length head < String.length name.
Proof.
  unfold split_name.
  destruct (Py.path_split name) as [h1 t1] eqn:H1.
  pose proof (path_split_length name h1 t1 H1) as L1.
  destruct (t1 =? "") eqn:E1.
  - intros H2 Hne. pose proof (path_split_length h1 head tail H2) as L2.
    destruct tail; [contradiction|]. simpl in L2. lia.
  - intros H Hne. inversion H. subst.
    destruct tail; [contradiction|]. simpl in L1. lia.
Qed.

Lemma split_name_cut (name head tail : string) :
  split_name name = (head, tail) ->
  head <> "" -> is_root head = false ->
  exists rest, name = (head ++ String "/" rest)%string.
Proof.
  unfold split_name.
  destruct (Py.path_split name) as [h1 t1] eqn:H1.
  destruct (t1 =? "") eqn:E1.
  - intros H2 Hne Hroot.
    destruct (path_split_cut h1 head tail H2 Hne Hroot) as [z Ez].
    destruct (path_split_app name h1 t1 H1) as [z1 Ez1].
    exists ((z ++ tail) ++ z1 ++ t1)%string.
    rewrite Ez1, Ez at 1. rewrite string_app_assoc. reflexivity.
  - intros H Hne Hroot. inversion H. subst.
    destruct (path_split_cut name head tail H1 Hne Hroot) as [z Ez].
    exists (z ++ tail)%string. exact Ez.
Qed.

Lemma path_above_refl (name : string) : path_above name name.
Proof.
  exists "". split; [|left; reflexivity].
  induction name as [|c r IH]; simpl; congruence.
Qed.

Lemma path_above_head (d head rest : string) :
  path_above d head -> path_above d (head ++ String "/" rest).
Proof.
  intros (r & E & Hr). exists (r ++ String "/" rest)%string. split.
  - rewrite E. apply string_app_assoc.
  - destruct Hr as [Hr|[r' Hr]]; subst r; simpl; right; eauto.
Qed.

(** One round of [os.makedirs]. *)
Lemma makedirs_rec_S (n : nat) (fs : FileSystem) (name : string) :
  makedirs_rec (S n) fs name =
  let '(head, tail) := split_name name in
  if negb (head =? "") && negb (tail =? "") && negb (lexists fs head)
  then
    let '(fs1, err) := makedirs_rec n fs head in
    if match err with
       | Some FileExistsError | None => true
       | Some _ => false
       end
    then if tail =? "." then (add_dir fs1 name, None)
         else mkdir_step fs1 name
    else (fs1, err)
  else mkdir_step fs name.
Proof.
  simpl. destruct (split_name name) as [head tail].
  destruct (negb (head =? "") && negb (tail =? "")
            && negb (lexists fs head)); [|reflexivity].
  destruct (makedirs_rec n fs head) as [fs1 [[]|]]; reflexivity.
Qed.

Lemma makedirs_rec_leaf (n : nat) (fs : FileSystem) (name : string) :
  (let '(head, tail) := split_name name in
   negb (head =? "") && negb (tail =? "") && negb (lexists fs head))
  = false ->
  makedirs_rec n fs name = mkdir_step fs name.
Proof.
  destruct n; simpl; destruct (split_name name) as [head tail];
    intros H; rewrite H; reflexivity.
Qed.

(** The length of the name is fuel enough: more fuel gives the same
    result, so the bound of the recursion is never met. *)
Lemma makedirs_rec_fuel (n m : nat) (fs : FileSystem) (name : string) :
  String.length name <= n -> String.length name <= m ->
  makedirs_rec n fs name = makedirs_rec m fs name.
Proof.
  revert m fs name. induction n as [|n IH]; intros m fs name Hn Hm.
  - destruct name; [|simpl in Hn; lia].
    rewrite (makedirs_rec_leaf 0), (makedirs_rec_leaf m); reflexivity.
  - destruct (let '(head, tail) := split_name name in
              negb (head =? "") && negb (tail =? "")
              && negb (lexists fs head)) eqn:Hg.
    2:{ rewrite (makedirs_rec_leaf (S n)), (makedirs_rec_leaf m);
          auto. }
    destruct (split_name name) as [head tail] eqn:Hs.
    apply andb_true_iff in Hg. destruct Hg as [Hg _].
    apply andb_true_iff in Hg. destruct Hg as [_ Ht].
    assert (Hshort : String.length head < String.length name).
    { apply (split_name_shorter name head tail Hs).
      intros E. subst tail. discriminate Ht. }
    destruct m as [|m]; [lia|].
    rewrite !makedirs_rec_S, Hs.
    rewrite (IH m fs head) by lia. reflexivity.
Qed.

Lemma mkdir_step_cases (fs fs' : FileSystem) (name : string)
      (err : option exn) :
  mkdir_step fs name = (fs', err) ->
  (err = None /\ fs' = add_dir fs name)
  \/ (fs' = fs /\ exists e, err = Some e).
Proof.
  unfold mkdir_step, mkdir.
  destruct (lexists fs name); [intros H; inversion H; eauto|].
  destruct (name =? ""); [intros H; inversion H; eauto|].
  destruct ((parent_dir name =? "") || isdir fs (parent_dir name));
    [intros H; inversion H; auto|].
  destruct (isfile fs (parent_dir name)); intros H; inversion H; eauto.
Qed.

(** What [os.makedirs] does, whatever its fuel: the files stay, the
    directories stay, every directory made is [name] or above it, and
    [name] is a directory when no exception is raised. *)
Lemma makedirs_rec_shape (n : nat) (fs fs' : FileSystem) (name : string)
      (err : option exn) :
  makedirs_rec n fs name = (fs', err) ->
  files fs' = files fs
  /\ (forall d, In d (dirs fs) -> In d (dirs fs'))
  /\ (forall d, In d (dirs fs') -> In d (dirs fs) \/ path_above d name)
  /\ (err = None -> In name (dirs fs')).
Proof.
  assert (Hstep : forall fs0 fs1 e,
             mkdir_step fs0 name = (fs1, e) ->
             files fs1 = files fs0
             /\ (forall d, In d (dirs fs0) -> In d (dirs fs1))
             /\ (forall d, In d (dirs fs1) ->
                           In d (dirs fs0) \/ path_above d name)
             /\ (e = None -> In name (dirs fs1))).
  { intros fs0 fs1 e H.
    destruct (mkdir_step_cases _ _ _ _ H) as [[E1 E2]|[E1 [x E2]]];
      subst; simpl.
    - repeat split; auto.
      intros d [E|Hd]; [right; subst d; apply path_above_refl | auto].
    - repeat split; auto. discriminate. }
  revert fs fs' name err Hstep.
  induction n as [|n IH]; intros fs fs' name err Hstep.
  - simpl. destruct (split_name name) as [head tail].
    destruct (negb (head =? "") && negb (tail =? "")
              && negb (lexists fs head)); [|apply Hstep].
    intros H. inversion H. subst. repeat split; auto. discriminate.
  - rewrite makedirs_rec_S.
    destruct (split_name name) as [head tail] eqn:Hs.
    destruct (negb (head =? "") && negb (tail =? "")
              && negb (lexists fs head)) eqn:Hg; [|apply Hstep].
    apply andb_true_iff in Hg. destruct Hg as [Hg Hex].
    apply andb_true_iff in Hg. destruct Hg as [Hh _].
    assert (Hcut : exists rest, name = (head ++ String "/" rest)%string).
    { apply (split_name_cut name head tail Hs).
      - intros E. subst head. discriminate Hh.
      - unfold lexists, isdir in Hex.
        destruct (is_root head); [discriminate Hex | reflexivity]. }
    destruct Hcut as [rest Hcut].
    destruct (makedirs_rec n fs head) as [fs1 err1] eqn:Hrec.
    assert (Hrec' :
              files fs1 = files fs
              /\ (forall d, In d (dirs fs) -> In d (dirs fs1))
              /\ (forall d, In d (dirs fs1) ->
                            In d (dirs fs) \/ path_above d name)).
    { destruct (IH fs fs1 head err1) as (Hf & Hm & Ha & _).
      - intros fs0 fs2 e H.
        destruct (mkdir_step_cases _ _ _ _ H) as [[E1 E2]|[E1 [x E2]]];
          subst; simpl.
        + repeat split; auto.
          intros d [E|Hd]; [right; subst d; apply path_above_refl | auto].
        + repeat split; auto. discriminate.
      - exact Hrec.
      - repeat split; auto.
        intros d Hd. destruct (Ha d Hd) as [H0|H0]; [auto|].
        right. rewrite Hcut. apply path_above_head. exact H0. }
    destruct Hrec' as (Hf & Hm & Ha).
    assert (Hgo : (if tail =? "." then (add_dir fs1 name, None)
                   else mkdir_step fs1 name) = (fs', err) ->
                  files fs' = files fs
                  /\ (forall d, In d (dirs fs) -> In d (dirs fs'))
                  /\ (forall d, In d (dirs fs') ->
                                In d (dirs fs) \/ path_above d name)
                  /\ (err = None -> In name (dirs fs'))).
    { destruct (tail =? ".").
      - intros H. inversion H. subst. simpl. repeat split; auto.
        intros d [E|Hd]; [right; subst d; apply path_above_refl | auto].
      - intros H.
        destruct (Hstep fs1 fs' err H) as (Hf2 & Hm2 & Ha2 & Hn2).
        repeat split; auto; try congruence.
        intros d Hd. destruct (Ha2 d Hd) as [H0|H0]; auto. }
    destruct err1 as [[]|]; simpl; try exact Hgo;
      intros H; inversion H; subst; repeat split; auto; discriminate.
Qed.

(** ** The member loop *)

Section MemberLoopFacts.

Variable w : World.
Variable data_file : DataFile.
Variable container : string.

Lemma process_member_dangling_link (m : string) (v : Member)
      (fs : FileSystem) (item : TarInfo) :
  state v = 0%Z ->
  getmember data_file ("./" ++ m) = Some item ->
  issym item = true ->
  get_file data_file m = Raise KeyError ->
  process_member w data_file container m v fs = (with_state v 2, fs, Next).
Proof.
  intros Hs Hg Hl Hf. unfold process_member.
  rewrite Hs, Hg, Hf, Hl. reflexivity.
Qed.



Lemma process_member_next_iff (m : string) (v : Member) (fs : FileSystem) :
  snd (process_member w data_file container m v fs) = Next
  <-> processable w data_file (m, v) = true.
Proof.
  unfold process_member, processable.
  destruct (state v =? 0)%Z;
    destruct (getmember data_file ("./" ++ m)) as [item|];
    try destruct (get_file data_file m) as [c|[]];
    try destruct (issym item);
    try destruct (Py.endswith m ".gz");
    try destruct (gunzip w c);
    simpl; try tauto; split; intros H; discriminate H.
Qed.

(** The loop over a list cut in two. *)
Lemma member_loop_app (pre rest : Members) (fs : FileSystem) :
  member_loop w data_file container (pre ++ rest) fs =
  match member_loop w data_file container pre fs with
  | (pre', fs1, Completed) =>
      let '(rest', fs2, e) := member_loop w data_file container rest fs1 in
      (pre' ++ rest', fs2, e)
  | (pre', fs1, e) => (pre' ++ rest, fs1, e)
  end.
Proof.
  revert fs. induction pre as [|[m v] pre IH]; intros fs; simpl.
  - destruct (member_loop w data_file container rest fs)
      as [[rest' fs2] e].
    reflexivity.
  - destruct (process_member w data_file container m v fs)
      as [[v' fs'] s].
    destruct s; try reflexivity.
    rewrite IH.
    destruct (member_loop w data_file container pre fs')
      as [[pre' fs1] e].
    destruct e; try reflexivity.
    destruct (member_loop w data_file container rest fs1)
      as [[rest' fs2] e].
    reflexivity.
Qed.

(** The loop runs to its end exactly when every member is processable. *)
Lemma member_loop_completed_iff (ms : Members) (fs : FileSystem) :
  snd (member_loop w data_file container ms fs) = Completed
  <-> forallb (processable w data_file) ms = true.
Proof.
  revert fs. induction ms as [|[m v] ms IH]; intros fs; simpl.
  - tauto.
  - rewrite andb_true_iff, <- (process_member_next_iff m v fs).
    destruct (process_member w data_file container m v fs)
      as [[v' fs'] s].
    simpl. destruct s; simpl.
    + specialize (IH fs').
      destruct (member_loop w data_file container ms fs')
        as [[ms' fs''] e].
      simpl in *. tauto.
    + split; [discriminate | intros [H _]; discriminate H].
    + split; [discriminate | intros [H _]; discriminate H].
Qed.

Lemma process_member_link (m : string) (v v' : Member)
      (fs fs' : FileSystem) (s : Step) :
  process_member w data_file container m v fs = (v', fs', s) ->
  link v' = link v
  \/ (link_written data_file m v v'
      /\ state v' <> 2%Z /\ (s = Next <-> state v' = 1%Z)).
Proof.
  unfold process_member, link_written.
  destruct (state v =? 0)%Z eqn:Hs; cbn [negb].
  2:{ intros H. inversion H. auto. }
  apply Z.eqb_eq in Hs.
  destruct (getmember data_file ("./" ++ m)) as [item|] eqn:Hg.
  2:{ intros H. inversion H. auto. }
  destruct (get_file data_file m) as [c|x] eqn:Hf.
  - destruct (issym item) eqn:Hl.
    + destruct (if Py.endswith m ".gz" then gunzip w c else Ok c);
        intros H; inversion H; subst; right; simpl;
        (split; [split; [exact Hs|exists item, c; auto]|]);
        rewrite ?Hs; (split; [discriminate|]);
        split; intros E; try reflexivity; discriminate E.
    + destruct (if Py.endswith m ".gz" then gunzip w c else Ok c);
        intros H; inversion H; subst; auto.
  - destruct x; try (intros H; inversion H; subst; auto; fail).
    destruct (issym item); intros H; inversion H; subst; auto.
Qed.

Lemma link_discipline_refl (failed : bool) (ms : Members) :
  Forall2 (link_discipline data_file failed) ms ms.
Proof.
  induction ms as [|x ms IH]; constructor; [|exact IH].
  split; [reflexivity | left; reflexivity].
Qed.

Lemma member_loop_link (ms ms' : Members) (fs fs' : FileSystem)
      (e : LoopExit) :
  member_loop w data_file container ms fs = (ms', fs', e) ->
  Forall2 (link_discipline data_file (exit_failed e)) ms ms'.
Proof.
  revert fs ms' fs' e.
  induction ms as [|[m v] ms IH]; intros fs ms' fs' e; simpl.
  - intros H. inversion H. constructor.
  - destruct (process_member w data_file container m v fs)
      as [[v1 fs1] s] eqn:Hstep.
    pose proof (process_member_link _ _ _ _ _ _ Hstep) as Hl.
    assert (Hhead : forall failed : bool,
               (s = Next \/ failed = true) ->
               link_discipline data_file failed (m, v) (m, v1)).
    { intros failed He. split; [reflexivity|]. simpl.
      destruct Hl as [Hl|(Hw & Hn & H1)]; [auto|].
      right. split; [exact Hw|]. split; [exact Hn|]. intros Hx.
      destruct He as [He|He]; [apply H1; exact He|congruence]. }
    destruct s.
    + destruct (member_loop w data_file container ms fs1)
        as [[rest' fs2] e2] eqn:Hrest.
      intros H. inversion H. subst. constructor.
      * apply Hhead. left. reflexivity.
      * eapply IH. exact Hrest.
    + intros H. inversion H. subst. constructor.
      * split; [reflexivity|]. simpl.
        destruct Hl as [Hl|(Hw & Hn & H1)]; [auto|].
        exfalso. destruct Hw as [Hs (item & c & Hg & Hsym & Hf & _)].
        unfold process_member in Hstep.
        rewrite Hs, Hg, Hf in Hstep. cbn [negb Z.eqb] in Hstep.
        destruct (if Py.endswith m ".gz" then gunzip w c else Ok c);
          inversion Hstep.
      * apply link_discipline_refl.
    + intros H. inversion H. subst. constructor.
      * apply Hhead. right. reflexivity.
      * apply link_discipline_refl.
Qed.

End MemberLoopFacts.

(** ** One archive *)

Section FetcherFacts.

Variable w : World.

Lemma isdir_In (fs : FileSystem) (d : string) :
  isdir fs d = true <-> is_root d = true \/ In d (dirs fs).
Proof.
  unfold isdir. rewrite orb_true_iff, existsb_exists. split.
  - intros [H|(x & Hin & E)]; [auto|].
    apply String.eqb_eq in E. subst x. auto.
  - intros [H|H]; [auto|]. right. exists d. split; [exact H|].
    apply String.eqb_refl.
Qed.

(** What making the directory of a package does: the files stay, the
    directories stay, every directory made is that of the package or above
    it, and the directory of the package is there when no exception is
    raised. *)
Lemma make_container_shape (pkg : string) (fs fs0 : FileSystem)
      (err : option exn) :
  make_container w pkg fs = (fs0, err) ->
  files fs0 = files fs
  /\ (forall d, isdir fs d = true -> isdir fs0 d = true)
  /\ (forall d, isdir fs0 d = true ->
                isdir fs d = true
                \/ path_above d (pjoin (output_dir w) pkg))
  /\ (err = None -> isdir fs0 (pjoin (output_dir w) pkg) = true).
Proof.
  unfold make_container. cbv zeta.
  destruct (isdir fs (pjoin (output_dir w) pkg)) eqn:Hd.
  - intros H. inversion H. subst. repeat split; auto.
  - unfold makedirs. intros H.
    destruct (makedirs_rec_shape _ _ _ _ _ H) as (Hf & Hm & Ha & Hn).
    split; [exact Hf|]. split; [|split].
    + intros d Hdir. apply isdir_In. apply isdir_In in Hdir.
      destruct Hdir; auto.
    + intros d Hdir. apply isdir_In in Hdir.
      destruct Hdir as [Hr|Hin].
      * left. apply isdir_In. auto.
      * destruct (Ha d Hin) as [H0|H0]; [|auto].
        left. apply isdir_In. auto.
    + intros E. apply isdir_In. right. auto.
Qed.

Lemma make_container_isfile (pkg : string) (fs : FileSystem)
      (path : string) :
  isfile (fst (make_container w pkg fs)) path = isfile fs path.
Proof.
  destruct (make_container w pkg fs) as [fs0 err] eqn:Hmk.
  destruct (make_container_shape _ _ _ _ Hmk) as (Hf & _).
  unfold isfile. simpl. rewrite Hf. reflexivity.
Qed.

(** Once the member loop is reached, the call is determined by the loop. *)
Lemma get_manpages_at_loop (pkg : string) (packages : Cache)
      (fs : FileSystem) (p : PackageName) (cp : DebianPackage)
      (content : string) (data_file : DataFile) (ms : Members) :
  container_ready w pkg fs ->
  reaches_loop w pkg packages p cp content data_file ms ->
  get_manpages_from_package w pkg packages fs =
  let '(ms', fs', e) :=
    member_loop w data_file (pjoin (output_dir w) pkg) ms
                (fs_at_loop w pkg content fs) in
  match e with
  | Completed =>
      (set PackageName_dec p (with_members cp ms' true) packages,
       unlink fs' (mkstemp w), Returned None)
  | Abandoned =>
      (set PackageName_dec p (with_members cp ms' false) packages,
       fs', Returned (Some true))
  | Failed x =>
      (set PackageName_dec p (with_members cp ms' false) packages,
       fs', Raised x)
  end.
Proof.
  intros Hready (Hfind & Hget & Hfl & (u & Hurl & Hreq) & Hopen & Hms).
  unfold container_ready in Hready.
  unfold get_manpages_from_package, fs_at_loop, getitem_default.
  cbv zeta. destruct (make_container w pkg fs) as [fs0 err].
  simpl in Hready. subst err. cbn [fst].
  rewrite Hfind, Hget, Hfl, Hurl, Hreq.
  unfold write_file at 1. cbn [files]. rewrite get_set_eq, Hopen, Hms.
  reflexivity.
Qed.

Lemma get_manpages_frame (pkg : string) (packages packages' : Cache)
      (fs fs' : FileSystem) (o : Outcome) (p k : PackageName) :
  find_package pkg packages = Ok p ->
  get_manpages_from_package w pkg packages fs = (packages', fs', o) ->
  k <> p ->
  get PackageName_dec k packages' = get PackageName_dec k packages.
Proof.
  intros Hfind Hrun Hk. unfold get_manpages_from_package in Hrun.
  cbv zeta in Hrun. rewrite Hfind in Hrun.
  repeat match type of Hrun with
         | (if ?b then _ else _) = _ => destruct b
         | (let '(_, _) := ?x in _) = _ => destruct x
         | match ?x with _ => _ end = _ => destruct x
         end;
    inversion Hrun; subst; try reflexivity;
    apply get_set_neq; exact Hk.
Qed.

(** A call that cannot make the directory of the package ends there. *)
Lemma get_manpages_not_ready (pkg : string) (packages : Cache)
      (fs fs0 : FileSystem) (e : exn) :
  make_container w pkg fs = (fs0, Some e) ->
  get_manpages_from_package w pkg packages fs = (packages, fs0, Raised e).
Proof.
  intros Hmk. unfold get_manpages_from_package. cbv zeta.
  rewrite Hmk. reflexivity.
Qed.

End FetcherFacts.

Lemma member_loop_keys (w : World) (data_file : DataFile)
      (container : string) (ms ms' : Members) (fs fs' : FileSystem)
      (e : LoopExit) :
  member_loop w data_file container ms fs = (ms', fs', e) ->
  keys ms' = keys ms.
Proof.
  intros H. apply member_loop_link in H.
  induction H as [|x y l l' [Hxy _] _ IH]; simpl; congruence.
Qed.

Lemma first_match {A : Type} (f : A -> bool) (l : list A) (x : A) :
  In x l -> f x = true ->
  exists pre p post,
    l = pre ++ p :: post /\ f p = true
    /\ (forall k, In k pre -> f k = false)
    /\ filter f l = p :: filter f post.
Proof.
  induction l as [|a l IH]; simpl; [intros []|].
  intros Hin Hx. destruct (f a) eqn:Ha.
  - exists [], a, l. simpl. repeat split; auto. intros k [].
  - destruct Hin as [E|Hin]; [congruence|].
    destruct (IH Hin Hx) as (pre & p & post & Hl & Hp & Hpre & Hf).
    exists (a :: pre), p, post. simpl. rewrite <- Hl.
    repeat split; auto.
    intros k [E|Hk]; [congruence | auto].
Qed.

Lemma no_match {A : Type} (f : A -> bool) (l : list A) :
  (forall k, In k l -> f k = false) -> filter f l = [].
Proof.
  induction l as [|a l IH]; simpl; intros H; [reflexivity|].
  rewrite (H a) by auto. apply IH. auto.
Qed.

(** C1, amended: when the loop reaches a pending member whose content
    cannot be read and whose descriptor is a symbolic link, the member is
    put in state 2 and the rest of its record, the [link] field included,
    stays as it was: no link target is recorded.  A [link] is written only
    to a pending symbolic link whose content was read; that member is never
    in state 2 afterwards, and it is in state 1 unless the call raised. *)
Theorem dangling_link_marked_without_target
        (w : World) (pkg : string) (packages packages' : Cache)
        (fs fs' : FileSystem) (o : Outcome) (p : PackageName)
        (cp : DebianPackage) (content : string) (data_file : DataFile)
        (ms : Members) :
  reaches_loop w pkg packages p cp content data_file ms ->
  get_manpages_from_package w pkg packages fs = (packages', fs', o) ->
  exists cp' ms',
    get PackageName_dec p packages' = Some cp'
    /\ members cp' = Some ms'
    /\ (forall pre m v post pre' fs2 item,
           container_ready w pkg fs ->
           ms = pre ++ (m, v) :: post ->
           member_loop w data_file (pjoin (output_dir w) pkg) pre
                       (fs_at_loop w pkg content fs)
           = (pre', fs2, Completed) ->
           state v = 0%Z ->
           getmember data_file ("./" ++ m) = Some item ->
           issym item = true ->
           get_file data_file m = Raise KeyError ->
           exists post',
             ms' = pre' ++ (m, with_state v 2) :: post'
             /\ keys post' = keys post)
    /\ Forall2 (link_discipline data_file (outcome_raised o)) ms ms'.
Proof.
  intros Hreach Hrun.
  destruct (make_container w pkg fs) as [fs0 [x|]] eqn:Hmk.
  { rewrite (get_manpages_not_ready _ _ _ _ _ _ Hmk) in Hrun.
    inversion Hrun. subst. destruct Hreach as (_ & Hget & _ & _ & _ & Hms).
    exists cp, ms. repeat split; auto.
    - intros pre m v post pre' fs2 item Hready. exfalso.
      unfold container_ready in Hready. rewrite Hmk in Hready.
      discriminate Hready.
    - apply link_discipline_refl. }
  assert (Hready : container_ready w pkg fs)
    by (unfold container_ready; rewrite Hmk; reflexivity).
  rewrite (get_manpages_at_loop _ _ _ _ _ _ _ _ _ Hready Hreach) in Hrun.
  destruct (member_loop w data_file (pjoin (output_dir w) pkg) ms
                        (fs_at_loop w pkg content fs))
    as [[ms' fs1] e] eqn:Hloop.
  assert (Hlink : Forall2 (link_discipline data_file (exit_failed e)) ms ms')
    by (eapply member_loop_link; exact Hloop).
  assert (Hdangling :
            forall pre m v post pre' fs2 item,
              container_ready w pkg fs ->
              ms = pre ++ (m, v) :: post ->
              member_loop w data_file (pjoin (output_dir w) pkg) pre
                          (fs_at_loop w pkg content fs)
              = (pre', fs2, Completed) ->
              state v = 0%Z ->
              getmember data_file ("./" ++ m) = Some item ->
              issym item = true ->
              get_file data_file m = Raise KeyError ->
              exists post',
                ms' = pre' ++ (m, with_state v 2) :: post'
                /\ keys post' = keys post).
  { intros pre m v post pre' fs2 item _ Hms Hpre Hs Hg Hl Hf. subst ms.
    rewrite member_loop_app, Hpre in Hloop. simpl in Hloop.
    rewrite (process_member_dangling_link _ _ _ _ _ _ item Hs Hg Hl Hf)
      in Hloop.
    destruct (member_loop w data_file (pjoin (output_dir w) pkg) post fs2)
      as [[post' fs3] e3] eqn:Hpost.
    inversion Hloop. subst. exists post'. split; [reflexivity|].
    eapply member_loop_keys. exact Hpost. }
  destruct e; inversion Hrun; subst; simpl;
    eexists; eexists;
    (split; [apply get_set_eq|]);
    (split; [reflexivity|]);
    (split; [exact Hdangling | exact Hlink]).
Qed.


(** C9 fails on the path of abandonment: after the call has returned
    [True] at the hard link whose target is missing, the temporary file
    that holds the downloaded archive is still there. *)
Theorem tmpfile_left_on_abandon :
  let '(_, fs', o) :=
    get_manpages_from_package demo_world "foo" lost_cache demo_fs in
  isfile demo_fs (mkstemp demo_world) = false
  /\ o = Returned (Some true)
  /\ isfile fs' (mkstemp demo_world) = true.
Proof. vm_compute. repeat split. Qed.

(** C10, amended: when some key of the cache has the package name asked
    for, the lookup yields the first such key and the call is the call on
    the record under that key alone, put back in its place: no other
    record is read or written.  When no key has the name, the call never
    returns: it raises [IndexError] once the directory of the package is
    there, which it then is, or else the exception that making the
    directory raised; [fetchone] raises the same and leaves the cache as
    it was. *)
Theorem first_match_or_index_error
        (w : World) (pkg : string) (packages : Cache) (fs : FileSystem) :
  ((exists k, In k (keys packages) /\ package k = pkg) ->
   exists pre p cp post,
     packages = pre ++ (p, cp) :: post
     /\ package p = pkg
     /\ (forall k, In k (keys pre) -> package k <> pkg)
     /\ find_package pkg packages = Ok p
     /\ exists cp' fs' o,
         get_manpages_from_package w pkg [(p, cp)] fs
         = ([(p, cp')], fs', o)
         /\ get_manpages_from_package w pkg packages fs
            = (pre ++ (p, cp') :: post, fs', o))
  /\ ((forall k, In k (keys packages) -> package k <> pkg) ->
      exists fs' err,
        make_container w pkg fs = (fs', err)
        /\ get_manpages_from_package w pkg packages fs
           = (packages, fs',
              Raised match err with Some e => e | None => IndexError end)
        /\ fetchone w pkg packages fs
           = (packages, fs',
              Raised match err with Some e => e | None => IndexError end)
        /\ (err = None -> isdir fs' (pjoin (output_dir w) pkg) = true)).
Proof.
  split.
  - intros (k & Hin & Hk).
    destruct (first_match (fun sp => String.eqb (package sp) pkg)
                          (keys packages) k Hin)
      as (kpre & p & kpost & Hl & Hp & Hpre & Hf).
    { apply String.eqb_eq. exact Hk. }
    apply String.eqb_eq in Hp.
    destruct (keys_split packages kpre p kpost Hl)
      as (pre & cp & post & Epk & Epre & _).
    subst kpre.
    assert (Hout : ~ In p (keys pre)).
    { intros Hi. apply Hpre in Hi. apply String.eqb_neq in Hi.
      contradiction. }
    exists pre, p, cp, post.
    assert (Hfind : find_package pkg packages = Ok p)
      by (unfold find_package; rewrite Hf; reflexivity).
    assert (Hfind1 : find_package pkg [(p, cp)] = Ok p).
    { unfold find_package. simpl.
      rewrite (proj2 (String.eqb_eq _ _) Hp). reflexivity. }
    split; [exact Epk|]. split; [exact Hp|]. split.
    { intros k0 Hk0 E. apply Hpre in Hk0.
      apply String.eqb_neq in Hk0. contradiction. }
    split; [exact Hfind|]. subst packages.
    assert (Hget : get PackageName_dec p (pre ++ (p, cp) :: post)
                   = Some cp)
      by (apply get_app_first; exact Hout).
    assert (Hget1 : get PackageName_dec p [(p, cp)] = Some cp)
      by (apply (get_app_first PackageName_dec p cp [] []); intros []).
    assert (Hset : forall v,
               set PackageName_dec p v (pre ++ (p, cp) :: post)
               = pre ++ (p, v) :: post)
      by (intros v; apply set_app_first; exact Hout).
    assert (Hset1 : forall v,
               set PackageName_dec p v [(p, cp)] = [(p, v)])
      by (intros v;
          apply (set_app_first PackageName_dec p cp v [] []); intros []).
    unfold get_manpages_from_package. cbv zeta.
    destruct (make_container w pkg fs) as [fs0 [x|]].
    { exists cp, fs0, (Raised x). split; reflexivity. }
    rewrite Hfind, Hfind1. unfold getitem_default. rewrite Hget, Hget1.
    repeat match goal with
           | |- context [if ?b then _ else _] => destruct b
           | |- context [let '(_, _) := ?x in _] => destruct x
           | |- context [match ?x with _ => _ end] => destruct x
           end;
      rewrite ?Hset, ?Hset1;
      do 3 eexists; split; reflexivity.
  - intros Hnone.
    assert (Hfind : find_package pkg packages = Raise IndexError).
    { unfold find_package. rewrite no_match; [reflexivity|].
      intros k Hk. apply String.eqb_neq. apply Hnone. exact Hk. }
    destruct (make_container w pkg fs) as [fs0 err] eqn:Hmk.
    exists fs0, err. split; [reflexivity|].
    assert (Hcall : get_manpages_from_package w pkg packages fs
                    = (packages, fs0,
                       Raised match err with
                              | Some e => e
                              | None => IndexError
                              end)).
    { unfold get_manpages_from_package. cbv zeta. rewrite Hmk, Hfind.
      destruct err; reflexivity. }
    split; [exact Hcall|]. split.
    + unfold fetchone. rewrite Hcall. reflexivity.
    + apply (make_container_shape _ _ _ _ _ Hmk).
Qed.

(** ** The properties above, run on the small repository *)

(** The call on [links_cache] gets as far as the member loop. *)
Lemma links_reach_loop :
  reaches_loop demo_world "foo" links_cache demo_key
    (demo_record [pending "usr/share/man/man1/bar.1.gz";
                  pending "usr/share/man/man1/dangling.1.gz"])
    "deb" demo_data
    [pending "usr/share/man/man1/bar.1.gz";
     pending "usr/share/man/man1/dangling.1.gz"].
Proof.
  repeat split; try reflexivity.
  exists "pool/f/foo.deb". split; reflexivity.
Defined.



(** C1 as stated fails on the archive with the dangling link: the member is
    put in state 2 but the name of its target is not recorded, and the link
    [bar.1.gz], whose content is read, gets a [link] while in state 1. *)
Lemma dangling_link_target_not_recorded :
  ~ (exists v,
        member_after links_run demo_key "usr/share/man/man1/dangling.1.gz"
        = Some v
        /\ state v = 2%Z
        /\ link v = Some (manpage_name "gone.1.gz"))
  /\ ~ (forall m v,
           member_after links_run demo_key m = Some v ->
           link v <> None -> state v = 2%Z).
Proof.
  split.
  - intros (v & Hv & _ & Hl). vm_compute in Hv. inversion Hv. subst v.
    discriminate Hl.
  - intros H.
    specialize (H "usr/share/man/man1/bar.1.gz"
                  {| name := "bar.1"; state := 1; link := Some "foo.1" |}).
    assert (E : (1 = 2)%Z) by (apply H; [reflexivity | discriminate]).
    discriminate E.
Qed.

(** The dangling link of the small archive ends in state 2 with no
    [link]. *)
Lemma dangling_link_marked_without_target_witness :
  member_after links_run demo_key "usr/share/man/man1/dangling.1.gz"
  = Some {| name := "dangling.1"; state := 2; link := None |}.
Proof.
  destruct (dangling_link_marked_without_target
              demo_world "foo" links_cache (fst (fst links_run))
              demo_fs (snd (fst links_run)) (snd links_run)
              demo_key _ "deb" demo_data _ links_reach_loop eq_refl)
    as (cp' & ms' & Hget & Hms & Hdangling & _).
  destruct (Hdangling
              [pending "usr/share/man/man1/bar.1.gz"]
              "usr/share/man/man1/dangling.1.gz"
              (snd (pending "usr/share/man/man1/dangling.1.gz")) []
              _ _ {| issym := true; linkname := "gone.1.gz" |}
              eq_refl eq_refl eq_refl eq_refl eq_refl eq_refl eq_refl)
    as (post' & Hms' & Hpost).
  destruct post'; [|discriminate Hpost].
  unfold member_after. rewrite Hget, Hms, Hms'. reflexivity.
Defined.


(** C10 as stated fails when the path of the output directory is taken by a
    regular file: no key has the name [nosuch], and the call raises
    [FileExistsError], not [IndexError]. *)
Lemma index_error_preempted_by_makedirs :
  (forall k, In k (keys lost_cache) -> package k <> "nosuch")
  /\ get_manpages_from_package demo_world "nosuch" lost_cache blocked_fs
     = (lost_cache, blocked_fs, Raised FileExistsError)
  /\ ~ (exists fs',
           get_manpages_from_package demo_world "nosuch" lost_cache
                                     blocked_fs
           = (lost_cache, fs', Raised IndexError)).
Proof.
  split; [|split].
  - intros k [E|[]]. subst k. discriminate.
  - reflexivity.
  - intros [fs' H]. discriminate H.
Qed.

(** The package [foo] is found and the call is the call on its record;
    the package [nosuch] raises [IndexError], its directory made. *)
Lemma first_match_or_index_error_witness :
  (exists pre p cp post,
      lost_cache = pre ++ (p, cp) :: post
      /\ package p = "foo"
      /\ (forall k, In k (keys pre) -> package k <> "foo")
      /\ find_package "foo" lost_cache = Ok p
      /\ exists cp' fs' o,
          get_manpages_from_package demo_world "foo" [(p, cp)] demo_fs
          = ([(p, cp')], fs', o)
          /\ get_manpages_from_package demo_world "foo" lost_cache demo_fs
             = (pre ++ (p, cp') :: post, fs', o))
  /\ (exists fs' err,
         make_container demo_world "nosuch" demo_fs = (fs', err)
         /\ get_manpages_from_package demo_world "nosuch" lost_cache demo_fs
            = (lost_cache, fs',
               Raised match err with Some e => e | None => IndexError end)
         /\ fetchone demo_world "nosuch" lost_cache demo_fs
            = (lost_cache, fs',
               Raised match err with Some e => e | None => IndexError end)
         /\ (err = None ->
             isdir fs' (pjoin (output_dir demo_world) "nosuch") = true)).
Proof.
  split.
  - apply (proj1 (first_match_or_index_error
                    demo_world "foo" lost_cache demo_fs)).
    exists demo_key. split; [left; reflexivity | reflexivity].
  - apply (proj2 (first_match_or_index_error
                    demo_world "nosuch" lost_cache demo_fs)).
    intros k [E|[]]. subst k. discriminate.
Defined.

(** The cache holds [foo] at 1.0 and the metadata report 2.0. *)
Lemma version_change_refreshes_record_witness :
  exists cache' r',
    update_cache debian_normalize_member (Some two_cache)
      (Some demo_contents)
      (Some [old_paragraph; demo_paragraph "2.0" "pool/f/foo_2.0.deb"])
    = Ok cache'
    /\ get PackageName_dec demo_key cache' = Some r'
    /\ ver r' = Some "2.0" /\ url r' = Some "pool/f/foo_2.0.deb"
    /\ desc r' = Some "Foo tool" /\ flushed r' = false.
Proof.
  eexists.
  destruct (version_change_refreshes_record
              debian_normalize_member two_cache _ demo_contents
              [old_paragraph] [] (demo_paragraph "2.0" "pool/f/foo_2.0.deb")
              demo_key (extracted_record "1.0" "pool/f/foo_1.0.deb")
              "1.0" "2.0" eq_refl eq_refl eq_refl eq_refl eq_refl)
    as (r' & f & d & Hget & Hf & Hd & Hver & Hurl & Hdesc & Hfl).
  - discriminate.
  - intros b' [E|[]]. subst b'. discriminate.
  - exists r'. inversion Hf. inversion Hd. subst f d.
    repeat split; assumption.
Defined.

(** The package [old] is cached and not listed any more. *)
Lemma disappeared_archive_only_marked_witness :
  exists cache',
    update_cache debian_normalize_member (Some two_cache)
      (Some demo_contents)
      (Some [old_paragraph; demo_paragraph "1.0" "pool/f/foo_1.0.deb"])
    = Ok cache'
    /\ get PackageName_dec old_key cache'
       = Some {| flushed := true;
                 members := Some [("usr/share/man/man1/old.1.gz",
                                   {| name := "old.1"; state := 1;
                                      link := None |})];
                 ver := Some "0.9"; url := Some "pool/o/old.deb";
                 desc := Some "Old tool"; todelete := Some true |}
    /\ (forall k', In k' (keys two_cache) -> In k' (keys cache')).
Proof.
  eexists. split; [reflexivity|].
  apply (disappeared_archive_only_marked
           debian_normalize_member two_cache _ demo_contents
           [old_paragraph; demo_paragraph "1.0" "pool/f/foo_1.0.deb"]
           [demo_key] old_key old_record eq_refl eq_refl eq_refl).
  - intros [E|[]]. discriminate E.
  - intros b [E|[E|[]]] Hk; subst b; [reflexivity | discriminate Hk].
Defined.

(** The cache of [foo], extracted, against the inputs it was built
    from. *)
Lemma update_noop_when_versions_agree_witness :
  exists cache',
    update_cache debian_normalize_member
      (Some [(demo_key, extracted_record "1.0" "pool/f/foo.deb")])
      (Some demo_contents)
      (Some [demo_paragraph "1.0" "pool/f/foo.deb"])
    = Ok cache'
    /\ forall k r,
        get PackageName_dec k
            [(demo_key, extracted_record "1.0" "pool/f/foo.deb")]
        = Some r ->
        exists r',
          get PackageName_dec k cache' = Some r'
          /\ flushed r' = flushed r /\ members r' = members r.
Proof.
  apply (update_noop_when_versions_agree
           debian_normalize_member
           [(demo_key, extracted_record "1.0" "pool/f/foo.deb")]
           [(demo_key, demo_record [pending "usr/share/man/man1/foo.1.gz"])]
           demo_contents [demo_paragraph "1.0" "pool/f/foo.deb"]).
  - vm_compute. reflexivity.
  - intros k. simpl. tauto.
  - intros k r rf Hr Hrf m. simpl in Hr, Hrf.
    destruct (PackageName_dec k demo_key); [|discriminate Hr].
    inversion Hr. inversion Hrf. subst r rf. simpl. tauto.
  - intros k r rf Hr Hrf. simpl in Hr, Hrf.
    destruct (PackageName_dec k demo_key); [|discriminate Hr].
    inversion Hr. inversion Hrf. subst r rf. reflexivity.
  - intros b1 b2 k [E1|[]] [E2|[]] _ _. subst b1 b2. reflexivity.
Defined.



(** * Further properties *)

(** ** Names and sections of manual pages *)

Lemma basename_no_slash (p : string) :
  Py.contains_char "/" p = false -> Py.basename p = p.
Proof.
  destruct p as [|c r]; simpl; [reflexivity|].
  intros H. apply orb_false_iff in H. destruct H as [Hc Hr].
  rewrite Hr, Hc. reflexivity.
Qed.

Lemma manpage_name_basename (x : string) :
  manpage_name (bname x) = manpage_name x.
Proof.
  unfold manpage_name at 1.
  replace (Py.contains_char "/" (bname x)) with false
    by (symmetry; apply contains_char_basename).
  unfold manpage_name.
  destruct (Py.contains_char "/" x) eqn:Hx; [reflexivity|].
  unfold bname. rewrite basename_no_slash by exact Hx. reflexivity.
Qed.

(** X1: the name [manpage_name] gives a path is a plain file name, without
    a slash, and depends on the last component of the path only. *)
Theorem manpage_name_plain_name (x : string) :
  Py.contains_char "/" (manpage_name x) = false
  /\ manpage_name x = manpage_name (bname x).
Proof.
  split.
  - apply manpage_name_slash_free.
  - symmetry. apply manpage_name_basename.
Qed.

Lemma count_from_contains (pat : string) (s : string) (skip : nat) :
  Py.count_from pat skip s <> 0 -> Py.contains pat s = true.
Proof.
  revert skip. induction s as [|a r IH]; intros skip; simpl.
  - intros H. exfalso. apply H. reflexivity.
  - destruct skip as [|k].
    + destruct pat as [|p0 pat'] eqn:Hpat; [reflexivity|].
      destruct (Ascii.ascii_dec p0 a) as [E|N].
      * destruct (prefix pat' r); [reflexivity|].
        intros H. apply IH in H. simpl in H |- *. exact H.
      * intros H. apply IH in H. simpl in H |- *. exact H.
    + intros H. apply IH in H. rewrite H. apply orb_true_r.
Qed.

(** [rsplit_char1] cuts at the last separator. *)
Lemma rsplit_char1_spec (c : ascii) (s : string) :
  if Py.contains_char c s
  then exists h t,
      Py.rsplit_char1 c s = [h; t]
      /\ s = (h ++ String c t)%string
      /\ Py.contains_char c t = false
  else Py.rsplit_char1 c s = [s].
Proof.
  induction s as [|a r IH]; simpl; [reflexivity|].
  destruct (Py.contains_char c r) eqn:Hr.
  - rewrite orb_true_r. destruct IH as (h & t & Hs & Hr' & Ht).
    exists (String a h), t. rewrite Hs. simpl. rewrite <- Hr'. auto.
  - rewrite orb_false_r. destruct (Ascii.eqb a c) eqn:Ha; [|reflexivity].
    apply Ascii.eqb_eq in Ha. subst a. exists EmptyString, r. auto.
Qed.

Lemma rfind_from_spec (c : ascii) (s : string) (i last : Z) :
  Py.rfind_from c s i last
  = match Py.rsplit_char1 c s with
    | [h; _] => (i + Z.of_nat (String.length h))%Z
    | _ => last
    end.
Proof.
  revert i last. induction s as [|a r IH]; intros i last; simpl;
    [reflexivity|].
  rewrite IH. pose proof (rsplit_char1_spec c r) as Hspec.
  destruct (Py.contains_char c r) eqn:Hr.
  - destruct Hspec as (h & t & Hs & _ & _). rewrite Hs. simpl. lia.
  - rewrite Hspec.
    destruct r as [|b r']; simpl;
      (destruct (Ascii.eqb a c); simpl; [lia | reflexivity]).
Qed.

Lemma substring_prefix (h x : string) :
  substring 0 (String.length h) (h ++ x)%string = h.
Proof.
  induction h as [|a h IH]; simpl.
  - destruct x; reflexivity.
  - rewrite IH. reflexivity.
Qed.

Lemma substring_all (x : string) :
  substring 0 (String.length x) x = x.
Proof. induction x as [|a x IH]; simpl; [|rewrite IH]; reflexivity. Qed.

Lemma substring_suffix (h x : string) :
  substring (String.length h)
            (String.length (h ++ x)%string - String.length h) (h ++ x)%string = x.
Proof.
  induction h as [|a h IH]; simpl.
  - rewrite Nat.sub_0_r. apply substring_all.
  - exact IH.
Qed.

(** The extension of a name without a slash that has a dot. *)
Lemma splitext_ext_cut (h t : string) :
  Py.contains_char "/" (h ++ String "." t)%string = false ->
  Py.contains_char "." t = false ->
  Py.splitext_ext (h ++ String "." t)%string
  = if Py.all_chars (fun a => Ascii.eqb a ".") h
    then EmptyString
    else String "." t.
Proof.
  intros Hslash Hdot. unfold Py.splitext_ext, Py.rfind.
  rewrite !rfind_from_spec.
  pose proof (rsplit_char1_spec "/" (h ++ String "." t)%string) as Hs.
  rewrite Hslash in Hs. rewrite Hs.
  pose proof (rsplit_char1_spec "." (h ++ String "." t)%string) as Hd.
  assert (Hhas : Py.contains_char "." (h ++ String "." t)%string = true).
  { clear. induction h as [|a h IH]; simpl; [reflexivity|].
    rewrite IH. apply orb_true_r. }
  rewrite Hhas in Hd. destruct Hd as (h' & t' & Hsplit & Heq & Ht').
  assert (Hh : h' = h /\ t' = t).
  { clear - Heq Hdot Ht'. revert h' Heq.
    induction h as [|a h IH]; intros h' Heq; simpl in Heq.
    - destruct h' as [|b h']; simpl in Heq.
      + inversion Heq. auto.
      + inversion Heq. subst. exfalso.
        assert (Hc : Py.contains_char "." (h' ++ String "." t')%string = true).
        { clear. induction h' as [|a h IH]; simpl; [reflexivity|].
          rewrite IH. apply orb_true_r. }
        congruence.
    - destruct h' as [|b h']; simpl in Heq.
      + inversion Heq. subst. exfalso.
        assert (Hc : Py.contains_char "." (h ++ String "." t)%string = true).
        { clear. induction h as [|a h IH]; simpl; [reflexivity|].
          rewrite IH. apply orb_true_r. }
        congruence.
      + inversion Heq. subst.
        destruct (IH h' H1) as [E1 E2]. subst. auto. }
  destruct Hh. subst h' t'. rewrite Hsplit.
  replace (-1 <? 0 + Z.of_nat (String.length h))%Z with true
    by (symmetry; apply Z.ltb_lt; lia).
  rewrite Z.add_0_l, Nat2Z.id. change (Z.to_nat (-1 + 1)) with 0.
  unfold Py.slice, Py.slice_from.
  rewrite Nat.sub_0_r, substring_prefix, substring_suffix. reflexivity.
Qed.

(** The name of a path that [is_manpage] accepts is cut at its last dot
    in a name and a section that starts with a digit. *)
Lemma is_manpage_section_cut (path : string) :
  is_manpage path = true ->
  exists name d rest,
    Py.rsplit_char1 "." (manpage_name path) = [name; String d rest]
    /\ manpage_name path = (name ++ String "." (String d rest))%string
    /\ Py.is_digit d = true
    /\ Py.contains_char "." (String d rest) = false.
Proof.
  unfold is_manpage. intros H.
  destruct (Py.count path "/man" =? 0)%nat; [discriminate H|].
  destruct (Py.contains_char "." (bname path)); simpl in H;
    [|discriminate H].
  rewrite manpage_name_basename in H.
  destruct (Py.contains_char "." (manpage_name path)) eqn:Hdot;
    simpl in H; [|discriminate H].
  destruct ((1 <? Py.count path "/man")%nat
            && negb (Py.contains "/man/man" path)); [discriminate H|].
  pose proof (rsplit_char1_spec "." (manpage_name path)) as Hs.
  rewrite Hdot in Hs. destruct Hs as (h & t & Hsplit & Heq & Ht).
  pose proof (manpage_name_slash_free path) as Hslash.
  rewrite Heq in H, Hslash.
  rewrite (splitext_ext_cut h t Hslash Ht) in H.
  destruct (Py.all_chars (fun a => Ascii.eqb a ".") h);
    [discriminate H|].
  unfold Py.slice in H. simpl in H.
  destruct t as [|d rest]; simpl in H; [discriminate H|].
  exists h, d, rest. split; [exact Hsplit|]. split; [exact Heq|].
  split; [|exact Ht].
  destruct rest; simpl in H;
    destruct (Py.is_digit d); try reflexivity; discriminate H.
Qed.

(** X2: a path that [is_manpage] accepts holds [/man], and the name
    [manpage_name] gives it is cut by [rsplit('.', 1)] in a name and a
    section that starts with a digit and has no dot: the unpacking of
    [loaddb] cannot fail, and name, dot and section make the file name. *)
Theorem is_manpage_name_has_section (path : string) :
  is_manpage path = true ->
  Py.contains "/man" path = true
  /\ exists name d rest,
      Py.rsplit_char1 "." (manpage_name path) = [name; String d rest]
      /\ manpage_name path = (name ++ String "." (String d rest))%string
      /\ Py.is_digit d = true
      /\ Py.contains_char "." (String d rest) = false.
Proof.
  intros H. split.
  - unfold is_manpage in H.
    destruct (Py.count path "/man" =? 0)%nat eqn:Hc; [discriminate H|].
    apply Nat.eqb_neq in Hc.
    apply (count_from_contains "/man" path 0). exact Hc.
  - apply is_manpage_section_cut. exact H.
Qed.

(** ** More on dictionaries *)

Lemma set_new {K V : Type} (K_dec : forall a b : K, {a = b} + {a <> b})
      (k : K) (v : V) (d : list (K * V)) :
  get K_dec k d = None -> set K_dec k v d = d ++ [(k, v)].
Proof.
  induction d as [|[k' v'] r IH]; simpl; intros H; [reflexivity|].
  destruct (K_dec k k'); [discriminate H|]. rewrite IH by exact H.
  reflexivity.
Qed.

Lemma keys_set_present {K V : Type}
      (K_dec : forall a b : K, {a = b} + {a <> b})
      (k : K) (v v0 : V) (d : list (K * V)) :
  get K_dec k d = Some v0 -> keys (set K_dec k v d) = keys d.
Proof.
  induction d as [|[k' v'] r IH]; simpl; intros H; [discriminate H|].
  destruct (K_dec k k') as [E|N]; simpl.
  - subst k'. reflexivity.
  - rewrite IH by exact H. reflexivity.
Qed.

Lemma has_false_get {K V : Type}
      (K_dec : forall a b : K, {a = b} + {a <> b})
      (k : K) (d : list (K * V)) :
  has K_dec k d = false <-> get K_dec k d = None.
Proof.
  unfold has. destruct (get K_dec k d); split; congruence.
Qed.

Lemma has_true_get {K V : Type}
      (K_dec : forall a b : K, {a = b} + {a <> b})
      (k : K) (d : list (K * V)) :
  has K_dec k d = true <-> exists v, get K_dec k d = Some v.
Proof.
  unfold has. destruct (get K_dec k d); split; eauto; try discriminate.
  intros [v H]. discriminate H.
Qed.

(** ** More on [add_member] *)

Section AddMemberFacts.

Variable nm : string -> string.

(** The members [add_member] works on: those of the record, or none. *)
Lemma add_member_cases (r : DebianPackage) (file : string) :
  (exists ms, members r = Some ms
              /\ has string_dec (nm file) ms = true
              /\ add_member nm r file = r)
  \/ (exists ms,
         (members r = Some ms \/ (members r = None /\ ms = []))
         /\ get string_dec (nm file) ms = None
         /\ add_member nm r file
            = {| flushed := false;
                 members := Some (ms ++ [(nm file, new_member (nm file))]);
                 ver := ver r; url := url r; desc := desc r;
                 todelete := todelete r |}).
Proof.
  unfold add_member.
  destruct (members r) as [ms|] eqn:Hms.
  - destruct (has string_dec (nm file) ms) eqn:Hhas.
    + left. exists ms. repeat split; auto.
      destruct r. simpl in *. subst. reflexivity.
    + right. exists ms. apply has_false_get in Hhas.
      rewrite (set_new string_dec) by exact Hhas. auto.
  - right. exists []. simpl. auto.
Qed.

Lemma register_get_same (k : PackageName) (file : string) (c : Cache) :
  get PackageName_dec k (register nm k file c)
  = Some (add_member nm (getitem_default k c) file).
Proof. unfold register. apply get_set_eq. Qed.

(** X3: registering a path under an archive a second time changes nothing:
    a row repeated in the [Contents] file leaves no trace. *)
Theorem register_twice (k : PackageName) (file : string) (c : Cache) :
  register nm k file (register nm k file c) = register nm k file c.
Proof. apply register_noop. apply register_registers. Qed.

End AddMemberFacts.

(** ** What a rebuild yields *)

Lemma locations_events_file (file : string) (locs : list string)
      (evs : list (PackageName * string)) :
  locations_events file locs = Ok evs ->
  forall k f, In (k, f) evs -> f = file.
Proof.
  revert evs. induction locs as [|p rest IH]; intros evs H k f Hin;
    simpl in H.
  - inversion H. subst. destruct Hin.
  - destruct (parse_location p) as [kp|e]; simpl in H; [|discriminate H].
    destruct (locations_events file rest) as [evs'|e]; simpl in H;
      [|discriminate H].
    inversion H. subst. destruct Hin as [E|Hin].
    + inversion E. reflexivity.
    + eapply IH; eauto.
Qed.

(** A scan registers paths that [is_manpage] accepts only. *)
Lemma contents_events_manpages (in_header : bool) (lines : list string)
      (evs : list (PackageName * string)) :
  contents_events in_header lines = Ok evs ->
  forall k f, In (k, f) evs -> is_manpage f = true.
Proof.
  revert in_header evs.
  induction lines as [|line rest IH]; intros in_header evs H k f Hin;
    simpl in H.
  - inversion H. subst. destruct Hin.
  - destruct in_header; [eapply IH; eauto|].
    destruct (row_events line) as [evs1|e] eqn:Hrow; simpl in H;
      [|discriminate H].
    destruct (contents_events false rest) as [evs2|e] eqn:Hrest;
      simpl in H; [|discriminate H].
    inversion H. subst. apply in_app_or in Hin. destruct Hin as [Hin|Hin].
    + unfold row_events in Hrow.
      destruct (parse_row line) as [[file location]|e]; simpl in Hrow;
        [|discriminate Hrow].
      destruct (is_manpage file) eqn:Hman; simpl in Hrow.
      * rewrite (locations_events_file _ _ _ Hrow k f Hin). exact Hman.
      * inversion Hrow. subst. destruct Hin.
    + eapply IH; eauto.
Qed.

Section RebuildFacts.

Variable nm : string -> string.

Lemma register_scanned (k : PackageName) (file : string) (c : Cache) :
  is_manpage file = true ->
  scanned nm c -> scanned nm (register nm k file c).
Proof.
  intros Hman Hc k' r' Hget.
  destruct (PackageName_dec k' k) as [E|N].
  2:{ rewrite (register_other nm k k' file c N) in Hget.
      apply (Hc k' r' Hget). }
  subst k'. rewrite register_get_same in Hget. inversion Hget. clear Hget.
  unfold getitem_default.
  destruct (get PackageName_dec k c) as [r|] eqn:Hk.
  - destruct (Hc k r Hk) as (Hf & Ht & ms & Hms & Hne & Hsm).
    destruct (add_member_cases nm r file)
      as [(ms0 & Hms0 & _ & E)|(ms0 & Hms0 & _ & E)]; rewrite E.
    + repeat split; auto. exists ms. auto.
    + simpl. repeat split; auto. eexists. split; [reflexivity|].
      destruct Hms0 as [Hms0|[Hms0 _]]; [|congruence].
      assert (ms0 = ms) by congruence. subst ms0. split.
      * destruct ms; discriminate.
      * intros m v Hin. apply in_app_or in Hin. destruct Hin as [Hin|Hin].
        -- apply Hsm. exact Hin.
        -- destruct Hin as [E'|[]]. inversion E'. subst. split; eauto.
  - destruct (add_member_cases nm DebianPackage_init file)
      as [(ms0 & Hms0 & _ & _)|(ms0 & Hms0 & _ & E)].
    + discriminate Hms0.
    + rewrite E. simpl. repeat split; auto. eexists. split; [reflexivity|].
      destruct Hms0 as [Hms0|[_ Hms0]]; [discriminate Hms0|]. subst ms0.
      split; [discriminate|].
      intros m v [E'|[]]. inversion E'. subst. split; eauto.
Qed.

Lemma apply_rebuild_scanned (evs : list (PackageName * string)) (c : Cache) :
  (forall k f, In (k, f) evs -> is_manpage f = true) ->
  scanned nm c -> scanned nm (apply_events (rebuild_body nm) evs c).
Proof.
  revert c. induction evs as [|[k f] evs IH]; intros c Hman Hc; simpl;
    [exact Hc|].
  apply IH.
  - intros k' f' Hin. apply (Hman k' f'). right. exact Hin.
  - apply register_scanned; [|exact Hc]. apply (Hman k f). left. reflexivity.
Qed.

Lemma apply_rebuild_keys (evs : list (PackageName * string))
      (k : PackageName) (c : Cache) :
  In k (keys (apply_events (rebuild_body nm) evs c))
  <-> In k (keys c) \/ In k (map fst evs).
Proof.
  revert c. induction evs as [|[k' f] evs IH]; intros c.
  - simpl. tauto.
  - change (apply_events (rebuild_body nm) ((k', f) :: evs) c)
      with (apply_events (rebuild_body nm) evs (register nm k' f c)).
    rewrite IH. unfold register. rewrite In_keys_set. simpl.
    intuition congruence.
Qed.

End RebuildFacts.

(** What the loop of [rebuild_cache] over the paragraphs leaves of a
    record. *)
Lemma rebuild_stanza_back (b : Stanza) (c c' : Cache) (k : PackageName)
      (r' : DebianPackage) :
  rebuild_stanza b c = Ok c' ->
  get PackageName_dec k c' = Some r' ->
  exists r,
    get PackageName_dec k c = Some r
    /\ flushed r' = flushed r /\ members r' = members r
    /\ todelete r' = todelete r.
Proof.
  intros H Hget. unfold rebuild_stanza in H.
  destruct (stanza_key b) as [p|e]; simpl in H; [|discriminate H].
  destruct (get PackageName_dec p c) as [rp|] eqn:Hp.
  - destruct (b_Version b); simpl in H; [|discriminate H].
    destruct (b_Filename b); simpl in H; [|discriminate H].
    destruct (b_Description b); simpl in H; [|discriminate H].
    inversion H. subst c'. destruct (PackageName_dec k p) as [E|N].
    + subst p. rewrite get_set_eq in Hget. inversion Hget. subst r'.
      exists rp. auto.
    + rewrite get_set_neq in Hget by exact N. exists r'. auto.
  - inversion H. subst c'. exists r'. auto.
Qed.

Lemma rebuild_loop_back (bs : list Stanza) (c c' : Cache) (k : PackageName)
      (r' : DebianPackage) :
  stanza_loop rebuild_stanza bs c = Ok c' ->
  get PackageName_dec k c' = Some r' ->
  exists r,
    get PackageName_dec k c = Some r
    /\ flushed r' = flushed r /\ members r' = members r
    /\ todelete r' = todelete r.
Proof.
  revert c. induction bs as [|b bs IH]; intros c H Hget; simpl in H.
  - inversion H. subst. exists r'. auto.
  - destruct (rebuild_stanza b c) as [c1|e] eqn:Hb; simpl in H;
      [|discriminate H].
    destruct (IH c1 H Hget) as (r1 & H1 & Ef & Em & Et).
    destruct (rebuild_stanza_back b c c1 k r1 Hb H1) as (r & Hr & Ef' & Em' & Et').
    exists r. repeat split; congruence.
Qed.

(** X4: in the cache a rebuild yields, every record is unflushed and not
    marked [todelete]; it has at least one member, every member is pending
    (state 0, no link, named by [manpage_name] of its key) and its key is
    the normalized form of a path that [is_manpage] accepts. *)
Theorem rebuild_cache_records_pending
        (nm : string -> string) (contents : list string)
        (paragraphs : list Stanza) (fresh : Cache)
        (k : PackageName) (r : DebianPackage) :
  rebuild_cache nm (Some contents) (Some paragraphs) = Ok fresh ->
  get PackageName_dec k fresh = Some r ->
  flushed r = false
  /\ todelete r = None
  /\ exists ms,
      members r = Some ms
      /\ ms <> []
      /\ forall m v,
          In (m, v) ms ->
          v = {| name := manpage_name m; state := 0; link := None |}
          /\ exists file, is_manpage file = true /\ m = nm file.
Proof.
  intros Hre Hget. rewrite rebuild_cache_eq in Hre.
  destruct (contents_events true contents) as [evs|e] eqn:Hevs;
    simpl in Hre; [|discriminate Hre].
  destruct (rebuild_loop_back paragraphs _ fresh k r Hre Hget)
    as (r0 & H0 & Ef & Em & Et).
  assert (Hsc : scanned nm (apply_events (rebuild_body nm) evs [])).
  { apply apply_rebuild_scanned.
    - apply (contents_events_manpages true contents evs Hevs).
    - intros k' r' H'. discriminate H'. }
  destruct (Hsc k r0 H0) as (Hf & Ht & ms & Hms & Hne & Hsm).
  split; [congruence|]. split; [congruence|].
  exists ms. split; [congruence|]. split; [exact Hne|].
  intros m v Hin. destruct (Hsm m v Hin) as [Hv Hfile].
  split; [exact Hv | exact Hfile].
Qed.

(** X5: the keys of the cache a rebuild yields are the archives the scan
    of the [Contents] file met: a paragraph of the metadata never adds an
    archive. *)
Theorem rebuild_cache_keys_qualifying
        (nm : string -> string) (contents : list string)
        (paragraphs : list Stanza) (fresh : Cache) :
  rebuild_cache nm (Some contents) (Some paragraphs) = Ok fresh ->
  exists seen,
    qualifying_archives nm contents = Ok seen
    /\ forall k, In k (keys fresh) <-> In k seen.
Proof.
  intros Hre. rewrite rebuild_cache_eq in Hre.
  rewrite qualifying_archives_eq.
  destruct (contents_events true contents) as [evs|e]; simpl in Hre |- *;
    [|discriminate Hre].
  exists (events_keys evs). split; [reflexivity|]. intros k.
  rewrite (proj1 (rebuild_loop_facts paragraphs _ fresh Hre) k).
  rewrite apply_rebuild_keys. unfold events_keys. rewrite seen_In.
  simpl. tauto.
Qed.

(** ** What an update keeps *)

(** A paragraph leaves the cache alone or rewrites one record, resetting
    [flushed] and keeping the members and the mark. *)
Lemma update_stanza_shape (b : Stanza) (c c' : Cache) :
  update_stanza b c = Ok c' ->
  c' = c
  \/ exists p r v f d,
      get PackageName_dec p c = Some r
      /\ c' = set PackageName_dec p
                {| flushed := false; members := members r; ver := Some v;
                   url := Some f; desc := Some d; todelete := todelete r |}
                c.
Proof.
  intros H. unfold update_stanza in H.
  destruct (stanza_key b) as [p|e]; simpl in H; [|discriminate H].
  destruct (get PackageName_dec p c) as [r|] eqn:Hp;
    [|inversion H; auto].
  destruct (ver r) as [old|]; simpl in H; [|discriminate H].
  destruct (b_Version b) as [v|]; simpl in H; [|discriminate H].
  destruct (string_dec old v); [inversion H; auto|].
  destruct (b_Filename b) as [f|]; simpl in H; [|discriminate H].
  destruct (b_Description b) as [d|]; simpl in H; [|discriminate H].
  inversion H. right. exists p, r, v, f, d. auto.
Qed.

(** The relation between a record before and after the paragraphs of an
    update: the members and the mark stay, [flushed] stays or is reset. *)
Lemma update_stanza_record (b : Stanza) (c c' : Cache) (k : PackageName) :
  update_stanza b c = Ok c' ->
  (forall r, get PackageName_dec k c = Some r ->
             exists r', get PackageName_dec k c' = Some r'
                        /\ members r' = members r
                        /\ todelete r' = todelete r
                        /\ (flushed r' = flushed r \/ flushed r' = false))
  /\ (forall r', get PackageName_dec k c' = Some r' ->
                 exists r, get PackageName_dec k c = Some r
                           /\ members r' = members r
                           /\ todelete r' = todelete r
                           /\ (flushed r' = flushed r \/ flushed r' = false)).
Proof.
  intros H. destruct (update_stanza_shape b c c' H)
    as [E|(p & rp & v & f & d & Hp & E)]; subst c'.
  - split; intros r Hr; exists r; auto.
  - destruct (PackageName_dec k p) as [E|N].
    + subst p. rewrite get_set_eq. split.
      * intros r Hr. assert (r = rp) by congruence. subst r.
        eexists. split; [reflexivity|]. simpl. auto.
      * intros r' Hr'. inversion Hr'. exists rp. simpl. auto.
    + rewrite get_set_neq by exact N.
      split; intros r Hr; exists r; auto.
Qed.

Lemma update_loop_record (bs : list Stanza) (c c' : Cache) (k : PackageName) :
  stanza_loop update_stanza bs c = Ok c' ->
  (forall r, get PackageName_dec k c = Some r ->
             exists r', get PackageName_dec k c' = Some r'
                        /\ members r' = members r
                        /\ todelete r' = todelete r
                        /\ (flushed r' = flushed r \/ flushed r' = false))
  /\ (forall r', get PackageName_dec k c' = Some r' ->
                 exists r, get PackageName_dec k c = Some r
                           /\ members r' = members r
                           /\ todelete r' = todelete r
                           /\ (flushed r' = flushed r \/ flushed r' = false)).
Proof.
  revert c. induction bs as [|b bs IH]; intros c H; simpl in H.
  - inversion H. subst. split; intros r Hr; exists r; auto.
  - destruct (update_stanza b c) as [c1|e] eqn:Hb; simpl in H;
      [|discriminate H].
    destruct (update_stanza_record b c c1 k Hb) as [F1 B1].
    destruct (IH c1 H) as [F2 B2]. split.
    + intros r Hr. destruct (F1 r Hr) as (r1 & H1 & Em & Et & Ef).
      destruct (F2 r1 H1) as (r2 & H2 & Em2 & Et2 & Ef2).
      exists r2. repeat split; try congruence.
      destruct Ef2 as [Ef2|Ef2]; [|auto].
      destruct Ef as [Ef|Ef]; [left|right]; congruence.
    + intros r' Hr'. destruct (B2 r' Hr') as (r1 & H1 & Em & Et & Ef).
      destruct (B1 r1 H1) as (r & H0 & Em0 & Et0 & Ef0).
      exists r. repeat split; try congruence.
      destruct Ef as [Ef|Ef]; [|auto].
      destruct Ef0 as [Ef0|Ef0]; [left|right]; congruence.
Qed.

Section UpdateFacts.

Variable nm : string -> string.

Lemma register_extends (k k' : PackageName) (file : string) (c : Cache)
      (r : DebianPackage) (ms : Members) :
  get PackageName_dec k c = Some r ->
  members r = Some ms ->
  exists r' extra,
    get PackageName_dec k (register nm k' file c) = Some r'
    /\ members r' = Some (ms ++ extra).
Proof.
  intros Hget Hms. destruct (PackageName_dec k k') as [E|N].
  - subst k'. rewrite register_get_same. unfold getitem_default.
    rewrite Hget.
    destruct (add_member_cases nm r file)
      as [(ms0 & Hms0 & _ & E)|(ms0 & Hms0 & _ & E)]; rewrite E.
    + exists r, []. split; [reflexivity|]. rewrite app_nil_r. exact Hms.
    + eexists. exists [(nm file, new_member (nm file))].
      split; [reflexivity|].
      simpl. destruct Hms0 as [Hms0|[Hms0 _]]; congruence.
  - exists r, []. rewrite register_other by exact N.
    rewrite app_nil_r. auto.
Qed.

Lemma apply_rebuild_extends (evs : list (PackageName * string))
      (k : PackageName) (c : Cache) (r : DebianPackage) (ms : Members) :
  get PackageName_dec k c = Some r ->
  members r = Some ms ->
  exists r' extra,
    get PackageName_dec k (apply_events (rebuild_body nm) evs c) = Some r'
    /\ members r' = Some (ms ++ extra).
Proof.
  revert c r ms. induction evs as [|[k' f] evs IH]; intros c r ms Hget Hms.
  - exists r, []. rewrite app_nil_r. auto.
  - destruct (register_extends k k' f c r ms Hget Hms)
      as (r1 & e1 & H1 & Hm1).
    destruct (IH _ r1 _ H1 Hm1) as (r2 & e2 & H2 & Hm2).
    exists r2, (e1 ++ e2). split; [exact H2|].
    rewrite Hm2, app_assoc. reflexivity.
Qed.

(** X6: an update that completes keeps every member record of a cached
    archive as it was, state and link included, and in its place; the
    members it adds come after them. *)
Theorem update_cache_keeps_members
        (cache cache' : Cache) (contents : list string)
        (paragraphs : list Stanza) (k : PackageName) (r : DebianPackage)
        (ms : Members) :
  update_cache nm (Some cache) (Some contents) (Some paragraphs)
  = Ok cache' ->
  get PackageName_dec k cache = Some r ->
  members r = Some ms ->
  exists r' extra,
    get PackageName_dec k cache' = Some r'
    /\ members r' = Some (ms ++ extra).
Proof.
  intros Hup Hget Hms. rewrite update_cache_eq in Hup.
  destruct (contents_events true contents) as [evs|e]; simpl in Hup;
    [|discriminate Hup].
  destruct (apply_rebuild_extends evs k cache r ms Hget Hms)
    as (r1 & extra & H1 & Hm1).
  destruct (mark_disappeared_any (events_keys evs) k _ r1 H1)
    as (r2 & H2 & E2).
  destruct (proj1 (update_loop_record paragraphs _ cache' k Hup) r2 H2)
    as (r3 & H3 & Em3 & _).
  exists r3, extra. split; [exact H3|].
  rewrite Em3. destruct E2; subst r2; exact Hm1.
Qed.

(** X8: an update that completes never takes the mark [todelete] off a
    record, whether or not the archive is listed again. *)
Theorem update_cache_todelete_sticky
        (cache cache' : Cache) (contents : list string)
        (paragraphs : list Stanza) (k : PackageName) (r : DebianPackage) :
  update_cache nm (Some cache) (Some contents) (Some paragraphs)
  = Ok cache' ->
  get PackageName_dec k cache = Some r ->
  todelete r = Some true ->
  exists r', get PackageName_dec k cache' = Some r'
             /\ todelete r' = Some true.
Proof.
  intros Hup Hget Htd. rewrite update_cache_eq in Hup.
  destruct (contents_events true contents) as [evs|e]; simpl in Hup;
    [|discriminate Hup].
  destruct (apply_rebuild_meta nm evs k cache r Hget)
    as (r1 & H1 & _ & _ & _ & Et1).
  destruct (mark_disappeared_any (events_keys evs) k _ r1 H1)
    as (r2 & H2 & E2).
  destruct (proj1 (update_loop_record paragraphs _ cache' k Hup) r2 H2)
    as (r3 & H3 & _ & Et3 & _).
  exists r3. split; [exact H3|]. rewrite Et3.
  destruct E2; subst r2; [congruence | reflexivity].
Qed.

End UpdateFacts.

(** ** New members and the flag [flushed] *)

Section NewMemberFacts.

Variable nm : string -> string.

Lemma register_pending_keep (k k' : PackageName) (m file : string)
      (c : Cache) :
  pending_in k m c -> pending_in k m (register nm k' file c).
Proof.
  intros (r & ms & Hget & Hf & Hms & Hm).
  destruct (PackageName_dec k k') as [E|N].
  2:{ exists r, ms. rewrite register_other by exact N. auto. }
  subst k'. unfold pending_in. rewrite register_get_same.
  unfold getitem_default. rewrite Hget.
  destruct (add_member_cases nm r file)
    as [(ms0 & Hms0 & _ & E)|(ms0 & Hms0 & Hnone & E)]; rewrite E.
  - exists r, ms. auto.
  - eexists. eexists. split; [reflexivity|]. simpl.
    split; [reflexivity|]. split; [reflexivity|].
    destruct Hms0 as [Hms0|[Hms0 _]]; [|congruence].
    assert (ms0 = ms) by congruence. subst ms0.
    rewrite <- (set_new string_dec) by exact Hnone.
    rewrite get_set_neq; [exact Hm|]. intros Eq. congruence.
Qed.

Lemma register_pending_new (k : PackageName) (file : string) (c : Cache) :
  ~ registered k (nm file) c ->
  pending_in k (nm file) (register nm k file c).
Proof.
  intros Hnot. unfold pending_in. rewrite register_get_same.
  destruct (add_member_cases nm (getitem_default k c) file)
    as [(ms0 & Hms0 & Hhas & _)|(ms0 & Hms0 & Hnone & E)].
  - exfalso. apply Hnot. unfold getitem_default in Hms0.
    destruct (get PackageName_dec k c) as [r|] eqn:Hk;
      [|discriminate Hms0].
    exists r, ms0. auto.
  - rewrite E. eexists. eexists. split; [reflexivity|]. simpl.
    split; [reflexivity|]. split; [reflexivity|].
    rewrite <- (set_new string_dec) by exact Hnone. apply get_set_eq.
Qed.

Lemma register_not_registered (k k' : PackageName) (m file : string)
      (c : Cache) :
  k' <> k \/ nm file <> m ->
  ~ registered k m c -> ~ registered k m (register nm k' file c).
Proof.
  intros Hdiff Hnot (r' & ms' & Hget & Hms & Hhas). apply Hnot.
  destruct (PackageName_dec k k') as [E|N].
  2:{ rewrite register_other in Hget by exact N. exists r', ms'. auto. }
  subst k'. destruct Hdiff as [Hd|Hd]; [congruence|].
  rewrite register_get_same in Hget. inversion Hget. subst r'. clear Hget.
  unfold getitem_default in Hms.
  destruct (get PackageName_dec k c) as [r|] eqn:Hk.
  - destruct (add_member_cases nm r file)
      as [(ms0 & Hms0 & _ & E)|(ms0 & Hms0 & Hnone & E)]; rewrite E in Hms.
    + exists r, ms'. auto.
    + simpl in Hms. inversion Hms. subst ms'.
      destruct Hms0 as [Hms0|[Hms0 Hnil]].
      * exists r, ms0. repeat split; auto.
        rewrite <- (set_new string_dec) in Hhas by exact Hnone.
        rewrite has_set in Hhas.
        destruct (string_dec m (nm file)); [congruence | exact Hhas].
      * subst ms0. simpl in Hhas. unfold has in Hhas. simpl in Hhas.
        destruct (string_dec m (nm file)); [congruence | discriminate Hhas].
  - destruct (add_member_cases nm DebianPackage_init file)
      as [(ms0 & Hms0 & _ & _)|(ms0 & Hms0 & Hnone & E)];
      [discriminate Hms0|].
    rewrite E in Hms. simpl in Hms. inversion Hms. subst ms'.
    destruct Hms0 as [Hms0|[_ Hnil]]; [discriminate Hms0|]. subst ms0.
    simpl in Hhas. unfold has in Hhas. simpl in Hhas.
    destruct (string_dec m (nm file)); [congruence | discriminate Hhas].
Qed.

Lemma apply_rebuild_pending_keep (evs : list (PackageName * string))
      (k : PackageName) (m : string) (c : Cache) :
  pending_in k m c -> pending_in k m (apply_events (rebuild_body nm) evs c).
Proof.
  revert c. induction evs as [|[k' f] evs IH]; intros c H; [exact H|].
  apply (IH (register nm k' f c)). apply register_pending_keep. exact H.
Qed.

Lemma apply_rebuild_pending_new (evs : list (PackageName * string))
      (k : PackageName) (file : string) (c : Cache) :
  In (k, file) evs ->
  ~ registered k (nm file) c ->
  pending_in k (nm file) (apply_events (rebuild_body nm) evs c).
Proof.
  revert c. induction evs as [|[k1 f1] evs IH]; intros c Hin Hnot;
    [destruct Hin|].
  change (apply_events (rebuild_body nm) ((k1, f1) :: evs) c)
    with (apply_events (rebuild_body nm) evs (register nm k1 f1 c)).
  destruct (PackageName_dec k1 k) as [Ek|Nk].
  - destruct (string_dec (nm f1) (nm file)) as [Ef|Nf].
    + subst k1. apply apply_rebuild_pending_keep. rewrite <- Ef.
      apply register_pending_new. rewrite Ef. exact Hnot.
    + destruct Hin as [E|Hin]; [inversion E; congruence|].
      apply (IH _ Hin). apply register_not_registered; auto.
  - destruct Hin as [E|Hin]; [inversion E; congruence|].
    apply (IH _ Hin). apply register_not_registered; auto.
Qed.

(** X7: when the scan meets a path under an archive whose record does not
    list it yet, an update that completes leaves the archive unflushed and
    the new member pending. *)
Theorem update_cache_new_member_unflushes
        (cache cache' : Cache) (contents : list string)
        (paragraphs : list Stanza) (evs : list (PackageName * string))
        (k : PackageName) (file : string) :
  update_cache nm (Some cache) (Some contents) (Some paragraphs)
  = Ok cache' ->
  contents_events true contents = Ok evs ->
  In (k, file) evs ->
  ~ registered k (nm file) cache ->
  exists r' ms',
    get PackageName_dec k cache' = Some r'
    /\ flushed r' = false
    /\ members r' = Some ms'
    /\ get string_dec (nm file) ms'
       = Some {| name := manpage_name (nm file); state := 0;
                 link := None |}.
Proof.
  intros Hup Hevs Hin Hnot. rewrite update_cache_eq, Hevs in Hup.
  simpl in Hup.
  destruct (apply_rebuild_pending_new evs k file cache Hin Hnot)
    as (r1 & ms1 & H1 & Hf1 & Hm1 & Hg1).
  destruct (mark_disappeared_any (events_keys evs) k _ r1 H1)
    as (r2 & H2 & E2).
  destruct (proj1 (update_loop_record paragraphs _ cache' k Hup) r2 H2)
    as (r3 & H3 & Em3 & _ & Ef3).
  exists r3, ms1. split; [exact H3|].
  assert (Hr2 : flushed r2 = false /\ members r2 = Some ms1)
    by (destruct E2; subst r2; auto).
  destruct Hr2 as [Hf2 Hm2].
  split; [destruct Ef3; congruence|]. split; [congruence | exact Hg1].
Qed.

Lemma register_flushed_sound (k : PackageName) (file : string) (c : Cache) :
  flushed_sound c -> flushed_sound (register nm k file c).
Proof.
  intros Hc k' r' ms' Hget Hf Hms.
  destruct (PackageName_dec k' k) as [E|N].
  2:{ rewrite register_other in Hget by exact N.
      apply (Hc k' r' ms' Hget Hf Hms). }
  subst k'. rewrite register_get_same in Hget. inversion Hget. subst r'.
  destruct (add_member_cases nm (getitem_default k c) file)
    as [(ms0 & Hms0 & _ & E)|(ms0 & _ & _ & E)]; rewrite E in Hf, Hms.
  - unfold getitem_default in Hf, Hms.
    destruct (get PackageName_dec k c) as [r|] eqn:Hk;
      [|discriminate Hf].
    apply (Hc k r ms' Hk Hf Hms).
  - discriminate Hf.
Qed.

Lemma mark_disappeared_flushed_sound (seen : list PackageName) (c : Cache) :
  flushed_sound c -> flushed_sound (mark_disappeared seen c).
Proof.
  intros Hc k r' ms' Hget Hf Hms.
  destruct (mark_disappeared_get seen k c) as [E|E]; rewrite Hget in E.
  - apply (Hc k r' ms'); auto.
  - destruct (get PackageName_dec k c) as [r|] eqn:Hk; [|discriminate E].
    inversion E. subst r'. apply (Hc k r ms' Hk); auto.
Qed.

(** X10: an update that completes keeps the invariant that a flushed
    record has no pending member. *)
Theorem update_cache_flushed_sound
        (cache cache' : Cache) (contents : list string)
        (paragraphs : list Stanza) :
  flushed_sound cache ->
  update_cache nm (Some cache) (Some contents) (Some paragraphs)
  = Ok cache' ->
  flushed_sound cache'.
Proof.
  intros Hc Hup. rewrite update_cache_eq in Hup.
  destruct (contents_events true contents) as [evs|e]; simpl in Hup;
    [|discriminate Hup].
  assert (H1 : flushed_sound (apply_events (rebuild_body nm) evs cache)).
  { clear Hup. revert cache Hc.
    induction evs as [|[k f] evs IH]; intros cache Hc; [exact Hc|].
    apply (IH (register nm k f cache)).
    apply register_flushed_sound. exact Hc. }
  apply (mark_disappeared_flushed_sound (events_keys evs)) in H1.
  intros k r' ms' Hget Hf Hms.
  destruct (proj2 (update_loop_record paragraphs _ cache' k Hup) r' Hget)
    as (r & Hr & Em & _ & Ef).
  apply (H1 k r ms' Hr); [|congruence].
  destruct Ef; congruence.
Qed.

Lemma apply_rebuild_new_key (evs : list (PackageName * string))
      (k : PackageName) (c : Cache) :
  get PackageName_dec k c = None ->
  In k (map fst evs) ->
  exists r1,
    get PackageName_dec k (apply_events (rebuild_body nm) evs c) = Some r1
    /\ ver r1 = None.
Proof.
  revert c. induction evs as [|[k1 f1] evs IH]; intros c Hnone Hin;
    [destruct Hin|].
  change (apply_events (rebuild_body nm) ((k1, f1) :: evs) c)
    with (apply_events (rebuild_body nm) evs (register nm k1 f1 c)).
  destruct (PackageName_dec k1 k) as [E|N].
  - subst k1.
    destruct (apply_rebuild_meta nm evs k (register nm k f1 c) _
                (register_get_same nm k f1 c))
      as (r1 & H1 & Hv & _).
    exists r1. split; [exact H1|]. rewrite Hv.
    rewrite (proj1 (add_member_meta nm _ f1)).
    unfold getitem_default. rewrite Hnone. reflexivity.
  - apply IH.
    + rewrite register_other by congruence. exact Hnone.
    + destruct Hin as [E|Hin]; [simpl in E; congruence | exact Hin].
Qed.

End NewMemberFacts.

Lemma update_loop_fails (bs : list Stanza) (c : Cache) (b : Stanza)
      (k : PackageName) (r : DebianPackage) :
  get PackageName_dec k c = Some r ->
  ver r = None ->
  In b bs ->
  stanza_key b = Ok k ->
  exists e, stanza_loop update_stanza bs c = Raise e.
Proof.
  revert c r. induction bs as [|b0 bs IH]; intros c r Hget Hver Hin Hk;
    [destruct Hin|]. simpl.
  destruct (update_stanza b0 c) as [c1|e] eqn:Hb0; simpl; [|eauto].
  assert (Hne : stanza_key b0 <> Ok k).
  { intros E. unfold update_stanza in Hb0. rewrite E in Hb0.
    simpl in Hb0. rewrite Hget, Hver in Hb0. discriminate Hb0. }
  destruct Hin as [E|Hin]; [subst b0; contradiction|].
  apply (IH c1 r); auto.
  rewrite (update_stanza_other b0 c c1 k Hb0 Hne). exact Hget.
Qed.

(** X9: an update cannot complete when the metadata hold a paragraph about
    an archive that has no cached version: an archive the scan has just
    met for the first time, or a cached one that never had metadata: the
    call raises. *)
Theorem update_cache_fails_without_version
        (nm : string -> string) (cache : Cache) (contents : list string)
        (paragraphs : list Stanza) (seen : list PackageName)
        (b : Stanza) (k : PackageName) :
  qualifying_archives nm contents = Ok seen ->
  In b paragraphs ->
  stanza_key b = Ok k ->
  match get PackageName_dec k cache with
  | Some r => ver r = None
  | None => In k seen
  end ->
  exists e,
    update_cache nm (Some cache) (Some contents) (Some paragraphs)
    = Raise e.
Proof.
  intros Hseen Hin Hk Hcase. rewrite update_cache_eq.
  rewrite qualifying_archives_eq in Hseen.
  destruct (contents_events true contents) as [evs|e]; simpl in Hseen |- *;
    [|discriminate Hseen].
  inversion Hseen. subst seen. clear Hseen.
  assert (H1 : exists r1,
             get PackageName_dec k (apply_events (rebuild_body nm) evs cache)
             = Some r1 /\ ver r1 = None).
  { destruct (get PackageName_dec k cache) as [r|] eqn:Hget.
    - destruct (apply_rebuild_meta nm evs k cache r Hget)
        as (r1 & H1 & Hv & _).
      exists r1. split; [exact H1 | congruence].
    - apply apply_rebuild_new_key; [exact Hget|].
      unfold events_keys in Hcase. apply seen_In in Hcase.
      destruct Hcase as [[]|Hc]. exact Hc. }
  destruct H1 as (r1 & H1 & Hv1).
  destruct (mark_disappeared_any (events_keys evs) k _ r1 H1)
    as (r2 & H2 & E2).
  apply (update_loop_fails paragraphs _ b k r2 H2); auto.
  destruct E2; subst r2; exact Hv1.
Qed.

(** ** The file system *)

Lemma get_filter_other (p path : string) (l : list (string * string)) :
  path <> p ->
  get string_dec path
      (filter (fun kv => negb (String.eqb (fst kv) p)) l)
  = get string_dec path l.
Proof.
  intros N. induction l as [|[k v] l IH]; simpl; [reflexivity|].
  destruct (String.eqb k p) eqn:Hk; simpl.
  - apply String.eqb_eq in Hk. subst k.
    destruct (string_dec path p); [contradiction | exact IH].
  - destruct (string_dec path k); [reflexivity | exact IH].
Qed.

Lemma get_filter_same (p : string) (l : list (string * string)) :
  get string_dec p (filter (fun kv => negb (String.eqb (fst kv) p)) l)
  = None.
Proof.
  induction l as [|[k v] l IH]; simpl; [reflexivity|].
  destruct (String.eqb k p) eqn:Hk; simpl; [exact IH|].
  apply String.eqb_neq in Hk.
  destruct (string_dec p k); [congruence | exact IH].
Qed.

Lemma isfile_unlink_same (fs : FileSystem) (p : string) :
  isfile (unlink fs p) p = false.
Proof. unfold isfile, unlink, has. simpl. rewrite get_filter_same. reflexivity. Qed.

Lemma isfile_unlink (fs : FileSystem) (p path : string) :
  isfile (unlink fs p) path = true -> isfile fs path = true /\ path <> p.
Proof.
  destruct (string_dec path p) as [E|N].
  - subst path. rewrite isfile_unlink_same. discriminate.
  - unfold isfile, unlink, has. simpl. rewrite get_filter_other by exact N.
    auto.
Qed.

Lemma isfile_write (fs : FileSystem) (p data path : string) :
  isfile (write_file fs p data) path
  = if string_dec path p then true else isfile fs path.
Proof. unfold isfile, write_file. simpl. apply has_set. Qed.

(** ** More on the member loop *)

Section LoopMore.

Variable w : World.
Variable data_file : DataFile.
Variable container : string.

Lemma process_member_progress (m : string) (v v' : Member)
      (fs fs' : FileSystem) (s : Step) :
  process_member w data_file container m v fs = (v', fs', s) ->
  member_progress (m, v) (m, v') /\ (s = Next -> state v' <> 0%Z).
Proof.
  unfold process_member, member_progress. cbn [fst snd].
  destruct (state v =? 0)%Z eqn:Hs; cbn [negb].
  2:{ intros H. inversion H. subst. apply Z.eqb_neq in Hs.
      repeat split; auto. }
  apply Z.eqb_eq in Hs.
  assert (Hfin : forall (v1 : Member) (s1 : Step),
             name v1 = name v ->
             (state v1 = state v
              \/ (s1 = Next /\ (state v1 = 1%Z \/ state v1 = 2%Z))) ->
             (s1 = Next -> state v1 <> 0%Z) ->
             (m = m /\ name v1 = name v
              /\ (state v <> 0%Z -> v1 = v)
              /\ (state v1 = state v
                  \/ (state v = 0%Z
                      /\ (state v1 = 1%Z \/ state v1 = 2%Z))))
             /\ (s1 = Next -> state v1 <> 0%Z)).
  { intros v1 s1 Hn Hst Hnext. repeat split; auto.
    - intros Hne. contradiction.
    - destruct Hst as [E|[_ E]]; auto. }
  destruct (getmember data_file ("./" ++ m)) as [item|].
  2:{ intros H. inversion H. subst. apply Hfin; auto. discriminate. }
  destruct (get_file data_file m) as [c|x].
  - destruct (if Py.endswith m ".gz" then gunzip w c else Ok c);
      destruct (issym item); intros H; inversion H; subst;
      apply Hfin; simpl; auto; try discriminate.
  - destruct x;
      try (intros H; inversion H; subst; apply Hfin; auto; discriminate).
    destruct (issym item); intros H; inversion H; subst;
      apply Hfin; simpl; auto; try discriminate.
Qed.

Lemma member_progress_refl (ms : Members) : Forall2 member_progress ms ms.
Proof.
  induction ms as [|x ms IH]; constructor; [|exact IH].
  unfold member_progress. auto.
Qed.

Lemma member_loop_progress (ms ms' : Members) (fs fs' : FileSystem)
      (e : LoopExit) :
  member_loop w data_file container ms fs = (ms', fs', e) ->
  Forall2 member_progress ms ms' /\ (e = Completed -> no_pending ms').
Proof.
  revert fs ms' fs' e.
  induction ms as [|[m v] ms IH]; intros fs ms' fs' e; simpl.
  - intros H. inversion H. split; constructor.
  - destruct (process_member w data_file container m v fs)
      as [[v1 fs1] s] eqn:Hstep.
    destruct (process_member_progress _ _ _ _ _ _ Hstep) as [Hp Hn].
    destruct s.
    + destruct (member_loop w data_file container ms fs1)
        as [[rest' fs2] e2] eqn:Hrest.
      destruct (IH _ _ _ _ Hrest) as [Hf Hc].
      intros H. inversion H. subst. split.
      * constructor; assumption.
      * intros E. constructor; [apply Hn; reflexivity | apply Hc; exact E].
    + intros H. inversion H. subst. split; [|discriminate].
      constructor; [exact Hp | apply member_progress_refl].
    + intros H. inversion H. subst. split; [|discriminate].
      constructor; [exact Hp | apply member_progress_refl].
Qed.

Lemma process_member_files (m : string) (v v' : Member)
      (fs fs' : FileSystem) (s : Step) :
  process_member w data_file container m v fs = (v', fs', s) ->
  dirs fs' = dirs fs
  /\ forall path,
      path <> pjoin container (name v) ->
      get string_dec path (files fs') = get string_dec path (files fs).
Proof.
  unfold process_member.
  destruct (negb (state v =? 0)%Z); [intros H; inversion H; auto|].
  destruct (getmember data_file ("./" ++ m)) as [item|];
    [|intros H; inversion H; auto].
  destruct (get_file data_file m) as [c|x].
  - assert (Hname : name (if issym item
                          then with_link v (manpage_name (linkname item))
                          else v) = name v)
      by (destruct (issym item); reflexivity).
    rewrite Hname.
    destruct (if Py.endswith m ".gz" then gunzip w c else Ok c);
      intros H; inversion H; subst; simpl; (split; [reflexivity|]);
      intros path N; rewrite ?get_set_neq by exact N; reflexivity.
  - destruct x; try (intros H; inversion H; auto; fail).
    destruct (issym item); intros H; inversion H; auto.
Qed.

Lemma member_loop_files (ms ms' : Members) (fs fs' : FileSystem)
      (e : LoopExit) :
  member_loop w data_file container ms fs = (ms', fs', e) ->
  dirs fs' = dirs fs
  /\ forall path,
      (forall m v, In (m, v) ms -> path <> pjoin container (name v)) ->
      get string_dec path (files fs') = get string_dec path (files fs).
Proof.
  revert fs ms' fs' e.
  induction ms as [|[m v] ms IH]; intros fs ms' fs' e; simpl.
  - intros H. inversion H. auto.
  - destruct (process_member w data_file container m v fs)
      as [[v1 fs1] s] eqn:Hstep.
    destruct (process_member_files _ _ _ _ _ _ Hstep) as [Hd Hf].
    assert (Hhead : forall path,
               (forall m0 v0, (m, v) = (m0, v0) \/ In (m0, v0) ms ->
                              path <> pjoin container (name v0)) ->
               get string_dec path (files fs1)
               = get string_dec path (files fs)).
    { intros path Hp. apply Hf. apply (Hp m v). left. reflexivity. }
    destruct s.
    + destruct (member_loop w data_file container ms fs1)
        as [[rest' fs2] e2] eqn:Hrest.
      destruct (IH _ _ _ _ Hrest) as [Hd2 Hf2].
      intros H. inversion H. subst. split; [congruence|].
      intros path Hp. rewrite Hf2, Hhead; auto.
      intros m0 v0 Hin. apply (Hp m0 v0). right. exact Hin.
    + intros H. inversion H. subst. split; [exact Hd|exact Hhead].
    + intros H. inversion H. subst. split; [exact Hd|exact Hhead].
Qed.

End LoopMore.

(** ** More on one archive *)

Section ArchiveMore.

Variable w : World.

(** The ways a call of [get_manpages_from_package] ends. *)
Lemma get_manpages_shape (pkg : string) (packages packages' : Cache)
      (fs fs' : FileSystem) (o : Outcome) :
  get_manpages_from_package w pkg packages fs = (packages', fs', o) ->
  let container := pjoin (output_dir w) pkg in
  let fs0 := fst (make_container w pkg fs) in
  (packages' = packages /\ fs' = fs0 /\ o <> Returned None)
  \/ (exists content,
         packages' = packages
         /\ fs' = unlink (write_file fs0 (mkstemp w) content) (mkstemp w)
         /\ o = Returned None)
  \/ (exists content,
         packages' = packages
         /\ fs' = write_file fs0 (mkstemp w) content
         /\ o = Raised KeyError)
  \/ (exists p cp content data_file ms ms' fs1 e,
         container_ready w pkg fs
         /\ reaches_loop w pkg packages p cp content data_file ms
         /\ member_loop w data_file container ms
                        (fs_at_loop w pkg content fs) = (ms', fs1, e)
         /\ packages'
            = set PackageName_dec p
                  (with_members cp ms'
                     (match e with Completed => true | _ => false end))
                  packages
         /\ fs' = match e with
                  | Completed => unlink fs1 (mkstemp w)
                  | _ => fs1
                  end
         /\ o = match e with
                | Completed => Returned None
                | Abandoned => Returned (Some true)
                | Failed x => Raised x
                end).
Proof.
  intros Hrun container fs0. unfold get_manpages_from_package in Hrun.
  cbv zeta in Hrun. fold container in Hrun.
  assert (Hat : forall content,
             fs_at_loop w pkg content fs
             = write_file fs0 (mkstemp w) content) by reflexivity.
  assert (Hready : snd (make_container w pkg fs) = None ->
                   container_ready w pkg fs) by auto.
  subst fs0. destruct (make_container w pkg fs) as [fs0 [x|]].
  { inversion Hrun. left. repeat split. discriminate. }
  cbn [fst snd] in *. specialize (Hready eq_refl).
  destruct (find_package pkg packages) as [p|x] eqn:Hfind.
  2:{ inversion Hrun. left. repeat split. discriminate. }
  unfold getitem_default in Hrun.
  assert (Hget : exists cp, get PackageName_dec p packages = Some cp).
  { apply (get_In_keys PackageName_dec). unfold find_package in Hfind.
    destruct (filter (fun sp => String.eqb (package sp) pkg)
                     (keys packages)) as [|q l] eqn:Hf;
      [discriminate Hfind|].
    inversion Hfind. subst q.
    assert (Hin : In p (filter (fun sp => String.eqb (package sp) pkg)
                               (keys packages)))
      by (rewrite Hf; left; reflexivity).
    apply filter_In in Hin. tauto. }
  destruct Hget as [cp Hget]. rewrite Hget in Hrun.
  destruct (flushed cp) eqn:Hfl.
  { inversion Hrun. left. repeat split. discriminate. }
  destruct (url cp) as [u|] eqn:Hurl.
  2:{ inversion Hrun. left. repeat split. discriminate. }
  destruct (requests_get w (base_url ++ u)) as [content|x] eqn:Hreq.
  2:{ inversion Hrun. left. repeat split. discriminate. }
  unfold write_file at 1 in Hrun. cbn [files] in Hrun.
  rewrite get_set_eq in Hrun.
  destruct (DebFile_data w content) as [data_file|] eqn:Hopen.
  2:{ inversion Hrun. right. left. exists content. auto. }
  destruct (members cp) as [ms|] eqn:Hms.
  2:{ inversion Hrun. right. right. left. exists content. auto. }
  right. right. right.
  assert (Hreach : reaches_loop w pkg packages p cp content data_file ms).
  { repeat split; auto. exists u. auto. }
  rewrite <- (Hat content) in Hrun.
  destruct (member_loop w data_file container ms
                        (fs_at_loop w pkg content fs))
    as [[ms' fs1] e] eqn:Hloop.
  exists p, cp, content, data_file, ms, ms', fs1, e.
  split; [exact Hready|]. split; [exact Hreach|]. split; [exact Hloop|].
  destruct e; inversion Hrun; auto.
Qed.

(** X11: a call of [get_manpages_from_package], however it ends, keeps the
    invariant that a flushed record has no pending member. *)
Theorem get_manpages_flushed_sound
        (pkg : string) (packages packages' : Cache)
        (fs fs' : FileSystem) (o : Outcome) :
  flushed_sound packages ->
  get_manpages_from_package w pkg packages fs = (packages', fs', o) ->
  flushed_sound packages'.
Proof.
  intros Hsound Hrun.
  destruct (get_manpages_shape _ _ _ _ _ _ Hrun)
    as [(E & _)|[(c & E & _)|[(c & E & _)
       |(p & cp & c & df & ms & ms' & fs1 & e & Hready & Hreach & Hloop & E & _)]]];
    subst packages'; try exact Hsound.
  intros k r' ms0 Hget Hf Hms.
  destruct (PackageName_dec k p) as [Ek|Nk].
  - subst k. rewrite get_set_eq in Hget. inversion Hget. subst r'.
    simpl in Hf, Hms. inversion Hms. subst ms0.
    destruct e; try discriminate Hf.
    apply (proj2 (member_loop_progress _ _ _ _ _ _ _ _ Hloop)).
    reflexivity.
  - rewrite get_set_neq in Hget by exact Nk.
    apply (Hsound k r' ms0); auto.
Qed.

(** X12: a call of [get_manpages_from_package], however it ends, keeps the
    keys of the cache and, in every record, the version, the location, the
    description and the mark; a flushed record stays as it is; a member
    keeps its key and its name, stays as it is unless it was pending, and
    a pending one stays pending or goes to state 1 or 2. *)
Theorem get_manpages_progress
        (pkg : string) (packages packages' : Cache)
        (fs fs' : FileSystem) (o : Outcome) :
  get_manpages_from_package w pkg packages fs = (packages', fs', o) ->
  keys packages' = keys packages
  /\ forall k r,
      get PackageName_dec k packages = Some r ->
      exists r',
        get PackageName_dec k packages' = Some r'
        /\ ver r' = ver r /\ url r' = url r /\ desc r' = desc r
        /\ todelete r' = todelete r
        /\ (flushed r = true -> r' = r)
        /\ members_progress (members r) (members r').
Proof.
  intros Hrun.
  assert (Hrefl : forall r, members_progress (members r) (members r)).
  { intros r. unfold members_progress.
    destruct (members r); [apply member_progress_refl | exact I]. }
  destruct (get_manpages_shape _ _ _ _ _ _ Hrun)
    as [(E & _)|[(c & E & _)|[(c & E & _)
       |(p & cp & c & df & ms & ms' & fs1 & e & Hready & Hreach & Hloop & E & _)]]];
    subst packages';
    try (split; [reflexivity|]; intros k r Hr; exists r;
         repeat split; auto; fail).
  destruct Hreach as (_ & Hp & Hfl & _ & _ & Hms).
  split; [apply (keys_set_present PackageName_dec p _ cp); exact Hp|].
  intros k r Hr. destruct (PackageName_dec k p) as [Ek|Nk].
  - subst k. assert (r = cp) by congruence. subst r.
    rewrite get_set_eq. eexists. split; [reflexivity|]. simpl.
    repeat split; auto; [congruence|].
    rewrite Hms. simpl.
    apply (proj1 (member_loop_progress _ _ _ _ _ _ _ _ Hloop)).
  - rewrite get_set_neq by exact Nk. exists r. repeat split; auto.
Qed.

(** X13: whenever a call of [get_manpages_from_package] returns [None],
    after a failure to open the archive or at the end of the member loop,
    the temporary file is gone. *)
Theorem tmpfile_removed_on_return_none
        (pkg : string) (packages packages' : Cache)
        (fs fs' : FileSystem) :
  get_manpages_from_package w pkg packages fs
  = (packages', fs', Returned None) ->
  isfile fs' (mkstemp w) = false.
Proof.
  intros Hrun.
  destruct (get_manpages_shape _ _ _ _ _ _ Hrun)
    as [(_ & _ & Ho)|[(c & _ & E & _)|[(c & _ & _ & Ho)
       |(p & cp & c & df & ms & ms' & fs1 & e & Hready & _ & _ & _ & E & Ho)]]].
  - exfalso. apply Ho. reflexivity.
  - subst fs'. apply isfile_unlink_same.
  - discriminate Ho.
  - destruct e; try discriminate Ho. subst fs'. apply isfile_unlink_same.
Qed.

Lemma NoDup_two_apart {A : Type} (l1 l2 l3 : list A) (a b : A) :
  NoDup (l1 ++ a :: l2 ++ b :: l3) -> ~ In b l1 /\ a <> b.
Proof.
  induction l1 as [|x l1 IH]; simpl; intros H; inversion H; subst.
  - split; [tauto|]. intros E. subst b. apply H2.
    apply in_or_app. right. left. reflexivity.
  - destruct (IH H3) as [Hb Hab]. split; [|exact Hab].
    intros [E|Hin]; [|contradiction]. subst x. apply H2.
    apply in_or_app. right. right. apply in_or_app. right. left.
    reflexivity.
Qed.

(** X14: when two keys of the cache have one package name, no call of
    [get_manpages_from_package], whatever the name it is given, changes
    the record under the second key: the archive is never extracted. *)
Theorem shadowed_record_never_touched
        (pkg : string) (packages packages' : Cache)
        (fs fs' : FileSystem) (o : Outcome)
        (pre mid post : Cache) (k1 k2 : PackageName)
        (r1 r2 : DebianPackage) :
  packages = pre ++ (k1, r1) :: mid ++ (k2, r2) :: post ->
  NoDup (keys packages) ->
  package k1 = package k2 ->
  get_manpages_from_package w pkg packages fs = (packages', fs', o) ->
  get PackageName_dec k2 packages' = get PackageName_dec k2 packages.
Proof.
  intros Hpk Hnd Hname Hrun.
  destruct (find_package pkg packages) as [p|x] eqn:Hfind.
  2:{ unfold get_manpages_from_package in Hrun. cbv zeta in Hrun.
      destruct (make_container w pkg fs) as [fs0 [x0|]];
        [|rewrite Hfind in Hrun]; inversion Hrun; reflexivity. }
  apply (get_manpages_frame w pkg packages packages' fs fs' o p k2
           Hfind Hrun).
  intros E. subst p. unfold find_package in Hfind.
  assert (Hkeys : keys packages
                  = keys pre ++ k1 :: keys mid ++ k2 :: keys post).
  { subst packages. unfold keys. rewrite map_app. simpl.
    rewrite map_app. reflexivity. }
  rewrite Hkeys in Hfind, Hnd.
  destruct (NoDup_two_apart _ _ _ _ _ Hnd) as [Hout Hne].
  assert (Hk2 : String.eqb (package k2) pkg = true).
  { destruct (filter (fun sp => String.eqb (package sp) pkg)
                     (keys pre ++ k1 :: keys mid ++ k2 :: keys post))
      as [|q l] eqn:Hf; [discriminate Hfind|].
    inversion Hfind. subst q.
    assert (Hin : In k2 (filter (fun sp => String.eqb (package sp) pkg)
                           (keys pre ++ k1 :: keys mid ++ k2 :: keys post)))
      by (rewrite Hf; left; reflexivity).
    apply filter_In in Hin. tauto. }
  rewrite filter_app in Hfind. simpl in Hfind.
  rewrite Hname, Hk2 in Hfind.
  destruct (filter (fun sp => String.eqb (package sp) pkg) (keys pre))
    as [|q l] eqn:Hf; simpl in Hfind; inversion Hfind.
  - contradiction.
  - subst q. apply Hout.
    assert (Hin : In k2 (filter (fun sp => String.eqb (package sp) pkg)
                                (keys pre)))
      by (rewrite Hf; left; reflexivity).
    apply filter_In in Hin. tauto.
Qed.

End ArchiveMore.

(** ** The files a call writes *)

Section FilesMore.

Variable w : World.

Lemma process_member_extracts (data_file : DataFile) (container m : string)
      (v : Member) (fs : FileSystem) (item : TarInfo) (c d : string) :
  state v = 0%Z ->
  getmember data_file ("./" ++ m) = Some item ->
  get_file data_file m = Ok c ->
  (if Py.endswith m ".gz" then gunzip w c else Ok c) = Ok d ->
  exists v' fs',
    process_member w data_file container m v fs = (v', fs', Next)
    /\ state v' = 1%Z
    /\ get string_dec (pjoin container (name v)) (files fs') = Some d.
Proof.
  intros Hs Hg Hf Hd. unfold process_member.
  rewrite Hs, Hg, Hf, Hd. cbn [negb Z.eqb].
  assert (Hname : name (if issym item
                        then with_link v (manpage_name (linkname item))
                        else v) = name v)
    by (destruct (issym item); reflexivity).
  rewrite Hname. eexists. eexists. split; [reflexivity|].
  split; [reflexivity|]. simpl. apply get_set_eq.
Qed.

Lemma processable_getmember (data_file : DataFile) (m : string)
      (v : Member) :
  state v = 0%Z ->
  processable w data_file (m, v) = true ->
  exists item, getmember data_file ("./" ++ m) = Some item.
Proof.
  intros Hs. unfold processable. rewrite Hs. cbn [negb Z.eqb orb].
  destruct (getmember data_file ("./" ++ m)) as [item|];
    [eauto | discriminate].
Qed.

(** X16: once the loop, the directory of the package being there, has
    written a member, the file named after it in the directory of the
    package holds its content, decompressed when the key of the member
    ends in [.gz], however the call ends, provided no later member is
    written to the same path and the path is not that of the temporary
    file. *)
Theorem extracted_file_holds_content
        (pkg : string) (packages packages' : Cache)
        (fs fs' : FileSystem) (o : Outcome) (p : PackageName)
        (cp : DebianPackage) (content : string) (data_file : DataFile)
        (ms pre post : Members) (m : string) (v : Member) (c d : string) :
  container_ready w pkg fs ->
  reaches_loop w pkg packages p cp content data_file ms ->
  get_manpages_from_package w pkg packages fs = (packages', fs', o) ->
  ms = pre ++ (m, v) :: post ->
  forallb (processable w data_file) pre = true ->
  state v = 0%Z ->
  processable w data_file (m, v) = true ->
  get_file data_file m = Ok c ->
  (if Py.endswith m ".gz" then gunzip w c else Ok c) = Ok d ->
  (forall m2 v2,
      In (m2, v2) post ->
      pjoin (pjoin (output_dir w) pkg) (name v)
      <> pjoin (pjoin (output_dir w) pkg) (name v2)) ->
  pjoin (pjoin (output_dir w) pkg) (name v) <> mkstemp w ->
  get string_dec (pjoin (pjoin (output_dir w) pkg) (name v)) (files fs')
  = Some d.
Proof.
  intros Hready Hreach Hrun Hms Hpre Hs Hproc Hf Hd Hpost Htmp.
  rewrite (get_manpages_at_loop _ _ _ _ _ _ _ _ _ Hready Hreach) in Hrun.
  subst ms. rewrite member_loop_app in Hrun.
  pose proof (proj2 (member_loop_completed_iff w data_file
                       (pjoin (output_dir w) pkg) pre
                       (fs_at_loop w pkg content fs)) Hpre) as Hdone.
  destruct (member_loop w data_file (pjoin (output_dir w) pkg) pre
                        (fs_at_loop w pkg content fs))
    as [[pre' fs1] e1].
  simpl in Hdone. subst e1. simpl in Hrun.
  destruct (processable_getmember data_file m v Hs Hproc) as [item Hg].
  destruct (process_member_extracts data_file (pjoin (output_dir w) pkg)
              m v fs1 item c d Hs Hg Hf Hd)
    as (v' & fs2 & Hstep & _ & Hfile).
  rewrite Hstep in Hrun.
  destruct (member_loop w data_file (pjoin (output_dir w) pkg) post fs2)
    as [[post' fs3] e3] eqn:Hrest.
  assert (Hkeep : get string_dec
                      (pjoin (pjoin (output_dir w) pkg) (name v))
                      (files fs3) = Some d).
  { rewrite (proj2 (member_loop_files _ _ _ _ _ _ _ _ Hrest)); auto. }
  destruct e3; inversion Hrun; subst; try exact Hkeep.
  unfold unlink. simpl. rewrite get_filter_other by exact Htmp.
  exact Hkeep.
Qed.

Lemma pjoin_plain (c n : string) :
  Py.contains_char "/" n = false ->
  exists sep, (sep = "" \/ sep = "/") /\ pjoin c n = (c ++ sep ++ n)%string.
Proof.
  intros Hn. unfold pjoin, Py.join.
  assert (Hs : Py.startswith n "/" = false).
  { destruct n as [|a r]; [reflexivity|]. simpl in Hn.
    apply orb_false_iff in Hn. destruct Hn as [Ha _].
    unfold Py.startswith.
    change (prefix "/" (String a r))
      with (if ascii_dec "/" a then prefix "" r else false).
    destruct (ascii_dec "/" a) as [E|N]; [|reflexivity].
    subst a. discriminate Ha. }
  rewrite Hs.
  destruct ((c =? "") || Py.endswith c "/").
  - exists "". split; [left; reflexivity | reflexivity].
  - exists "/". split; [right; reflexivity | reflexivity].
Qed.

(** X15: every directory that is there after a call of
    [get_manpages_from_package] was there before, or is the directory of
    the package or lies above it on its path; every file that is there
    afterwards was there before, or is the temporary file, or is the join
    of the directory of the package and the name of a member of the cache,
    which is that directory followed by the name whenever the name holds
    no slash. *)
Theorem get_manpages_writes_in_container
        (pkg : string) (packages packages' : Cache)
        (fs fs' : FileSystem) (o : Outcome) :
  get_manpages_from_package w pkg packages fs = (packages', fs', o) ->
  (forall d, isdir fs' d = true ->
             isdir fs d = true
             \/ path_above d (pjoin (output_dir w) pkg))
  /\ forall path,
      isfile fs' path = true ->
      isfile fs path = true
      \/ path = mkstemp w
      \/ exists k r ms m v,
          get PackageName_dec k packages = Some r
          /\ members r = Some ms
          /\ In (m, v) ms
          /\ path = pjoin (pjoin (output_dir w) pkg) (name v)
          /\ (Py.contains_char "/" (name v) = false ->
              exists sep,
                (sep = "" \/ sep = "/")
                /\ path = (pjoin (output_dir w) pkg ++ sep ++ name v)%string).
Proof.
  intros Hrun.
  set (container := pjoin (output_dir w) pkg).
  set (fs0 := fst (make_container w pkg fs)).
  assert (Hd0 : forall d, isdir fs0 d = true ->
                          isdir fs d = true \/ path_above d container).
  { intros d. subst fs0.
    destruct (make_container w pkg fs) as [fs00 err] eqn:Hmk.
    apply (make_container_shape _ _ _ _ _ Hmk). }
  assert (Hf0 : forall path, isfile fs0 path = isfile fs path)
    by (intros path; apply make_container_isfile).
  assert (Hw : forall content path,
             isfile (write_file fs0 (mkstemp w) content) path = true ->
             isfile fs path = true \/ path = mkstemp w).
  { intros content path. rewrite isfile_write.
    destruct (string_dec path (mkstemp w)); [auto|].
    rewrite Hf0. auto. }
  destruct (get_manpages_shape w _ _ _ _ _ _ Hrun)
    as [(_ & E & _)|[(c & _ & E & _)|[(c & _ & E & _)
       |(p & cp & c & df & ms & ms' & fs1 & e & _ & Hreach & Hloop
         & _ & E & _)]]];
    fold container in E; fold fs0 in E.
  - subst fs'. split; [exact Hd0|]. intros path. rewrite Hf0. auto.
  - subst fs'. split; [exact Hd0|]. intros path Hp.
    apply isfile_unlink in Hp. destruct Hp as [Hp _].
    destruct (Hw c path Hp); auto.
  - subst fs'. split; [exact Hd0|]. intros path Hp.
    destruct (Hw c path Hp); auto.
  - fold container in Hloop.
    destruct (member_loop_files _ _ _ _ _ _ _ _ Hloop) as [Hdirs Hfiles].
    destruct Hreach as (_ & Hp & _ & _ & _ & Hms).
    assert (Hfs1 : forall path,
               isfile fs1 path = true ->
               isfile fs path = true \/ path = mkstemp w
               \/ exists m v, In (m, v) ms
                              /\ path = pjoin container (name v)).
    { intros path Hpath.
      assert (Hdec : (exists m v, In (m, v) ms
                                  /\ path = pjoin container (name v))
                     \/ forall m v, In (m, v) ms ->
                                    path <> pjoin container (name v)).
      { clear. induction ms as [|[m0 v0] l IH].
        - right. intros m v [].
        - destruct (string_dec path (pjoin container (name v0))) as [E|N].
          + left. exists m0, v0. split; [left; reflexivity | exact E].
          + destruct IH as [(m & v & Hin & E)|IH].
            * left. exists m, v. split; [right; exact Hin | exact E].
            * right. intros m v [E0|Hin]; [inversion E0; subst; exact N|].
              apply (IH m v Hin). }
      destruct Hdec as [Hex|Hno]; [auto|].
      unfold isfile, has in Hpath. rewrite (Hfiles path Hno) in Hpath.
      destruct (Hw c path Hpath); auto. }
    assert (Hd1 : forall d, isdir fs1 d = true ->
                            isdir fs d = true \/ path_above d container).
    { intros d Hd. apply Hd0. unfold isdir in *.
      unfold fs_at_loop in Hdirs. simpl in Hdirs. fold fs0 in Hdirs.
      rewrite Hdirs in Hd. exact Hd. }
    assert (Hlift : forall path,
               isfile fs1 path = true ->
               isfile fs path = true \/ path = mkstemp w
               \/ exists k r ms0 m v,
                   get PackageName_dec k packages = Some r
                   /\ members r = Some ms0 /\ In (m, v) ms0
                   /\ path = pjoin container (name v)
                   /\ (Py.contains_char "/" (name v) = false ->
                       exists sep,
                         (sep = "" \/ sep = "/")
                         /\ path = (container ++ sep ++ name v)%string)).
    { intros path Hpath.
      destruct (Hfs1 path Hpath) as [H|[H|(m & v & Hin & E0)]]; auto.
      right. right. exists p, cp, ms, m, v.
      repeat split; auto. intros Hplain. subst path.
      apply pjoin_plain. exact Hplain. }
    destruct e; subst fs'.
    + split; [exact Hd1|]. intros path Hpath.
      apply isfile_unlink in Hpath. apply Hlift. tauto.
    + split; [exact Hd1 | exact Hlift].
    + split; [exact Hd1 | exact Hlift].
Qed.

End FilesMore.

(** ** Loading the database *)

Lemma loaddb_locations_events (path name section : string)
      (locs : list string) (rows : list ManpageRow) (pwp : list string) :
  Py.rsplit_char1 "." (manpage_name path) = [name; section] ->
  loaddb_locations path name section locs (rows, pwp)
  = (evs <- locations_events path locs ;;
     Ok (rows ++ map row_of_event evs,
         fold_left (fun s ev => set_add string_dec (package (fst ev)) s)
                   evs pwp)).
Proof.
  intros Hcut. revert rows pwp.
  induction locs as [|p rest IH]; intros rows pwp; simpl.
  - rewrite app_nil_r. reflexivity.
  - destruct (parse_location p) as [k|e]; simpl; [|reflexivity].
    rewrite IH.
    destruct (locations_events path rest) as [evs|e]; simpl;
      [|reflexivity].
    unfold row_of_event at 2. simpl. rewrite Hcut.
    rewrite <- app_assoc. reflexivity.
Qed.

Lemma loaddb_row_events (line : string) (rows : list ManpageRow)
      (pwp : list string) :
  loaddb_row line (rows, pwp)
  = (evs <- row_events line ;;
     Ok (rows ++ map row_of_event evs,
         fold_left (fun s ev => set_add string_dec (package (fst ev)) s)
                   evs pwp)).
Proof.
  unfold loaddb_row, row_events.
  destruct (parse_row line) as [[path location]|e]; simpl; [|reflexivity].
  destruct (is_manpage path) eqn:Hman; simpl.
  - destruct (is_manpage_section_cut path Hman)
      as (name & d & rest & Hcut & _).
    rewrite Hcut. apply loaddb_locations_events. exact Hcut.
  - rewrite app_nil_r. reflexivity.
Qed.

(** The scan of [loaddb] runs over the registrations of the scan of the
    cache. *)
Lemma loaddb_lines_events (in_header : bool) (lines : list string)
      (rows : list ManpageRow) (pwp : list string) :
  loaddb_lines in_header lines (rows, pwp)
  = (evs <- contents_events in_header lines ;;
     Ok (rows ++ map row_of_event evs,
         fold_left (fun s ev => set_add string_dec (package (fst ev)) s)
                   evs pwp)).
Proof.
  revert in_header rows pwp.
  induction lines as [|line rest IH]; intros in_header rows pwp; simpl.
  - rewrite app_nil_r. reflexivity.
  - destruct in_header; [apply IH|].
    rewrite loaddb_row_events.
    destruct (row_events line) as [evs|e]; simpl; [|reflexivity].
    rewrite IH.
    destruct (contents_events false rest) as [evs'|e]; simpl;
      [|reflexivity].
    rewrite map_app, fold_left_app, app_assoc. reflexivity.
Qed.

Lemma names_In (evs : list (PackageName * string)) (pwp : list string)
      (n : string) :
  In n (fold_left (fun s ev => set_add string_dec (package (fst ev)) s)
                  evs pwp)
  <-> In n pwp \/ exists ev, In ev evs /\ package (fst ev) = n.
Proof.
  revert pwp. induction evs as [|ev evs IH]; intros pwp; simpl.
  - split; [auto | intros [H|(ev & [] & _)]; exact H].
  - rewrite IH, set_add_iff. split.
    + intros [[E|H]|(ev' & Hin & E)]; eauto.
    + intros [H|(ev' & [E|Hin] & En)]; subst; eauto.
Qed.

Lemma row_of_event_fields (ev : PackageName * string) :
  row_path (row_of_event ev) = snd ev
  /\ row_package (row_of_event ev) = package (fst ev).
Proof.
  unfold row_of_event.
  destruct (Py.rsplit_char1 "." (manpage_name (snd ev)))
    as [|a [|b [|c l]]]; auto.
Qed.

Lemma registered_dec (k : PackageName) (m : string) (c : Cache) :
  registered k m c \/ ~ registered k m c.
Proof.
  unfold registered.
  destruct (get PackageName_dec k c) as [r|] eqn:Hget.
  - destruct (members r) as [ms|] eqn:Hms.
    + destruct (has string_dec m ms) eqn:Hhas.
      * left. exists r, ms. auto.
      * right. intros (r' & ms' & H1 & H2 & H3).
        inversion H1. subst r'. congruence.
    + right. intros (r' & ms' & H1 & H2 & H3).
      inversion H1. subst r'. congruence.
  - right. intros (r' & ms' & H1 & _). discriminate H1.
Qed.

(** A member the scan leaves in the cache comes from a registration. *)
Lemma apply_rebuild_origin (nm : string -> string)
      (evs : list (PackageName * string)) (k : PackageName) (m : string)
      (c : Cache) :
  registered k m (apply_events (rebuild_body nm) evs c) ->
  registered k m c \/ exists file, In (k, file) evs /\ nm file = m.
Proof.
  revert c. induction evs as [|[k1 f1] evs IH]; intros c H; [auto|].
  change (apply_events (rebuild_body nm) ((k1, f1) :: evs) c)
    with (apply_events (rebuild_body nm) evs (register nm k1 f1 c)) in H.
  destruct (IH _ H) as [H1|(file & Hin & E)].
  - destruct (registered_dec k m c) as [Hr|Hn]; [auto|].
    destruct (PackageName_dec k1 k) as [Ek|Nk].
    + destruct (string_dec (nm f1) m) as [Ef|Nf].
      * right. exists f1. subst. split; [left; reflexivity | reflexivity].
      * exfalso.
        apply (register_not_registered nm k k1 m f1 c (or_intror Nf) Hn H1).
    + exfalso.
      apply (register_not_registered nm k k1 m f1 c (or_introl Nk) Hn H1).
  - right. exists file. split; [right; exact Hin | exact E].
Qed.

(** X17: [loaddb] and [rebuild_cache], run on one [Contents] file, list
    the same pages: the rows [loaddb] commits to [manpages] are those of
    the paths that [is_manpage] accepts, with the file name cut in name
    and section; each row names a member of an archive of the cache, and
    each member of the cache has its row. *)
Theorem loaddb_rows_match_cache
        (nm : string -> string) (db db' : Database)
        (contents : list string) (paragraphs : list Stanza)
        (res : Result unit) (fresh : Cache) :
  rebuild_cache nm (Some contents) (Some paragraphs) = Ok fresh ->
  loaddb db (Some contents) (Some paragraphs) = (db', res) ->
  exists rows,
    manpages db' = manpages db ++ rows
    /\ (forall row,
           In row rows ->
           is_manpage (row_path row) = true
           /\ manpage_name (row_path row)
              = (row_name row ++ String "." (row_section row))%string
           /\ exists k, package k = row_package row
                        /\ registered k (nm (row_path row)) fresh)
    /\ (forall k m,
           registered k m fresh ->
           exists row, In row rows
                       /\ row_package row = package k
                       /\ nm (row_path row) = m).
Proof.
  intros Hre Hload. rewrite rebuild_cache_eq in Hre.
  unfold loaddb in Hload. simpl in Hload.
  rewrite loaddb_lines_events in Hload.
  destruct (contents_events true contents) as [evs|e] eqn:Hevs;
    simpl in Hre, Hload; [|discriminate Hre].
  exists (map row_of_event evs). split.
  { destruct (loaddb_paragraphs _ paragraphs []);
      inversion Hload; reflexivity. }
  destruct (rebuild_loop_facts paragraphs _ fresh Hre) as (_ & Hm & _).
  split.
  - intros row Hrow. apply in_map_iff in Hrow.
    destruct Hrow as ([k file] & Erow & Hin). subst row.
    pose proof (contents_events_manpages true contents evs Hevs k file Hin)
      as Hman.
    destruct (is_manpage_section_cut file Hman)
      as (name & d & rest & Hcut & Heq & _).
    unfold row_of_event. simpl. rewrite Hcut. simpl.
    split; [exact Hman|]. split; [exact Heq|].
    exists k. split; [reflexivity|].
    destruct (apply_rebuild_registered nm evs k file [] Hin)
      as (r0 & ms0 & H0 & Hms0 & Hhas0).
    destruct (Hm k r0 H0) as (rf & Hrf & Emf).
    exists rf, ms0. repeat split; congruence.
  - intros k m (rf & ms & Hrf & Hms & Hhas).
    destruct (rebuild_loop_back paragraphs _ fresh k rf Hre Hrf)
      as (r0 & H0 & _ & Em & _).
    assert (Hreg : registered k m (apply_events (rebuild_body nm) evs []))
      by (exists r0, ms; repeat split; congruence).
    destruct (apply_rebuild_origin nm evs k m [] Hreg)
      as [(r & ms' & Habs & _)|(file & Hin & E)]; [discriminate Habs|].
    exists (row_of_event (k, file)).
    split; [apply in_map; exact Hin|].
    destruct (row_of_event_fields (k, file)) as [Hp Hk].
    rewrite Hp, Hk. auto.
Qed.

Lemma loaddb_paragraphs_rows (pwp : list string) (bs : list Stanza)
      (rows0 rows1 : list PackageRow) :
  loaddb_paragraphs pwp bs rows0 = Ok rows1 ->
  exists extra,
    rows1 = rows0 ++ extra
    /\ forall prow,
        In prow extra ->
        In (prow_package prow) pwp
        /\ exists b,
            In b bs
            /\ b_Package b = Some (prow_package prow)
            /\ b_Filename b = Some (prow_filename prow)
            /\ b_Version b = Some (prow_version prow)
            /\ b_Description b = Some (prow_description prow).
Proof.
  revert rows0. induction bs as [|b bs IH]; intros rows0 H; simpl in H.
  - inversion H. exists []. rewrite app_nil_r. split; [reflexivity|].
    intros prow [].
  - destruct (b_Package b) as [pkg|] eqn:Hp; simpl in H; [|discriminate H].
    destruct (set_mem string_dec pkg pwp) eqn:Hmem.
    + destruct (b_Filename b) as [f|] eqn:Hf; simpl in H;
        [|discriminate H].
      destruct (b_Version b) as [v|] eqn:Hv; simpl in H;
        [|discriminate H].
      destruct (b_Description b) as [d|] eqn:Hd; simpl in H;
        [|discriminate H].
      destruct (IH _ H) as (extra & E & Hextra).
      eexists. split; [rewrite E, <- app_assoc; reflexivity|].
      intros prow [Ep|Hin].
      * subst prow. simpl. split.
        -- apply (set_mem_correct1 string_dec). exact Hmem.
        -- exists b. split; [left; reflexivity|]. auto.
      * destruct (Hextra prow Hin) as (Hpw & b' & Hb' & Hfields).
        split; [exact Hpw|]. exists b'. split; [right; exact Hb'|].
        exact Hfields.
    + destruct (IH _ H) as (extra & E & Hextra).
      exists extra. split; [exact E|].
      intros prow Hin.
      destruct (Hextra prow Hin) as (Hpw & b' & Hb' & Hfields).
      split; [exact Hpw|]. exists b'. split; [right; exact Hb'|].
      exact Hfields.
Qed.

(** X18: when [loaddb] returns, every row it has added to [packages] is
    copied from a paragraph of the metadata and is about a package for
    which it has added a row to [manpages]; when it raises, [packages] is
    as it was. *)
Theorem loaddb_packages_have_pages
        (db db' : Database) (contents : list string)
        (paragraphs : list Stanza) (res : Result unit) :
  loaddb db (Some contents) (Some paragraphs) = (db', res) ->
  match res with
  | Raise _ => packages_table db' = packages_table db
  | Ok _ =>
      exists rows prows,
        manpages db' = manpages db ++ rows
        /\ packages_table db' = packages_table db ++ prows
        /\ forall prow,
            In prow prows ->
            (exists row, In row rows
                         /\ row_package row = prow_package prow)
            /\ exists b,
                In b paragraphs
                /\ b_Package b = Some (prow_package prow)
                /\ b_Filename b = Some (prow_filename prow)
                /\ b_Version b = Some (prow_version prow)
                /\ b_Description b = Some (prow_description prow)
  end.
Proof.
  intros Hload. unfold loaddb in Hload. simpl in Hload.
  rewrite loaddb_lines_events in Hload.
  destruct (contents_events true contents) as [evs|e]; simpl in Hload;
    [|inversion Hload; reflexivity].
  destruct (loaddb_paragraphs _ paragraphs []) as [prows|e] eqn:Hpar;
    inversion Hload; subst; [|reflexivity].
  destruct (loaddb_paragraphs_rows _ _ _ _ Hpar) as (extra & E & Hextra).
  simpl in E. subst extra.
  exists (map row_of_event evs), prows. simpl.
  split; [reflexivity|]. split; [reflexivity|].
  intros prow Hin. destruct (Hextra prow Hin) as (Hpw & Hb).
  split; [|exact Hb].
  apply names_In in Hpw. destruct Hpw as [[]|(ev & Hev & En)].
  exists (row_of_event ev). split; [apply in_map; exact Hev|].
  rewrite (proj2 (row_of_event_fields ev)). exact En.
Qed.

(** ** The further properties, run on the small repository *)

(** The page of [ls] has the name [ls] and the section [1]. *)
Lemma is_manpage_name_has_section_witness :
  Py.contains "/man" "/usr/share/man/man1/ls.1.gz" = true
  /\ exists name d rest,
      Py.rsplit_char1 "." (manpage_name "/usr/share/man/man1/ls.1.gz")
      = [name; String d rest]
      /\ manpage_name "/usr/share/man/man1/ls.1.gz"
         = (name ++ String "." (String d rest))%string
      /\ Py.is_digit d = true
      /\ Py.contains_char "." (String d rest) = false.
Proof.
  apply (is_manpage_name_has_section "/usr/share/man/man1/ls.1.gz").
  reflexivity.
Defined.

(** The record of [foo] in the cache rebuilt from the small inputs. *)
Lemma rebuild_cache_records_pending_witness :
  flushed (demo_record [pending "usr/share/man/man1/foo.1.gz"]) = false
  /\ todelete (demo_record [pending "usr/share/man/man1/foo.1.gz"]) = None
  /\ exists ms,
      members (demo_record [pending "usr/share/man/man1/foo.1.gz"])
      = Some ms
      /\ ms <> []
      /\ forall m v,
          In (m, v) ms ->
          v = {| name := manpage_name m; state := 0; link := None |}
          /\ exists file,
              is_manpage file = true /\ m = debian_normalize_member file.
Proof.
  apply (rebuild_cache_records_pending
           debian_normalize_member demo_contents
           [demo_paragraph "1.0" "pool/f/foo.deb"]
           [(demo_key, demo_record [pending "usr/share/man/man1/foo.1.gz"])]
           demo_key).
  - vm_compute. reflexivity.
  - reflexivity.
Defined.

Lemma rebuild_cache_keys_qualifying_witness :
  exists seen,
    qualifying_archives debian_normalize_member demo_contents = Ok seen
    /\ forall k,
        In k (keys [(demo_key,
                     demo_record [pending "usr/share/man/man1/foo.1.gz"])])
        <-> In k seen.
Proof.
  apply (rebuild_cache_keys_qualifying
           debian_normalize_member demo_contents
           [demo_paragraph "1.0" "pool/f/foo.deb"]).
  vm_compute. reflexivity.
Defined.

(** The extracted member of [foo] survives an update to version 2.0. *)
Lemma update_cache_keeps_members_witness :
  exists cache' r' extra,
    update_cache debian_normalize_member (Some two_cache)
      (Some demo_contents)
      (Some [demo_paragraph "2.0" "pool/f/foo_2.0.deb"])
    = Ok cache'
    /\ get PackageName_dec demo_key cache' = Some r'
    /\ members r'
       = Some ([("usr/share/man/man1/foo.1.gz",
                 {| name := "foo.1"; state := 1; link := None |})]
               ++ extra).
Proof.
  eexists.
  destruct (update_cache_keeps_members
              debian_normalize_member two_cache _ demo_contents
              [demo_paragraph "2.0" "pool/f/foo_2.0.deb"]
              demo_key (extracted_record "1.0" "pool/f/foo_1.0.deb")
              [("usr/share/man/man1/foo.1.gz",
                {| name := "foo.1"; state := 1; link := None |})]
              eq_refl eq_refl eq_refl)
    as (r' & extra & Hget & Hms).
  exists r', extra. split; [reflexivity|]. split; assumption.
Defined.

(** A second page of [foo] appears in the [Contents] file. *)
Lemma update_cache_new_member_unflushes_witness :
  exists cache' r' ms',
    update_cache debian_normalize_member (Some two_cache)
      (Some (demo_contents ++ ["usr/share/man/man5/foo.5.gz main/foo"]))
      (Some [demo_paragraph "1.0" "pool/f/foo_1.0.deb"])
    = Ok cache'
    /\ get PackageName_dec demo_key cache' = Some r'
    /\ flushed r' = false
    /\ members r' = Some ms'
    /\ get string_dec
           (debian_normalize_member "usr/share/man/man5/foo.5.gz") ms'
       = Some {| name := manpage_name
                           (debian_normalize_member
                              "usr/share/man/man5/foo.5.gz");
                 state := 0; link := None |}.
Proof.
  eexists.
  destruct (update_cache_new_member_unflushes
              debian_normalize_member two_cache _
              (demo_contents ++ ["usr/share/man/man5/foo.5.gz main/foo"])
              [demo_paragraph "1.0" "pool/f/foo_1.0.deb"]
              [(demo_key, "usr/share/man/man1/foo.1.gz");
               (demo_key, "usr/share/man/man5/foo.5.gz")]
              demo_key "usr/share/man/man5/foo.5.gz"
              eq_refl eq_refl)
    as (r' & ms' & Hget & Hf & Hms & Hm).
  - right. left. reflexivity.
  - intros (r & ms & Hr & Hms & Hhas). vm_compute in Hr.
    inversion Hr. subst r. vm_compute in Hms. inversion Hms. subst ms.
    vm_compute in Hhas. discriminate Hhas.
  - exists r', ms'. split; [reflexivity|]. auto.
Defined.

(** The archive [foo], marked earlier, is listed again. *)
Lemma update_cache_todelete_sticky_witness :
  exists cache' r',
    update_cache debian_normalize_member
      (Some [(demo_key,
              set_todelete (extracted_record "1.0" "pool/f/foo.deb"))])
      (Some demo_contents)
      (Some [demo_paragraph "1.0" "pool/f/foo.deb"])
    = Ok cache'
    /\ get PackageName_dec demo_key cache' = Some r'
    /\ todelete r' = Some true.
Proof.
  eexists.
  destruct (update_cache_todelete_sticky
              debian_normalize_member
              [(demo_key,
                set_todelete (extracted_record "1.0" "pool/f/foo.deb"))]
              _ demo_contents [demo_paragraph "1.0" "pool/f/foo.deb"]
              demo_key _ eq_refl eq_refl eq_refl)
    as (r' & Hget & Ht).
  exists r'. split; [reflexivity|]. auto.
Defined.

(** The archive [foo] is new to the cache and has a paragraph. *)
Lemma update_cache_fails_without_version_witness :
  exists e,
    update_cache debian_normalize_member (Some [(old_key, old_record)])
      (Some demo_contents)
      (Some [demo_paragraph "1.0" "pool/f/foo.deb"])
    = Raise e.
Proof.
  apply (update_cache_fails_without_version
           debian_normalize_member [(old_key, old_record)] demo_contents
           [demo_paragraph "1.0" "pool/f/foo.deb"] [demo_key]
           (demo_paragraph "1.0" "pool/f/foo.deb") demo_key).
  - reflexivity.
  - left. reflexivity.
  - reflexivity.
  - left. reflexivity.
Defined.

Lemma two_cache_flushed_sound : flushed_sound two_cache.
Proof.
  intros k r ms Hget _ Hms. simpl in Hget.
  destruct (PackageName_dec k demo_key).
  - inversion Hget. subst r. inversion Hms. subst ms.
    constructor; [discriminate | constructor].
  - destruct (PackageName_dec k old_key); [|discriminate Hget].
    inversion Hget. subst r. inversion Hms. subst ms.
    constructor; [discriminate | constructor].
Defined.

Lemma update_cache_flushed_sound_witness :
  exists cache',
    update_cache debian_normalize_member (Some two_cache)
      (Some demo_contents)
      (Some [demo_paragraph "2.0" "pool/f/foo_2.0.deb"])
    = Ok cache'
    /\ flushed_sound cache'.
Proof.
  eexists. split; [reflexivity|].
  apply (update_cache_flushed_sound
           debian_normalize_member two_cache _ demo_contents
           [demo_paragraph "2.0" "pool/f/foo_2.0.deb"]
           two_cache_flushed_sound eq_refl).
Defined.

Lemma links_cache_flushed_sound : flushed_sound links_cache.
Proof.
  intros k r ms Hget Hf Hms. simpl in Hget.
  destruct (PackageName_dec k demo_key); [|discriminate Hget].
  inversion Hget. subst r. discriminate Hf.
Defined.

Lemma get_manpages_flushed_sound_witness :
  flushed_sound (fst (fst links_run)).
Proof.
  apply (get_manpages_flushed_sound
           demo_world "foo" links_cache _ demo_fs
           (snd (fst links_run)) (snd links_run)
           links_cache_flushed_sound eq_refl).
Defined.

Lemma get_manpages_progress_witness :
  keys (fst (fst lost_run)) = keys lost_cache
  /\ forall k r,
      get PackageName_dec k lost_cache = Some r ->
      exists r',
        get PackageName_dec k (fst (fst lost_run)) = Some r'
        /\ ver r' = ver r /\ url r' = url r /\ desc r' = desc r
        /\ todelete r' = todelete r
        /\ (flushed r = true -> r' = r)
        /\ members_progress (members r) (members r').
Proof.
  apply (get_manpages_progress
           demo_world "foo" lost_cache _ demo_fs
           (snd (fst lost_run)) (snd lost_run) eq_refl).
Defined.

Lemma tmpfile_removed_on_return_none_witness :
  isfile (snd (fst links_run)) (mkstemp demo_world) = false.
Proof.
  apply (tmpfile_removed_on_return_none
           demo_world "foo" links_cache (fst (fst links_run)) demo_fs).
  reflexivity.
Defined.

(** Two sections hold a package [foo]: the one of [contrib] is never
    touched. *)
Lemma shadowed_record_never_touched_witness :
  get PackageName_dec contrib_key (fst (fst shadow_run))
  = get PackageName_dec contrib_key shadow_cache.
Proof.
  apply (shadowed_record_never_touched
           demo_world "foo" shadow_cache (fst (fst shadow_run)) demo_fs
           (snd (fst shadow_run)) (snd shadow_run)
           [] [] [] demo_key contrib_key
           (demo_record [pending "usr/share/man/man1/bar.1.gz";
                         pending "usr/share/man/man1/dangling.1.gz"])
           (demo_record [pending "usr/share/man/man1/foo.1.gz"])
           eq_refl).
  - constructor.
    + intros [E|[]]. discriminate E.
    + constructor; [intros [] | constructor].
  - reflexivity.
  - reflexivity.
Defined.

Lemma get_manpages_writes_in_container_witness :
  (forall d, isdir (snd (fst lost_run)) d = true ->
             isdir demo_fs d = true
             \/ path_above d (pjoin (output_dir demo_world) "foo"))
  /\ forall path,
      isfile (snd (fst lost_run)) path = true ->
      isfile demo_fs path = true
      \/ path = mkstemp demo_world
      \/ exists k r ms m v,
          get PackageName_dec k lost_cache = Some r
          /\ members r = Some ms
          /\ In (m, v) ms
          /\ path = pjoin (pjoin (output_dir demo_world) "foo") (name v)
          /\ (Py.contains_char "/" (name v) = false ->
              exists sep,
                (sep = "" \/ sep = "/")
                /\ path = (pjoin (output_dir demo_world) "foo"
                           ++ sep ++ name v)%string).
Proof.
  apply (get_manpages_writes_in_container
           demo_world "foo" lost_cache (fst (fst lost_run)) demo_fs
           (snd (fst lost_run)) (snd lost_run) eq_refl).
Defined.

(** The link [bar.1.gz] of the small archive is written as [bar.1], with
    the decompressed content of its target. *)
Lemma extracted_file_holds_content_witness :
  get string_dec "/srv/fetcher/output/foo/bar.1"
      (files (snd (fst links_run)))
  = Some "FOO".
Proof.
  apply (extracted_file_holds_content
           demo_world "foo" links_cache (fst (fst links_run)) demo_fs
           (snd (fst links_run)) (snd links_run) demo_key _ "deb"
           demo_data _ [] [pending "usr/share/man/man1/dangling.1.gz"]
           "usr/share/man/man1/bar.1.gz"
           (snd (pending "usr/share/man/man1/bar.1.gz")) "gz:FOO" "FOO"
           eq_refl links_reach_loop eq_refl eq_refl eq_refl eq_refl eq_refl
           eq_refl eq_refl).
  - intros m2 v2 [E|[]]. inversion E. subst. vm_compute. discriminate.
  - vm_compute. discriminate.
Defined.

Lemma loaddb_rows_match_cache_witness :
  exists rows,
    manpages (fst (loaddb {| manpages := []; packages_table := [] |}
                          (Some demo_contents)
                          (Some [demo_paragraph "1.0" "pool/f/foo.deb"])))
    = [] ++ rows
    /\ (forall row,
           In row rows ->
           is_manpage (row_path row) = true
           /\ manpage_name (row_path row)
              = (row_name row ++ String "." (row_section row))%string
           /\ exists k,
               package k = row_package row
               /\ registered k (debian_normalize_member (row_path row))
                    [(demo_key,
                      demo_record [pending "usr/share/man/man1/foo.1.gz"])])
    /\ (forall k m,
           registered k m
             [(demo_key,
               demo_record [pending "usr/share/man/man1/foo.1.gz"])] ->
           exists row, In row rows
                       /\ row_package row = package k
                       /\ debian_normalize_member (row_path row) = m).
Proof.
  apply (loaddb_rows_match_cache
           debian_normalize_member
           {| manpages := []; packages_table := [] |} _
           demo_contents [demo_paragraph "1.0" "pool/f/foo.deb"]
           (snd (loaddb {| manpages := []; packages_table := [] |}
                        (Some demo_contents)
                        (Some [demo_paragraph "1.0" "pool/f/foo.deb"])))).
  - vm_compute. reflexivity.
  - reflexivity.
Defined.

Lemma loaddb_packages_have_pages_witness :
  exists rows prows,
    manpages (fst (loaddb {| manpages := []; packages_table := [] |}
                          (Some demo_contents)
                          (Some [old_paragraph;
                                 demo_paragraph "1.0" "pool/f/foo.deb"])))
    = [] ++ rows
    /\ packages_table
         (fst (loaddb {| manpages := []; packages_table := [] |}
                      (Some demo_contents)
                      (Some [old_paragraph;
                             demo_paragraph "1.0" "pool/f/foo.deb"])))
       = [] ++ prows
    /\ forall prow,
        In prow prows ->
        (exists row, In row rows /\ row_package row = prow_package prow)
        /\ exists b,
            In b [old_paragraph; demo_paragraph "1.0" "pool/f/foo.deb"]
            /\ b_Package b = Some (prow_package prow)
            /\ b_Filename b = Some (prow_filename prow)
            /\ b_Version b = Some (prow_version prow)
            /\ b_Description b = Some (prow_description prow).
Proof.
  apply (loaddb_packages_have_pages
           {| manpages := []; packages_table := [] |} _
           demo_contents
           [old_paragraph; demo_paragraph "1.0" "pool/f/foo.deb"]
           (Ok tt)).
  reflexivity.
Defined.

(** ** A second call, and the fetcher of [fetch.py] *)

Section SecondCall.

Variable w : World.

(** X19: after a call that ran the member loop to its end, a second call
    for the same package returns [True] at once: the cache and the file
    system stay as the first call left them, and nothing is downloaded. *)
Theorem completed_archive_is_skipped
        (pkg : string) (packages packages' : Cache)
        (fs fs' : FileSystem) (p : PackageName) (cp : DebianPackage)
        (content : string) (data_file : DataFile) (ms : Members) :
  reaches_loop w pkg packages p cp content data_file ms ->
  get_manpages_from_package w pkg packages fs
  = (packages', fs', Returned None) ->
  get_manpages_from_package w pkg packages' fs'
  = (packages', fs', Returned (Some true)).
Proof.
  intros Hreach Hrun.
  pose proof Hreach as (Hfind & Hget & _).
  destruct (make_container w pkg fs) as [fs0 [x|]] eqn:Hmk.
  { rewrite (get_manpages_not_ready _ _ _ _ _ _ Hmk) in Hrun.
    discriminate Hrun. }
  assert (Hready : container_ready w pkg fs)
    by (unfold container_ready; rewrite Hmk; reflexivity).
  rewrite (get_manpages_at_loop _ _ _ _ _ _ _ _ _ Hready Hreach) in Hrun.
  destruct (member_loop w data_file (pjoin (output_dir w) pkg) ms
                        (fs_at_loop w pkg content fs))
    as [[ms' fs1] e] eqn:Hloop.
  destruct e; inversion Hrun; subst. clear Hrun.
  destruct (member_loop_files _ _ _ _ _ _ _ _ Hloop) as [Hdirs _].
  unfold get_manpages_from_package. cbv zeta.
  assert (Hdir : isdir (unlink fs1 (mkstemp w)) (pjoin (output_dir w) pkg)
                 = true).
  { unfold isdir, unlink. simpl. rewrite Hdirs.
    unfold fs_at_loop, write_file. simpl. rewrite Hmk. simpl.
    apply (proj2 (proj2 (proj2 (make_container_shape _ _ _ _ _ Hmk)))).
    reflexivity. }
  unfold make_container. cbv zeta. rewrite Hdir.
  assert (Hfind' : find_package pkg
                     (set PackageName_dec p (with_members cp ms' true)
                          packages) = Ok p).
  { unfold find_package in *.
    rewrite (keys_set_present PackageName_dec p _ cp) by exact Hget.
    exact Hfind. }
  rewrite Hfind'. unfold getitem_default. rewrite get_set_eq.
  reflexivity.
Qed.

(** The ways a call of [get_manpages_from_package] of [fetch.py] ends. *)
Lemma mirror_get_manpages_shape (pkg : string) (packages packages' : Cache)
      (fs fs' : FileSystem) (o : Outcome) :
  FetchPy.get_manpages_from_package w pkg packages fs
  = (packages', fs', o) ->
  let container := pjoin (output_dir w) pkg in
  let fs0 := fst (make_container w pkg fs) in
  (packages' = packages /\ fs' = fs0 /\ o <> Returned None)
  \/ (exists p cp data_file ms ms' e,
         get PackageName_dec p packages = Some cp
         /\ flushed cp = false
         /\ members cp = Some ms
         /\ member_loop w data_file container ms fs0 = (ms', fs', e)
         /\ packages'
            = set PackageName_dec p
                  (with_members cp ms'
                     (match e with Completed => true | _ => false end))
                  packages).
Proof.
  intros Hrun container fs0.
  unfold FetchPy.get_manpages_from_package in Hrun.
  cbv zeta in Hrun. fold container in Hrun.
  subst fs0. destruct (make_container w pkg fs) as [fs0 [x|]].
  { inversion Hrun. left. repeat split. discriminate. }
  cbn [fst].
  destruct (find_package pkg packages) as [p|x] eqn:Hfind.
  2:{ inversion Hrun. left. repeat split. discriminate. }
  unfold getitem_default in Hrun.
  destruct (get PackageName_dec p packages) as [cp|] eqn:Hget.
  2:{ simpl in Hrun. inversion Hrun. left. repeat split. discriminate. }
  destruct (flushed cp) eqn:Hfl.
  { inversion Hrun. left. repeat split. discriminate. }
  destruct (url cp) as [u|].
  2:{ inversion Hrun. left. repeat split. discriminate. }
  destruct (match get string_dec (pjoin FetchPy.base_mirror_path u)
                     (files fs0) with
            | Some bytes => DebFile_data w bytes
            | None => None
            end) as [data_file|].
  2:{ inversion Hrun. left. repeat split. discriminate. }
  destruct (members cp) as [ms|] eqn:Hms.
  2:{ inversion Hrun. left. repeat split. discriminate. }
  destruct (member_loop w data_file container ms fs0)
    as [[ms' fs1] e] eqn:Hloop.
  right. exists p, cp, data_file, ms, ms', e.
  destruct e; inversion Hrun; subst; auto.
Qed.

Lemma member_loop_isfile_mono (data_file : DataFile) (container : string)
      (ms ms' : Members) (fs fs' : FileSystem) (e : LoopExit)
      (path : string) :
  member_loop w data_file container ms fs = (ms', fs', e) ->
  isfile fs path = true -> isfile fs' path = true.
Proof.
  revert fs ms' fs' e.
  induction ms as [|[m v] ms IH]; intros fs ms' fs' e; simpl.
  - intros H. inversion H. auto.
  - destruct (process_member w data_file container m v fs)
      as [[v1 fs1] s] eqn:Hstep.
    assert (Hmono : isfile fs path = true -> isfile fs1 path = true).
    { clear IH. unfold process_member in Hstep.
      destruct (negb (state v =? 0)%Z); [inversion Hstep; auto|].
      destruct (getmember data_file ("./" ++ m)) as [item|];
        [|inversion Hstep; auto].
      destruct (get_file data_file m) as [c|x].
      - destruct (if Py.endswith m ".gz" then gunzip w c else Ok c);
          inversion Hstep; subst; intros Hp;
          rewrite ?isfile_write;
          repeat match goal with
                 | |- context [string_dec ?a ?b] => destruct (string_dec a b)
                 end; auto.
      - destruct x; try (inversion Hstep; auto; fail).
        destruct (issym item); inversion Hstep; auto. }
    destruct s.
    + destruct (member_loop w data_file container ms fs1)
        as [[rest' fs2] e2] eqn:Hrest.
      intros H. inversion H. subst. intros Hp.
      apply (IH _ _ _ _ Hrest). apply Hmono. exact Hp.
    + intros H. inversion H. subst. exact Hmono.
    + intros H. inversion H. subst. exact Hmono.
Qed.

(** X20: a call of [get_manpages_from_package] of [fetch.py], however it
    ends, keeps the invariant that a flushed record has no pending member,
    and removes no file. *)
Theorem mirror_get_manpages_sound
        (pkg : string) (packages packages' : Cache)
        (fs fs' : FileSystem) (o : Outcome) :
  FetchPy.get_manpages_from_package w pkg packages fs
  = (packages', fs', o) ->
  (flushed_sound packages -> flushed_sound packages')
  /\ forall path, isfile fs path = true -> isfile fs' path = true.
Proof.
  intros Hrun.
  assert (Hf0 : forall path,
             isfile (fst (make_container w pkg fs)) path
             = isfile fs path)
    by (intros path; apply make_container_isfile).
  destruct (mirror_get_manpages_shape _ _ _ _ _ _ Hrun)
    as [(E & Efs & _)
       |(p & cp & df & ms & ms' & e & Hp & Hfl & Hms & Hloop & E)];
    subst packages'.
  - split; [auto|]. intros path Hpath. subst fs'. rewrite Hf0.
    exact Hpath.
  - split.
    + intros Hsound k r' ms0 Hget Hf Hms0.
      destruct (PackageName_dec k p) as [Ek|Nk].
      * subst k. rewrite get_set_eq in Hget. inversion Hget. subst r'.
        simpl in Hf, Hms0. inversion Hms0. subst ms0.
        destruct e; try discriminate Hf.
        apply (proj2 (member_loop_progress _ _ _ _ _ _ _ _ Hloop)).
        reflexivity.
      * rewrite get_set_neq in Hget by exact Nk.
        apply (Hsound k r' ms0); auto.
    + intros path Hpath.
      apply (member_loop_isfile_mono _ _ _ _ _ _ _ path Hloop).
      rewrite Hf0. exact Hpath.
Qed.

End SecondCall.

Lemma completed_archive_is_skipped_witness :
  get_manpages_from_package demo_world "foo"
    (fst (fst links_run)) (snd (fst links_run))
  = (fst (fst links_run), snd (fst links_run), Returned (Some true)).
Proof.
  apply (completed_archive_is_skipped
           demo_world "foo" links_cache (fst (fst links_run)) demo_fs
           (snd (fst links_run)) demo_key _ "deb" demo_data _
           links_reach_loop).
  reflexivity.
Defined.

Lemma mirror_get_manpages_sound_witness :
  (flushed_sound links_cache -> flushed_sound (fst (fst mirror_run)))
  /\ forall path,
      isfile mirror_fs path = true ->
      isfile (snd (fst mirror_run)) path = true.
Proof.
  apply (mirror_get_manpages_sound
           demo_world "foo" links_cache (fst (fst mirror_run)) mirror_fs
           (snd (fst mirror_run)) (snd mirror_run)).
  reflexivity.
Defined.
